(** * Family import: reconciliation of the benefit and enrollment extracts

    A shallow embedding of [backend/src/models/families.ts]: the progress
    report registry, the schema checks, and the import pipeline
    [importFamilyFromCadAndSislameCSV] (key deduplication, eligibility filter,
    accent stripping, split-dependent detection, cross-reference loop,
    duplicate-resolution loop, persistence). *)

From Stdlib Require Import List String Ascii ZArith Bool Arith Lia QArith.
From Stdlib Require Import DecimalString.
From Equations Require Import Equations.
Import ListNotations.

Local Close Scope Q_scope.
Local Open Scope string_scope.
Local Open Scope list_scope.

(** ** JavaScript values used by the pipeline *)

(** A CSV row as produced by [csvtojson] with [flatKeys]: an object whose
    values are strings, kept in insertion order (column names that look like
    array indices, which JavaScript enumerates first, are not modelled). *)
Definition Row := list (string * string).
Definition FamilyItem := Row.
Definition SislameItem := Row.

(** [item[k]]: [None] is [undefined]. *)
Fixpoint get (k : string) (r : Row) : option string :=
  match r with
  | [] => None
  | (k', v) :: t => if String.eqb k k' then Some v else get k t
  end.

(** [{...r, k: v}] and property assignment: overwrite in place, else append. *)
Fixpoint set (k v : string) (r : Row) : Row :=
  match r with
  | [] => [(k, v)]
  | (k', v') :: t => if String.eqb k k' then (k', v) :: t else (k', v') :: set k v t
  end.

(** [Object.keys(item)]. *)
Definition keys (r : Row) : list string := map fst r.

(** How a template literal renders a possibly undefined string. *)
Definition tpl (x : option string) : string :=
  match x with Some s => s | None => "undefined" end.

(** [===] on values that are strings or [undefined]. *)
Definition strictEq (a b : option string) : bool :=
  match a, b with
  | Some x, Some y => String.eqb x y
  | None, None => true
  | _, _ => false
  end.

(** [Array.prototype.join]. *)
Fixpoint join (sep : string) (l : list string) : string :=
  match l with
  | [] => ""
  | [x] => x
  | x :: t => x ++ sep ++ join sep t
  end.

(** [Array.prototype.findIndex]; [None] is [-1]. *)
Fixpoint findIndex {A} (p : A -> bool) (l : list A) : option nat :=
  match l with
  | [] => None
  | x :: t => if p x then Some 0 else option_map S (findIndex p t)
  end.

(** [lodash/uniqBy]: first occurrence of every key, in order. *)
Fixpoint uniqByFrom {A K} (eqb : K -> K -> bool) (f : A -> K) (seen : list K) (l : list A) : list A :=
  match l with
  | [] => []
  | x :: t =>
      if existsb (eqb (f x)) seen then uniqByFrom eqb f seen t
      else x :: uniqByFrom eqb f (f x :: seen) t
  end.

Definition uniqBy {A K} (eqb : K -> K -> bool) (f : A -> K) (l : list A) : list A :=
  uniqByFrom eqb f [] l.

(** A calendar day, all that the format [DD/MM/YYYY] carries. *)
Record CalDate := { year : Z; month : Z; day : Z }.

(** A JavaScript [Date]: a valid instant or [Invalid Date] (time value NaN). *)
Inductive JsDate := ValidDate (d : CalDate) | InvalidDate.

(** [moment.toDate()]: an invalid moment gives [Invalid Date]. *)
Definition toDate (m : option CalDate) : JsDate :=
  match m with Some d => ValidDate d | None => InvalidDate end.

(** [City['id']] is [number | string]. *)
Inductive CityId := CityNum (n : Z) | CityStr (s : string).

Definition cityEqb (a b : CityId) : bool :=
  match a, b with
  | CityNum x, CityNum y => Z.eqb x y
  | CityStr x, CityStr y => String.eqb x y
  | _, _ => false
  end.

(** ** Import report registry (lines 19-97) *)

Inductive Status :=
| Idle | Completed | Failed | ReadingFiles | FilteringData | Saving | ComparingData.

Record ImportReport := {
  status : Status;
  message : option string;
  percentage : option Q;
  cityId : option CityId;
  inProgress : option bool
}.

(** A report literal [{ status }] with every optional field absent. *)
Definition report (s : Status) : ImportReport :=
  {| status := s; message := None; percentage := None; cityId := None; inProgress := None |}.

Definition ofCity (c : CityId) (r : ImportReport) : bool :=
  match cityId r with Some c' => cityEqb c' c | None => false end.

Definition getImportReport (importReportList : list ImportReport) (c : CityId) : ImportReport :=
  match find (ofCity c) importReportList with
  | None => {| status := Idle; message := None; percentage := None;
               cityId := Some c; inProgress := Some false |}
  | Some importReport => importReport
  end.

(** [list.splice(index, 1)]. *)
Fixpoint splice1 {A} (index : nat) (l : list A) : list A :=
  match l, index with
  | [], _ => []
  | _ :: t, O => t
  | x :: t, S i => x :: splice1 i t
  end.

Definition updateImportReport (importReport : ImportReport) (c : CityId)
    (importReportList : list ImportReport) : list ImportReport :=
  let removed :=
    match findIndex (ofCity c) importReportList with
    | Some index => splice1 index importReportList
    | None => importReportList
    end in
  let inProgress' :=
    match inProgress importReport with Some b => b | None => true end in
  removed ++ [ {| status := status importReport;
                  message := message importReport;
                  percentage := percentage importReport;
                  cityId := Some c;
                  inProgress := Some inProgress' |} ].

(** ** Vocabulary for the registry's properties *)

(** At most one stored report per city: true of the empty list the process
    starts with and kept by every update. *)
Definition onePerCity (l : list ImportReport) : Prop :=
  forall c, List.length (filter (ofCity c) l) <= 1.

(** What an update stores: the new report's own fields, the city, and
    [inProgress] defaulting to true. *)
Definition stored (r : ImportReport) (c : CityId) : ImportReport :=
  {| status := status r; message := message r; percentage := percentage r;
     cityId := Some c;
     inProgress := Some (match inProgress r with Some b => b | None => true end) |}.

Definition idleReport (c : CityId) : ImportReport :=
  {| status := Idle; message := None; percentage := None;
     cityId := Some c; inProgress := Some false |}.

(** The other reports of the list once the one of city [c] is spliced out. *)
Definition withoutCity (c : CityId) (l : list ImportReport) : list ImportReport :=
  match findIndex (ofCity c) l with
  | Some index => splice1 index l
  | None => l
  end.

(** ** Families, dependents and the collaborators outside the repository *)

(** Modelled from the spec: [parseFamilyAndSislameItems] (models/dependents.ts)
    is not part of the sources at hand.  The spec only says that a dependent
    record is built from a benefit row and the enrollment row matched to it and
    that its identity is the benefit row's dependent national ID, so the record
    is kept as the pair of rows it is built from. *)
Record Dependent := { fromFamilyItem : FamilyItem; fromSislameItem : SislameItem }.

Definition parseFamilyAndSislameItems (familyItem : FamilyItem) (sislameItem : SislameItem) : Dependent :=
  {| fromFamilyItem := familyItem; fromSislameItem := sislameItem |}.

(** The dependent national ID carried by a dependent record. *)
Definition dependentNis (d : Dependent) : option string :=
  get "NISDEPENDEN" (fromFamilyItem d).

(** The fields of [Family] (schemas/families.ts) that the import fills in. *)
Record Family := {
  responsibleNis : option string;
  responsibleName : option string;
  responsibleBirthday : JsDate;
  responsibleMotherName : string;
  code : string;
  groupName : string;
  familyCityId : CityId;
  dependents : option (list Dependent)
}.

(** What the import takes from libraries and from modules outside the sources:
    [lodash/deburr]; [compareNames] of utils/string; [moment(x, 'DD/MM/YYYY')]
    ([None] is an invalid moment, also for an undefined input) and
    [moment().startOf('month').diff(m, 'years')]; the key of
    [getFamilyGroupByCode(0)]; and the database behind
    [certifyFamilyAndDependents], which answers with the stored family or fails
    with an error message. *)
Class Externals := {
  deburr : string -> string;
  compareNames : option string -> option string -> bool;
  momentParse : option string -> option CalDate;
  yearsBeforeThisMonth : CalDate -> Z;
  defaultGroupKey : string;
  dbCertify : Family -> string + Family
}.

(** ** Effects: thrown values, the world the import acts on, and its monad *)

(** Values thrown: the object literals [{ status, message }] of the checks, and
    JavaScript errors (a [TypeError] on an undefined row, a database error). *)
Inductive Thrown := Http (status : Z) (message : string) | JsError (message : string).

Definition errorMessage (e : Thrown) : string :=
  match e with Http _ m => m | JsError m => m end.

(** The process-wide report list, the records handed to the reason-file writer
    (in write order) and the families handed to the database (in call order).
    The registry of writers per city is left out. *)
Record World := {
  reports : list ImportReport;
  reasonRecords : list Row;
  certified : list Family
}.

Inductive Outcome (A : Type) := Returned (a : A) | Threw (e : Thrown).
Arguments Returned {A} a.
Arguments Threw {A} e.

Definition M (A : Type) := World -> World * Outcome A.

Definition ret {A} (a : A) : M A := fun w => (w, Returned a).
Definition throw {A} (e : Thrown) : M A := fun w => (w, Threw e).
Definition bind {A B} (m : M A) (k : A -> M B) : M B :=
  fun w => match m w with
           | (w', Returned a) => k a w'
           | (w', Threw e) => (w', Threw e)
           end.

Notation "x <- m ;; k" := (bind m (fun x => k))
  (at level 100, m at next level, right associativity).
Notation "m ;;; k" := (bind m (fun _ => k))
  (at level 100, right associativity).

Definition updateImportReportM (importReport : ImportReport) (c : CityId) : M unit :=
  fun w => ({| reports := updateImportReport importReport c (reports w);
               reasonRecords := reasonRecords w;
               certified := certified w |}, Returned tt).

(** [await CSVWriter.writeRecords(records)]. *)
Definition writeRecords (records : list Row) : M unit :=
  fun w => ({| reports := reports w;
               reasonRecords := reasonRecords w ++ records;
               certified := certified w |}, Returned tt).



(** Every run of [m] moves the world along [R]. *)
Definition stepsBy {A} (R : World -> World -> Prop) (m : M A) : Prop :=
  forall w, R w (fst (m w)).

(** Every run of [m] moves the world along [R], and a list of families it
    returns satisfies [Q]. *)
Definition keeps (R : World -> World -> Prop) (Q : list Family -> Prop)
    (m : M (list Family)) : Prop :=
  forall w, R w (fst (m w)) /\ forall granted, snd (m w) = Returned granted -> Q granted.

(** [{ ...item, reason }]. *)
Definition withReason (reason : string) (item : Row) : Row := set "reason" reason item.


(** [Array.prototype.findIndex] together with the element read back at the
    index found. *)
Fixpoint findEntry {A} (p : A -> bool) (l : list A) : option (nat * A) :=
  match l with
  | [] => None
  | x :: t =>
      if p x then Some (0, x)
      else match findEntry p t with Some (i, y) => Some (S i, y) | None => None end
  end.

(** A list paired with its indices, as [for ... in] and the index argument of
    [filter] and [find] see it. *)
Definition indexed {A} (l : list A) : list (nat * A) := combine (seq 0 (List.length l)) l.

Definition fraction (i n : nat) : Q := Qmake (Z.of_nat i) (Pos.of_nat n).

(** ** Schema checks (lines 345-383) *)

Definition requiredSislameKeys : list string :=
  ["Aluno"; "Mãe"; "Pai"; "Nome Responsável"; "Data Nascimento"].

Definition requiredFamilyKeys : list string :=
  ["DEPENDENTE"; "NISDEPENDEN"; "NISTITULAR"; "TITULAR"; "DTNASCTIT"; "DTNASCDEP"].

(** [requiredKeys.filter((key) => availableKeys.indexOf(key) < 0)]. *)
Definition notFoundKeys (requiredKeys availableKeys : list string) : list string :=
  filter (fun key => negb (existsb (String.eqb key) availableKeys)) requiredKeys.

Definition missingMessage (table : string) (notFound availableKeys : list string) : string :=
  "Na tabela do " ++ table ++ ", as seguintes colunas não foram encontradas: "
    ++ join ", " notFound ++ " --- Disponíveis: " ++ join ", " availableKeys.

Definition failedReport (m : string) : ImportReport :=
  {| status := Failed; message := Some m; percentage := None;
     cityId := None; inProgress := Some false |}.

Definition checkRequired (table : string) (requiredKeys : list string)
    (item : option Row) (c : CityId) : M unit :=
  match item with
  | None => throw (Http 412 ("Nenhum dado na tabela do " ++ table))
  | Some item =>
      let availableKeys := keys item in
      let notFound := notFoundKeys requiredKeys availableKeys in
      match notFound with
      | [] => ret tt
      | _ :: _ =>
          let message := missingMessage table notFound availableKeys in
          updateImportReportM (failedReport message) c ;;;
          throw (Http 412 message)
      end
  end.

Definition checkRequiredSislameData (item : option SislameItem) (c : CityId) : M unit :=
  checkRequired "Sislame" requiredSislameKeys item c.

Definition checkRequiredFamilyData (item : option FamilyItem) (c : CityId) : M unit :=
  checkRequired "Bolsa Família" requiredFamilyKeys item c.

(** Whether [needle] occurs in [text]. *)
Fixpoint contains (needle text : string) : bool :=
  String.prefix needle text
  || match text with
     | EmptyString => false
     | String _ rest => contains needle rest
     end.

(** ** The import pipeline (lines 391-624) *)

Section Pipeline.

Context {E : Externals}.

(** [parseFamilyItem] (lines 328-338). *)
Definition parseFamilyItem (family : FamilyItem) (c : CityId) : Family :=
  {| responsibleNis := get "NISTITULAR" family;
     responsibleName := get "TITULAR" family;
     responsibleBirthday := toDate (momentParse (get "DTNASCTIT" family));
     responsibleMotherName := "";
     code := "";
     groupName := defaultGroupKey;
     familyCityId := c;
     dependents := None |}.

(** The keys handed to [uniqBy] at lines 417 and 418. *)
Definition familyKey (item : FamilyItem) : string :=
  tpl (get "NISTITULAR" item) ++ "-" ++ tpl (get "NISDEPENDEN" item).

Definition sislameKey (item : SislameItem) : string :=
  tpl (get "Aluno" item) ++ "-" ++ tpl (get "Matricula" item).

(** [moment().startOf('month').diff(moment(x, 'DD/MM/YYYY'), 'years') < 18];
    on an invalid moment the difference is NaN and the comparison is false. *)
Definition validAge (birthday : option string) : bool :=
  match momentParse birthday with
  | Some d => Z.ltb (yearsBeforeThisMonth d) 18
  | None => false
  end.

Definition ofAgeReason : string := "Depedente maior de idade".

(** The [reduce] of lines 422-435: [(valid, invalid)]. *)
Definition filterByAge (data : list FamilyItem) : list FamilyItem * list FamilyItem :=
  fold_left
    (fun acc item =>
       let '(valid, invalid) := acc in
       if negb (validAge (get "DTNASCDEP" item))
       then (valid, invalid ++ [withReason ofAgeReason item])
       else (valid ++ [item], invalid))
    data ([], []).

(** [JSON.parse(deburr(JSON.stringify(data)))] on rows of strings: [deburr]
    rewrites letters only, so the JSON text keeps its shape and every key and
    every value is deburred; keys that become equal collapse as [JSON.parse]
    does (first position, last value). *)
Definition deburrRow (r : Row) : Row :=
  fold_left (fun acc kv => set (deburr (fst kv)) (deburr (snd kv)) acc) r [].

Definition deburrData (data : list Row) : list Row := map deburrRow data.

(** Lines 445-450: the rows whose NISDEPENDEN is also on another row. *)
Definition duplicatedDependentOf (familyData : list FamilyItem) : list FamilyItem :=
  map snd
    (filter
       (fun ix =>
          existsb
            (fun jx =>
               if Nat.eqb (fst ix) (fst jx) then false
               else strictEq (get "NISDEPENDEN" (snd ix)) (get "NISDEPENDEN" (snd jx)))
            (indexed familyData))
       (indexed familyData)).

(** Lines 489-501 and 559-574: push a new family or extend the one on the
    list. *)
Definition replaceAt {A} (i : nat) (f : A -> A) (l : list A) : list A :=
  map (fun ix => if Nat.eqb (fst ix) i then f (snd ix) else snd ix) (indexed l).

Definition withDependents (family : Family) (ds : list Dependent) : Family :=
  {| responsibleNis := responsibleNis family;
     responsibleName := responsibleName family;
     responsibleBirthday := responsibleBirthday family;
     responsibleMotherName := responsibleMotherName family;
     code := code family;
     groupName := groupName family;
     familyCityId := familyCityId family;
     dependents := Some ds |}.

Definition dependentsOf (family : Family) : list Dependent :=
  match dependents family with Some ds => ds | None => [] end.

Definition addGranted (grantedFamilies : list Family) (familyItem originalFamilyItem : FamilyItem)
    (originalSislameItem : SislameItem) (c : CityId) : list Family :=
  let alreadyOnListIndex :=
    findIndex (fun family => strictEq (responsibleNis family) (get "NISTITULAR" familyItem))
      grantedFamilies in
  let dependent := parseFamilyAndSislameItems originalFamilyItem originalSislameItem in
  match alreadyOnListIndex with
  | None => grantedFamilies ++ [withDependents (parseFamilyItem originalFamilyItem c) [dependent]]
  | Some i =>
      replaceAt i (fun family => withDependents family (dependentsOf family ++ [dependent]))
        grantedFamilies
  end.

Definition sislameOfAgeReason : string := "Dependente não é menor de idade no Sislame".
Definition otherResponsibleReason : string :=
  "Encontrado aluno com mesmo nome no Sislame, mas responsável diferente. Atualizar Sislame ou é um homônimo".
Definition notInSislameReason : string := "Dependente não está no Sislame".
Definition linkedToOtherReason (name : option string) : string :=
  "Dependente está vinculado à outra pessoa (" ++ tpl name ++ ")".

(** The predicate of the [findIndex] at lines 472-479. *)
Definition sameChildAndResponsible (familyItem : FamilyItem) (sislameItem : SislameItem) : bool :=
  let sameName := compareNames (get "Aluno" sislameItem) (get "DEPENDENTE" familyItem) in
  let sameResponsible :=
    compareNames (get "Mae" sislameItem) (get "TITULAR" familyItem)
    || compareNames (get "Pai" sislameItem) (get "TITULAR" familyItem)
    || compareNames (get "Nome Responsavel" sislameItem) (get "TITULAR" familyItem) in
  sameName && sameResponsible.

(** The predicate of the [find] at line 505. *)
Definition sameChild (familyItem : FamilyItem) (sislameItem : SislameItem) : bool :=
  compareNames (get "Aluno" sislameItem) (get "DEPENDENTE" familyItem).

Definition typeError {A} : M A := throw (JsError "TypeError").

(** One turn of the loop of lines 462-517.  An undefined original row makes
    the parsers fail on a property read. *)
Definition compareFamily (originalFamilyData : list FamilyItem)
    (originalSislameData sislameData : list SislameItem) (c : CityId) (total : nat)
    (familyIndex : nat) (familyItem : FamilyItem) (grantedFamilies : list Family)
    : M (list Family) :=
  updateImportReportM
    {| status := ComparingData; message := None;
       percentage := Some (fraction (familyIndex + 1) total);
       cityId := None; inProgress := None |} c ;;;
  match findEntry (sameChildAndResponsible familyItem) sislameData with
  | Some (sislameIndex, sislameItem) =>
      if negb (validAge (get "Data Nascimento" sislameItem)) then
        writeRecords [withReason sislameOfAgeReason familyItem] ;;;
        ret grantedFamilies
      else
        match nth_error originalFamilyData familyIndex,
              nth_error originalSislameData sislameIndex with
        | Some originalFamilyItem, Some originalSislameItem =>
            ret (addGranted grantedFamilies familyItem originalFamilyItem originalSislameItem c)
        | _, _ => typeError
        end
  | None =>
      match find (sameChild familyItem) sislameData with
      | Some _ =>
          writeRecords [withReason otherResponsibleReason familyItem] ;;;
          ret grantedFamilies
      | None =>
          writeRecords [withReason notInSislameReason familyItem] ;;;
          ret grantedFamilies
      end
  end.

Fixpoint compareLoop (originalFamilyData : list FamilyItem)
    (originalSislameData sislameData : list SislameItem) (c : CityId) (total : nat)
    (items : list (nat * FamilyItem)) (grantedFamilies : list Family) : M (list Family) :=
  match items with
  | [] => ret grantedFamilies
  | (familyIndex, familyItem) :: more =>
      granted' <- compareFamily originalFamilyData originalSislameData sislameData c total
                    familyIndex familyItem grantedFamilies ;;
      compareLoop originalFamilyData originalSislameData sislameData c total more granted'
  end.

(** Lines 524-540: the guardian keys in priority order and the first one for
    which some enrollment row carries the child and one of the claimants. *)
Definition sislamePossibleKeys : list string := ["Mae"; "Nome Responsavel"; "Pai"].

Definition sameChildAndParent (key : string) (duplicatedItens : list FamilyItem)
    (sislameItem : SislameItem) : bool :=
  let sameName :=
    compareNames (get "Aluno" sislameItem)
      (match duplicatedItens with first :: _ => get "DEPENDENTE" first | [] => None end) in
  let sameParent :=
    existsb (fun familyItem => compareNames (get key sislameItem) (get "TITULAR" familyItem))
      duplicatedItens in
  sameName && sameParent.

Fixpoint findSislameKey (possibleKeys : list string) (duplicatedItens : list FamilyItem)
    (sislameData : list SislameItem) : option (string * (nat * SislameItem)) :=
  match possibleKeys with
  | [] => None
  | key :: more =>
      match findEntry (sameChildAndParent key duplicatedItens) sislameData with
      | Some found => Some (key, found)
      | None => findSislameKey more duplicatedItens sislameData
      end
  end.

(** Lines 548-583: every claimant of the group against the row found. *)
Fixpoint resolveClaimants (originalFamilyData : list FamilyItem)
    (originalSislameData : list SislameItem) (c : CityId)
    (foundSislameKey : string) (sislameIndex : nat) (sislameItem : SislameItem)
    (claimants : list FamilyItem) (grantedFamilies : list Family) : M (list Family) :=
  match claimants with
  | [] => ret grantedFamilies
  | familyItem :: more =>
      let continue := resolveClaimants originalFamilyData originalSislameData c
                        foundSislameKey sislameIndex sislameItem more in
      if compareNames (get foundSislameKey sislameItem) (get "TITULAR" familyItem) then
        if negb (validAge (get "Data Nascimento" sislameItem)) then
          writeRecords [withReason sislameOfAgeReason familyItem] ;;;
          continue grantedFamilies
        else
          match find (fun item => strictEq (get "NISTITULAR" item) (get "NISTITULAR" familyItem))
                  originalFamilyData,
                nth_error originalSislameData sislameIndex with
          | Some originalFamilyItem, Some originalSislameItem =>
              continue
                (addGranted grantedFamilies familyItem originalFamilyItem originalSislameItem c)
          | _, _ => typeError
          end
      else
        writeRecords
          [withReason (linkedToOtherReason (get foundSislameKey sislameItem)) familyItem] ;;;
        continue grantedFamilies
  end.

(** The body of the [while] of lines 520-588 for one group. *)
Definition resolveGroup (originalFamilyData : list FamilyItem)
    (originalSislameData sislameData : list SislameItem) (c : CityId)
    (duplicatedItens : list FamilyItem) (grantedFamilies : list Family) : M (list Family) :=
  match findSislameKey sislamePossibleKeys duplicatedItens sislameData with
  | None =>
      writeRecords (map (withReason notInSislameReason) duplicatedItens) ;;;
      ret grantedFamilies
  | Some (foundSislameKey, (sislameIndex, sislameItem)) =>
      resolveClaimants originalFamilyData originalSislameData c
        foundSislameKey sislameIndex sislameItem duplicatedItens grantedFamilies
  end.

Definition sameDependent (first item : FamilyItem) : bool :=
  strictEq (get "NISDEPENDEN" item) (get "NISDEPENDEN" first).

(** The [while] of lines 520-588: one group per turn, taken off the pending
    list by the filter of line 587. *)
Equations? duplicatedLoop (originalFamilyData : list FamilyItem)
    (originalSislameData sislameData : list SislameItem) (c : CityId)
    (duplicatedDependent : list FamilyItem) (grantedFamilies : list Family)
    : M (list Family) by wf (List.length duplicatedDependent) lt :=
  duplicatedLoop originalFamilyData originalSislameData sislameData c [] grantedFamilies :=
    ret grantedFamilies;
  duplicatedLoop originalFamilyData originalSislameData sislameData c (first :: rest)
      grantedFamilies :=
    bind
      (resolveGroup originalFamilyData originalSislameData sislameData c
         (filter (sameDependent first) (first :: rest)) grantedFamilies)
      (fun granted' =>
         duplicatedLoop originalFamilyData originalSislameData sislameData c
           (filter (fun item => negb (sameDependent first item)) (first :: rest)) granted').
Proof.
  assert (Hfirst : sameDependent first first = true).
  { unfold sameDependent, strictEq. destruct (get "NISDEPENDEN" first); [apply String.eqb_refl | reflexivity]. }
  rewrite Hfirst. simpl.
  assert (Hle : forall l : list FamilyItem,
             List.length (filter (fun item => negb (sameDependent first item)) l) <= List.length l).
  { induction l as [|x t IH]; simpl; [lia | destruct (negb (sameDependent first x)); simpl; lia]. }
  specialize (Hle rest). lia.
Qed.

(** Lines 593-621: the saving loop inside [try], then the two ways out. *)
Fixpoint saveLoop (c : CityId) (total : nat) (items : list (nat * Family))
    (dbFamilies : list Family) : M (list Family) :=
  match items with
  | [] => ret dbFamilies
  | (index, family) :: more =>
      updateImportReportM
        {| status := Saving; message := None;
           percentage := Some (fraction (index + 1) total);
           cityId := None; inProgress := None |} c ;;;
      fun w =>
        let w' := {| reports := reports w; reasonRecords := reasonRecords w;
                     certified := certified w ++ [family] |} in
        match dbCertify family with
        | inr dbFamily => saveLoop c total more (dbFamilies ++ [dbFamily]) w'
        | inl m => (w', Threw (JsError m))
        end
  end.

Definition saveFamilies (c : CityId) (grantedFamilies : list Family) : M unit :=
  fun w =>
    match saveLoop c (List.length grantedFamilies) (indexed grantedFamilies) [] w with
    | (w', Returned _) =>
        updateImportReportM
          {| status := Completed; message := None; percentage := None;
             cityId := None; inProgress := Some false |} c w'
    | (w', Threw error) =>
        (updateImportReportM (failedReport (errorMessage error)) c ;;; throw error) w'
    end.

(** Everything between the checks and the saving: the granted families. *)
Definition originalFamilyDataOf (familyFile : list FamilyItem) : list FamilyItem :=
  fst (filterByAge (uniqBy String.eqb familyKey familyFile)).

Definition removedFamiliesOf (familyFile : list FamilyItem) : list FamilyItem :=
  snd (filterByAge (uniqBy String.eqb familyKey familyFile)).

Definition originalSislameDataOf (sislameFile : list SislameItem) : list SislameItem :=
  uniqBy String.eqb sislameKey sislameFile.

(** The main pool: [uniqBy(familyData, (item) => item.NISDEPENDEN)], line 451. *)
Definition uniqueCandidates (familyData : list FamilyItem) : list FamilyItem :=
  uniqBy strictEq (get "NISDEPENDEN") familyData.

Definition reconcile (familyFile : list FamilyItem) (sislameFile : list SislameItem)
    (c : CityId) : M (list Family) :=
  let originalFamilyData := originalFamilyDataOf familyFile in
  let originalSislameData := originalSislameDataOf sislameFile in
  writeRecords (removedFamiliesOf familyFile) ;;;
  let familyData := deburrData originalFamilyData in
  let sislameData := deburrData originalSislameData in
  let duplicatedDependent := duplicatedDependentOf familyData in
  let familyData := uniqueCandidates familyData in
  grantedFamilies <-
    compareLoop originalFamilyData originalSislameData sislameData c
      (List.length familyData) (indexed familyData) [] ;;
  duplicatedLoop originalFamilyData originalSislameData sislameData c
    duplicatedDependent grantedFamilies.

(** [importFamilyFromCadAndSislameCSV] on the rows read from the two files.
    The source returns nothing; the granted families are returned here so that
    the final list can be observed. *)
Definition importFamilyFromCadAndSislameCSV (familyFile : list FamilyItem)
    (sislameFile : list SislameItem) (c : CityId) : M (list Family) :=
  updateImportReportM (report ReadingFiles) c ;;;
  updateImportReportM (report FilteringData) c ;;;
  checkRequiredSislameData (hd_error sislameFile) c ;;;
  checkRequiredFamilyData (hd_error familyFile) c ;;;
  grantedFamilies <- reconcile familyFile sislameFile c ;;
  saveFamilies c grantedFamilies ;;;
  ret grantedFamilies.

(** ** Vocabulary for the pipeline's properties *)

(** The eligibility test on a benefit row. *)
Definition validDependent (item : FamilyItem) : bool := validAge (get "DTNASCDEP" item).


Definition knownGuardian (originalFamilyData : list FamilyItem) (familyItem : FamilyItem) : Prop :=
  find (fun item => strictEq (get "NISTITULAR" item) (get "NISTITULAR" familyItem))
    originalFamilyData <> None.



(** A record of the reason file whose reason is one the import writes. *)
Definition knownReason (record : Row) : Prop :=
  exists reason,
    get "reason" record = Some reason
    /\ (In reason [ofAgeReason; sislameOfAgeReason; otherResponsibleReason; notInSislameReason]
        \/ exists name, reason = linkedToOtherReason name).

(** A granted family as the import builds it: parsed from one of the given
    benefit rows for the city, holding at least one dependent, each dependent
    built from one of the given benefit rows and one of the given enrollment
    rows. *)
Definition wellGranted (c : CityId) (familyRows : list FamilyItem)
    (enrollmentRows : list SislameItem) (family : Family) : Prop :=
  (exists o, In o familyRows
             /\ family = withDependents (parseFamilyItem o c) (dependentsOf family))
  /\ dependentsOf family <> []
  /\ Forall (fun d => In (fromFamilyItem d) familyRows /\ In (fromSislameItem d) enrollmentRows)
       (dependentsOf family).

(** The database stores the family. *)
Definition stores (family : Family) : Prop := exists dbFamily, dbCertify family = inr dbFamily.

End Pipeline.

(** ** Reference collaborators for concrete runs *)

Definition isSpace (a : ascii) : bool := Ascii.eqb a " "%char.

Definition upcase (a : ascii) : ascii :=
  let n := nat_of_ascii a in
  if (97 <=? n)%nat && (n <=? 122)%nat then ascii_of_nat (n - 32) else a.

Fixpoint mapString (f : ascii -> ascii) (s : string) : string :=
  match s with
  | EmptyString => EmptyString
  | String a t => String (f a) (mapString f t)
  end.

(** The Latin-1 Supplement rows of lodash's table, by the second byte of the
    UTF-8 encoding (the first byte being 195). *)
Definition deburrLatin1 (b : nat) : option string :=
  let cp := (b + 64)%nat in
  if ((192 <=? cp) && (cp <=? 197))%nat then Some "A"
  else if (cp =? 198)%nat then Some "Ae"
  else if (cp =? 199)%nat then Some "C"
  else if ((200 <=? cp) && (cp <=? 203))%nat then Some "E"
  else if ((204 <=? cp) && (cp <=? 207))%nat then Some "I"
  else if (cp =? 208)%nat then Some "D"
  else if (cp =? 209)%nat then Some "N"
  else if ((210 <=? cp) && (cp <=? 214))%nat then Some "O"
  else if (cp =? 216)%nat then Some "O"
  else if ((217 <=? cp) && (cp <=? 220))%nat then Some "U"
  else if (cp =? 221)%nat then Some "Y"
  else if (cp =? 222)%nat then Some "Th"
  else if (cp =? 223)%nat then Some "ss"
  else if ((224 <=? cp) && (cp <=? 229))%nat then Some "a"
  else if (cp =? 230)%nat then Some "ae"
  else if (cp =? 231)%nat then Some "c"
  else if ((232 <=? cp) && (cp <=? 235))%nat then Some "e"
  else if ((236 <=? cp) && (cp <=? 239))%nat then Some "i"
  else if (cp =? 240)%nat then Some "d"
  else if (cp =? 241)%nat then Some "n"
  else if ((242 <=? cp) && (cp <=? 246))%nat then Some "o"
  else if (cp =? 248)%nat then Some "o"
  else if ((249 <=? cp) && (cp <=? 252))%nat then Some "u"
  else if (cp =? 253)%nat then Some "y"
  else if (cp =? 254)%nat then Some "th"
  else if (cp =? 255)%nat then Some "y"
  else None.

Fixpoint deburrUtf8 (s : string) : string :=
  match s with
  | EmptyString => EmptyString
  | String a rest =>
      match rest with
      | String b t =>
          if (nat_of_ascii a =? 195)%nat then
            match deburrLatin1 (nat_of_ascii b) with
            | Some letters => letters ++ deburrUtf8 t
            | None => String a (deburrUtf8 rest)
            end
          else String a (deburrUtf8 rest)
      | EmptyString => s
      end
  end.

(** Leading blanks dropped, runs of blanks reduced to one, trailing ones
    dropped. *)
Fixpoint collapseFrom (pendingSpace started : bool) (s : string) : string :=
  match s with
  | EmptyString => EmptyString
  | String a t =>
      if isSpace a then collapseFrom started started t
      else if pendingSpace then String " " (String a (collapseFrom false true t))
      else String a (collapseFrom false true t)
  end.

Definition normalizeName (s : string) : string :=
  collapseFrom false false (mapString upcase (deburrUtf8 s)).

(** Modelled from the spec: [compareNames] (utils/string) is not part of the
    sources at hand.  Per the Name Matcher of the spec both names are
    normalised (diacritics stripped, upper case, whitespace collapsed) and
    compared for equality; an undefined name matches nothing. *)
Definition compareNamesSpec (a b : option string) : bool :=
  match a, b with
  | Some x, Some y => String.eqb (normalizeName x) (normalizeName y)
  | _, _ => false
  end.

Definition digit (a : ascii) : option Z :=
  let n := nat_of_ascii a in
  if ((48 <=? n) && (n <=? 57))%nat then Some (Z.of_nat (n - 48)) else None.

Fixpoint number (acc : Z) (l : list ascii) : option Z :=
  match l with
  | [] => Some acc
  | a :: t => match digit a with Some d => number (acc * 10 + d) t | None => None end
  end.

Definition daysInMonth (y m : Z) : Z :=
  if (m =? 2)%Z then
    (if ((y mod 4 =? 0) && (negb (y mod 100 =? 0) || (y mod 400 =? 0)))%Z then 29 else 28)%Z
  else if ((m =? 4) || (m =? 6) || (m =? 9) || (m =? 11))%Z then 30%Z
  else 31%Z.

(** Dates written exactly as two digits, two digits and four digits between
    slashes and naming a day of the calendar; anything else is invalid. *)
Definition parseDayMonthYear (x : option string) : option CalDate :=
  match x with
  | Some s =>
      match list_ascii_of_string s with
      | [d1; d2; s1; m1; m2; s2; y1; y2; y3; y4] =>
          if Ascii.eqb s1 "/"%char && Ascii.eqb s2 "/"%char then
            match number 0 [d1; d2], number 0 [m1; m2], number 0 [y1; y2; y3; y4] with
            | Some d, Some m, Some y =>
                if ((1 <=? m) && (m <=? 12) && (1 <=? d) && (d <=? daysInMonth y m))%Z
                then Some {| year := y; month := m; day := d |}
                else None
            | _, _, _ => None
            end
          else None
      | _ => None
      end
  | None => None
  end.

(** Whole years from a day to the first day of a given month. *)
Definition wholeYears (thisYear thisMonth : Z) (d : CalDate) : Z :=
  Z.quot ((thisYear - year d) * 12 + (thisMonth - month d)
          - (if (1 <? day d)%Z then 1 else 0)) 12.

(** A run in June 2020 against a database that stores every family. *)
Definition sampleExternals : Externals :=
  {| deburr := deburrUtf8;
     compareNames := compareNamesSpec;
     momentParse := parseDayMonthYear;
     yearsBeforeThisMonth := wholeYears 2020 6;
     defaultGroupKey := "cad";
     dbCertify := fun family => inr family |}.

Definition emptyWorld : World := {| reports := []; reasonRecords := []; certified := [] |}.

(** Rows of the two extracts with the columns the import reads. *)
Definition familyRow (titular nisTitular dependente nisDependen dtNascDep : string) : FamilyItem :=
  [("TITULAR", titular); ("DTNASCTIT", "01/01/1980"); ("NISTITULAR", nisTitular);
   ("NISDEPENDEN", nisDependen); ("DEPENDENTE", dependente); ("DTNASCDEP", dtNascDep)].

Definition sislameRow (aluno mae pai responsavel dataNascimento matricula : string) : SislameItem :=
  [("Aluno", aluno); ("Mãe", mae); ("Pai", pai); ("Nome Responsável", responsavel);
   ("Data Nascimento", dataNascimento); ("Matricula", matricula)].

(** The sample import: city 1, fresh process. *)
Definition sampleImport (familyFile : list FamilyItem) (sislameFile : list SislameItem)
    : World * Outcome (list Family) :=
  @importFamilyFromCadAndSislameCSV sampleExternals familyFile sislameFile (CityNum 1) emptyWorld.

(** Sample rows: one child claimed by both parents, an older sibling, an
    overage sibling, and the school's records. *)
Definition joseRow : FamilyItem := familyRow "JOSE SILVA" "101" "JOAO SILVA" "200" "15/03/2010".
Definition mariaRow : FamilyItem := familyRow "MARIA SILVA" "100" "JOAO SILVA" "200" "15/03/2010".
Definition mariaLuciaRow : FamilyItem :=
  familyRow "MARIA SILVA" "100" "LUCIA SILVA" "300" "20/08/2012".
Definition mariaPedroRow : FamilyItem :=
  familyRow "MARIA SILVA" "100" "PEDRO SILVA" "400" "02/01/1995".
Definition joaoEnrollment : SislameItem :=
  sislameRow "JOAO SILVA" "MARIA SILVA" "JOSE SILVA" "" "15/03/2010" "1".
Definition joaoMotherOnly : SislameItem :=
  sislameRow "JOAO SILVA" "MARIA SILVA" "CARLOS SOUZA" "AVO SILVA" "15/03/2010" "1".
Definition luciaEnrollment : SislameItem :=
  sislameRow "LUCIA SILVA" "MARIA SILVA" "JOSE SILVA" "" "20/08/2012" "2".
Definition joaoOtherGuardians : SislameItem :=
  sislameRow "JOAO SILVA" "ANA SILVA" "PEDRO SOUZA" "ANA SILVA" "15/03/2010" "1".

Definition mariaNoDateRow : FamilyItem :=
  familyRow "MARIA SILVA" "100" "JOAO SILVA" "200" "abc".
Definition noDependentColumnRow : FamilyItem :=
  [("TITULAR", "MARIA SILVA"); ("DTNASCTIT", "01/01/1980"); ("NISTITULAR", "100");
   ("NISDEPENDEN", "200"); ("DTNASCDEP", "15/03/2010")].
Definition noAlunoRow : SislameItem :=
  [("Mãe", "MARIA SILVA"); ("Pai", "JOSE SILVA"); ("Nome Responsável", "");
   ("Data Nascimento", "15/03/2010"); ("Matricula", "1")].

(** The families of a granted list that hold a dependent with the given
    national ID. *)
Definition grantsOfDependent (nis : option string) (grantedFamilies : list Family) : list Family :=
  filter (fun family => existsb (fun d => strictEq (dependentNis d) nis) (dependentsOf family))
    grantedFamilies.

(** Accepted outcomes: the dependents over all granted families. *)
Definition acceptedCount (grantedFamilies : list Family) : nat :=
  list_sum (map (fun family => List.length (dependentsOf family)) grantedFamilies).


Section DuplicateVocabulary.

Context {E : Externals}.


End DuplicateVocabulary.

(** * Other functions of the back end *)

(** ** Objects with string keys *)

(** [o[k]] on an object whose values have one type; [None] is [undefined]. *)
Fixpoint getKey {V} (k : string) (o : list (string * V)) : option V :=
  match o with
  | [] => None
  | (k', v) :: t => if String.eqb k k' then Some v else getKey k t
  end.

(** [o[k] = v]. *)
Fixpoint putKey {V} (k : string) (v : V) (o : list (string * V)) : list (string * V) :=
  match o with
  | [] => [(k, v)]
  | (k', v') :: t => if String.eqb k k' then (k', v) :: t else (k', v') :: putKey k v t
  end.

(** [delete o[k]]. *)
Fixpoint dropKey {V} (k : string) (o : list (string * V)) : list (string * V) :=
  match o with
  | [] => []
  | (k', v') :: t => if String.eqb k k' then dropKey k t else (k', v') :: dropKey k t
  end.

(** ** Reason-file writers (families.ts, lines 30-71) *)

(** A writer made by [createObjectCsvWriter]: the object's identity (the rank
    of its creation) and the path it writes to. *)
Record Writer := { writerId : nat; writerPath : string }.

(** The process-wide [csvWriterList], the paths handed to [fs.writeFileSync]
    (in call order) and the number of writers made so far. *)
Record Writers := {
  csvWriterList : list (string * Writer);
  createdFiles : list string;
  writersMade : nat
}.

(** A city id as a property key and inside a template literal: an integer in
    decimal (as integers of magnitude below 10^21 are printed), a string as it
    is.  (City ids that name a property of [Object.prototype] are not
    modelled.) *)
Definition cityKey (c : CityId) : string :=
  match c with
  | CityNum n => NilZero.string_of_int (Z.to_int n)
  | CityStr s => s
  end.

(** The path of a city's reason file under [path.dirname(__dirname)]. *)
Definition reasonFilePath (baseDir : string) (c : CityId) : string :=
  baseDir ++ "/../database/storage/reason_" ++ cityKey c ++ ".csv".

(** [getCSVWriter]; the call of [fs.writeFileSync] is taken to return. *)
Definition getCSVWriter (baseDir : string) (c : CityId) (ws : Writers) : Writers * Writer :=
  match getKey (cityKey c) (csvWriterList ws) with
  | Some writer => (ws, writer)
  | None =>
      let filePath := reasonFilePath baseDir c in
      let writer := {| writerId := writersMade ws; writerPath := filePath |} in
      ({| csvWriterList := putKey (cityKey c) writer (csvWriterList ws);
          createdFiles := createdFiles ws ++ [filePath];
          writersMade := S (writersMade ws) |}, writer)
  end.

Definition removeCSVWriter (c : CityId) (ws : Writers) : Writers :=
  {| csvWriterList := dropKey (cityKey c) (csvWriterList ws);
     createdFiles := createdFiles ws;
     writersMade := writersMade ws |}.

(** ** Dashboard (families.ts, lines 270-291) *)

(** A value of the dashboard object: a number or a date. *)
Inductive DashValue (T : Type) := DashNumber (n : Z) | DashDate (d : T).
Arguments DashNumber {T} n.
Arguments DashDate {T} d.

(** One turn of the loop over the grouped counts: the group's own entry, then
    [dashboard.total += count].  ([total] always holds a number there.) *)
Definition addGroupCount {T} (dashboard : list (string * DashValue T)) (item : string * Z)
    : list (string * DashValue T) :=
  let dashboard := putKey (fst item) (DashNumber (snd item)) dashboard in
  match getKey "total" dashboard with
  | Some (DashNumber total) => putKey "total" (DashNumber (total + snd item)) dashboard
  | _ => dashboard
  end.

(** [getDashboardInfo] on what the two queries answer: the rows of the grouped
    count ([groupName], [Number(count)]) and the latest creation date, if
    any. *)
Definition getDashboardInfo {T} (data : list (string * Z)) (last : option T)
    : list (string * DashValue T) :=
  let dashboard := fold_left addGroupCount data [("total", DashNumber 0)] in
  match last with
  | Some d => putKey "lastCreatedDate" (DashDate d) dashboard
  | None => dashboard
  end.

(** ** Public-route token check (unnamed/part_001, [requirePublicAuth]) *)

(** A JSON value as far as the check looks at it; numbers are integers, and
    objects and arrays are one case. *)
Inductive Json := JNull | JBool (b : bool) | JNumber (n : Z) | JString (s : string) | JStructure.

(** Truthiness of a property that may be missing. *)
Definition truthy (v : option Json) : bool :=
  match v with
  | None | Some JNull => false
  | Some (JBool b) => b
  | Some (JNumber n) => negb (Z.eqb n 0)
  | Some (JString s) => negb (String.eqb s "")
  | Some JStructure => true
  end.

(** What the check takes from its libraries: decryption of the header with
    the secret followed by [JSON.parse] and the read of [now] and [token]
    (an error message when either step throws), and the instant in
    milliseconds that [moment(now)] denotes ([None] when invalid). *)
Class AuthExternals := {
  decryptAndParse : string -> string -> string + (option Json * option Json);
  momentOf : Json -> option Z
}.

(** [process.env] and the server clock. *)
Record AuthEnv := { AUTH_SECRET : option string; AUTH_TOKEN : option string; serverNow : Z }.

Inductive AuthResult := Unauthorized | ServerError (message : string) | Next.

(** [process.env.AUTH_SECRET || 'some-secret']. *)
Definition secretOf (env : AuthEnv) : string :=
  match AUTH_SECRET env with
  | Some s => if String.eqb s "" then "some-secret" else s
  | None => "some-secret"
  end.

(** [a.diff(b, unit)] for a unit of [unitMs] milliseconds: the difference
    truncated towards zero; [None] is NaN. *)
Definition momentDiff (unitMs : Z) (a : option Z) (b : Z) : option Z :=
  match a with Some t => Some (Z.quot (t - b) unitMs) | None => None end.

(** [x > n], false on NaN. *)
Definition greaterThan (x : option Z) (n : Z) : bool :=
  match x with Some v => Z.ltb n v | None => false end.

(** [token !== process.env.AUTH_TOKEN], negated. *)
Definition sameToken (token : option Json) (expected : option string) : bool :=
  match token, expected with
  | Some (JString s), Some t => String.eqb s t
  | _, _ => false
  end.

Definition requirePublicAuth {X : AuthExternals} (authorization : option string) (env : AuthEnv)
    : AuthResult :=
  match authorization with
  | None => Unauthorized
  | Some code =>
      if String.eqb code "" then Unauthorized
      else
        match decryptAndParse code (secretOf env) with
        | inl message => ServerError message
        | inr (now, token) =>
            if negb (truthy now) || negb (truthy token) then Unauthorized
            else
              let timeDiff :=
                momentDiff 3600000
                  (match now with Some v => momentOf v | None => None end) (serverNow env) in
              if greaterThan timeDiff 6 then Unauthorized
              else if negb (sameToken token (AUTH_TOKEN env)) then Unauthorized
              else Next
        end
  end.

(** ** Institutions (models/institutions.ts) *)

(** The institutions table as the model uses it: [findByPk], [update] with
    [where: { id }] and [returning: true] (the rows updated), and [destroy]. *)
Class InstitutionStore := {
  Db : Type;
  Institution : Type;
  InstitutionId : Type;
  InstitutionValues : Type;
  institutionCity : Institution -> option CityId;
  findByPk : InstitutionId -> Db -> option Institution;
  dbUpdate : InstitutionValues -> InstitutionId -> Db -> Db * list Institution;
  dbDestroy : InstitutionId -> Db -> Db
}.

(** [item?.cityId === cityId]. *)
Definition inCity {S : InstitutionStore} (item : option Institution) (c : CityId) : bool :=
  match item with
  | Some item =>
      match institutionCity item with Some c' => cityEqb c' c | None => false end
  | None => false
  end.

Definition getById {S : InstitutionStore} (id : InstitutionId) (c : CityId) (db : Db)
    : option Institution :=
  let item := findByPk id db in
  if inCity item c then item else None.

(** A promise that was not awaited, as a condition: an object, hence true
    whatever it settles to. *)
Definition pendingIsTruthy {A} (promise : A) : bool := true.

Definition updateById {S : InstitutionStore} (id : InstitutionId) (values : InstitutionValues)
    (c : CityId) (db : Db) : Db * option Institution :=
  let cityItem := getById id c db in
  if pendingIsTruthy cityItem then
    let '(db', rows) := dbUpdate values id db in (db', hd_error rows)
  else (db, None).

Definition deleteById {S : InstitutionStore} (id : InstitutionId) (c : CityId) (db : Db) : Db :=
  let cityItem := getById id c db in
  if pendingIsTruthy cityItem then dbDestroy id db else db.

(** ** The import together with its writer (families.ts, lines 397, 614, 618) *)

(** The world of the import and the registry of writers. *)
Record Process := { world : World; writers : Writers }.

Section Session.

Context {E : Externals}.

(** The import up to the saving: the two report updates, the two checks and
    the reconciliation. *)
Definition importUntilSaving (familyFile : list FamilyItem) (sislameFile : list SislameItem)
    (c : CityId) : M (list Family) :=
  updateImportReportM (report ReadingFiles) c ;;;
  updateImportReportM (report FilteringData) c ;;;
  checkRequiredSislameData (hd_error sislameFile) c ;;;
  checkRequiredFamilyData (hd_error familyFile) c ;;;
  reconcile familyFile sislameFile c.

(** [importFamilyFromCadAndSislameCSV] with the writer it asks for on entry
    and removes on both ways out of the saving. *)
Definition importSession (baseDir : string) (familyFile : list FamilyItem)
    (sislameFile : list SislameItem) (c : CityId) (p : Process)
    : Process * Outcome (list Family) :=
  let '(ws, _) := getCSVWriter baseDir c (writers p) in
  match importUntilSaving familyFile sislameFile c (world p) with
  | (w1, Threw e) => ({| world := w1; writers := ws |}, Threw e)
  | (w1, Returned grantedFamilies) =>
      match saveFamilies c grantedFamilies w1 with
      | (w2, Returned _) =>
          ({| world := w2; writers := removeCSVWriter c ws |}, Returned grantedFamilies)
      | (w2, Threw e) => ({| world := w2; writers := removeCSVWriter c ws |}, Threw e)
      end
  end.

End Session.

(** ** Import of the registry file (families.ts, lines 173-264) *)

(** [json.d]: missing, a plain column called d, or the object that the dotted
    headers d.* make. *)
Inductive Nested := NestedUndefined | NestedString (s : string) | NestedObject (o : Row).

(** A parsed line: its plain columns and [json.d]. *)
Record CadLine := { columns : Row; d : Nested }.

(** [json.d[k]] once [json.d] is defined. *)
Definition nestedGet (k : string) (n : Nested) : option string :=
  match n with NestedObject o => get k o | _ => None end.

(** The family object handed to [certifyFamilyByCode]. *)
Record CadFamily := {
  cadCode : option string;
  cadGroupName : string;
  cadResponsibleName : option string;
  cadResponsibleBirthday : JsDate;
  cadResponsibleNis : option string;
  cadResponsibleMotherName : option string;
  cadCityId : CityId
}.

(** What the line handler takes from outside: the key of the group that
    [getFamilyGroupByCode] finds ([None] when it finds none), the answer of the
    database to [certifyFamilyByCode] (an error message when it rejects), and
    the message of the [TypeError] raised by reading a property of
    [undefined]. *)
Class CadExternals := {
  getFamilyGroupByCode : option string -> option string;
  certifyFamilyByCode : CadFamily -> string + unit;
  undefinedReadMessage : string
}.

Record CSVReport := {
  created : nat;
  updated : nat;
  deleted : nat;
  wrong : nat;
  reportLines : list string;
  finished : bool
}.

(** [reportResult], the pending batch [promises] (the answers of the database,
    oldest first) and the families handed to the database so far. *)
Record FileImport := {
  reportResult : CSVReport;
  promises : list (string + unit);
  requested : list CadFamily
}.

Definition lineNumberText (lineNumber : nat) : string :=
  NilZero.string_of_uint (Nat.to_uint lineNumber).

(** [reportResult.wrong++] and [reportResult.report.push(text)]. *)
Definition countWrong (text : string) (r : CSVReport) : CSVReport :=
  {| created := created r; updated := updated r; deleted := deleted r;
     wrong := S (wrong r); reportLines := reportLines r ++ [text]; finished := finished r |}.

Definition countUpdated (r : CSVReport) : CSVReport :=
  {| created := created r; updated := S (updated r); deleted := deleted r;
     wrong := wrong r; reportLines := reportLines r; finished := finished r |}.

(** The rejection that [Promise.all] reports, taken in array order; [None]
    when every promise is fulfilled. *)
Fixpoint firstRejection (batch : list (string + unit)) : option string :=
  match batch with
  | [] => None
  | inl m :: _ => Some m
  | inr _ :: t => firstRejection t
  end.

Section FileImportModel.

Context {E : Externals} {C : CadExternals}.

Definition unexpected (lineNumber : nat) (m : string) : string :=
  "[linha: " ++ lineNumberText lineNumber ++ "] Erro inesperado: " ++ m.

(** [lineHandler] for one line (lines 189-238), the lines being handled one
    after the other. *)
Definition lineHandler (c : CityId) (st : FileImport) (json : CadLine) (lineNumber : nat)
    : FileImport :=
  let wrongLine text :=
    {| reportResult := countWrong text (reportResult st);
       promises := promises st; requested := requested st |} in
  if negb (strictEq (get "cod_parentesco_rf_pessoa" (columns json)) (Some "1")) then
    wrongLine ("[linha: " ++ lineNumberText lineNumber ++ "] Pessoa "
               ++ tpl (get "nom_pessoa" (columns json)) ++ " não é um RF")%string
  else
    match d json with
    | NestedUndefined => wrongLine (unexpected lineNumber undefinedReadMessage)
    | nested =>
        match getFamilyGroupByCode (nestedGet "fx_rfpc" nested) with
        | None =>
            wrongLine ("[linha: " ++ lineNumberText lineNumber ++ "] Família "
                       ++ tpl (get "cod_familiar_fam" (columns json))
                       ++ " está com um valor inválido de fx_rfpc")%string
        | Some groupKey =>
            let family :=
              {| cadCode := nestedGet "cod_familiar_fam" nested;
                 cadGroupName := groupKey;
                 cadResponsibleName := get "nom_pessoa" (columns json);
                 cadResponsibleBirthday :=
                   toDate (momentParse (get "dta_nasc_pessoa" (columns json)));
                 cadResponsibleNis := get "num_nis_pessoa_atual" (columns json);
                 cadResponsibleMotherName := get "nom_completo_mae_pessoa" (columns json);
                 cadCityId := c |} in
            let batch := promises st ++ [certifyFamilyByCode family] in
            let counted := countUpdated (reportResult st) in
            let handed := requested st ++ [family] in
            if (100 <=? List.length batch)%nat then
              match firstRejection batch with
              | Some m =>
                  {| reportResult := countWrong (unexpected lineNumber m) counted;
                     promises := batch; requested := handed |}
              | None => {| reportResult := counted; promises := []; requested := handed |}
              end
            else {| reportResult := counted; promises := batch; requested := handed |}
        end
    end.

(** The lines of the file through [lineHandler], numbered from [lineNumber]. *)
Fixpoint handleLines (c : CityId) (st : FileImport) (lines : list CadLine) (lineNumber : nat)
    : FileImport :=
  match lines with
  | [] => st
  | json :: more => handleLines c (lineHandler c st json lineNumber) more (S lineNumber)
  end.

(** The state [importFamilyFromCSVFile] starts from. *)
Definition newFileImport : FileImport :=
  {| reportResult := {| created := 0; updated := 0; deleted := 0; wrong := 0;
                        reportLines := []; finished := false |};
     promises := []; requested := [] |}.

(** Whether a line gets as far as the database: a responsible person, with
    [json.d] defined and a group for its fx_rfpc. *)
Definition reachesDatabase (json : CadLine) : bool :=
  strictEq (get "cod_parentesco_rf_pessoa" (columns json)) (Some "1")
  && match d json with
     | NestedUndefined => false
     | nested =>
         match getFamilyGroupByCode (nestedGet "fx_rfpc" nested) with
         | Some _ => true
         | None => false
         end
     end.

End FileImportModel.

(** ** Reference collaborators for the other functions *)

(** A header decrypts when it is [ok:] followed by digits, giving that number
    as [now] and the token [secret-token]; numbers are instants in
    milliseconds, strings are not dates. *)
Definition sampleAuthExternals : AuthExternals :=
  {| decryptAndParse := fun code _ =>
       match list_ascii_of_string code with
       | "o"%char :: "k"%char :: ":"%char :: digits =>
           match number 0 digits with
           | Some n => inr (Some (JNumber n), Some (JString "secret-token"))
           | None => inl "Unexpected token"
           end
       | _ => inl "Malformed UTF-8 data"
       end;
     momentOf := fun v => match v with JNumber n => Some n | _ => None end |}.

(** A server at instant 1 000 000 000 000 that expects [secret-token]. *)
Definition sampleAuthEnv : AuthEnv :=
  {| AUTH_SECRET := None; AUTH_TOKEN := Some "secret-token"; serverNow := 1000000000000 |}.

(** Groups 1 to 3 exist; the database stores every family. *)
Definition sampleCadExternals : CadExternals :=
  {| getFamilyGroupByCode := fun code =>
       match code with
       | Some "1" => Some "extreme-poverty"
       | Some "2" => Some "poverty-line"
       | Some "3" => Some "cad"
       | _ => None
       end;
     certifyFamilyByCode := fun _ => inr tt;
     undefinedReadMessage := "Cannot read property 'fx_rfpc' of undefined" |}.

Definition rfLine : CadLine :=
  {| columns := [("cod_parentesco_rf_pessoa", "1"); ("nom_pessoa", "MARIA SILVA");
                 ("dta_nasc_pessoa", "01/01/1980"); ("num_nis_pessoa_atual", "100");
                 ("nom_completo_mae_pessoa", "ANA SILVA")];
     d := NestedObject [("cod_familiar_fam", "555"); ("fx_rfpc", "1")] |}.

Definition childLine : CadLine :=
  {| columns := [("cod_parentesco_rf_pessoa", "3"); ("nom_pessoa", "JOAO SILVA")];
     d := NestedObject [("cod_familiar_fam", "555"); ("fx_rfpc", "1")] |}.

(** An institutions table kept as a list of rows (id, city, name). *)
Definition sampleInstitutionStore : InstitutionStore :=
  {| Db := list (Z * CityId * string);
     Institution := Z * CityId * string;
     InstitutionId := Z;
     InstitutionValues := string;
     institutionCity := fun item => Some (snd (fst item));
     findByPk := fun id db => find (fun item => Z.eqb (fst (fst item)) id) db;
     dbUpdate := fun values id db =>
       (map (fun item => if Z.eqb (fst (fst item)) id then (fst item, values) else item) db,
        map (fun item => (fst item, values))
          (filter (fun item => Z.eqb (fst (fst item)) id) db));
     dbDestroy := fun id db => filter (fun item => negb (Z.eqb (fst (fst item)) id)) db |}.

Definition noWriters : Writers := {| csvWriterList := []; createdFiles := []; writersMade := 0 |}.

(** The run of June 2020 against a database that rejects the families of
    guardian 101 and stores the others. *)
Definition rejectingExternals : Externals :=
  {| deburr := deburrUtf8;
     compareNames := compareNamesSpec;
     momentParse := parseDayMonthYear;
     yearsBeforeThisMonth := wholeYears 2020 6;
     defaultGroupKey := "cad";
     dbCertify := fun family =>
       if strictEq (responsibleNis family) (Some "101") then inl "Validation error"
       else inr family |}.

(** Groups 1 to 3 exist; the database rejects every family. *)
Definition rejectingCadExternals : CadExternals :=
  {| getFamilyGroupByCode := @getFamilyGroupByCode sampleCadExternals;
     certifyFamilyByCode := fun _ => inl "Connection lost";
     undefinedReadMessage := "Cannot read property 'fx_rfpc' of undefined" |}.

(** The import of a file of a hundred responsible-person lines against that
    database. *)
Definition failedBatch : FileImport :=
  @handleLines sampleExternals rejectingCadExternals (CityNum 1) newFileImport
    (repeat rfLine 100) 0.

(** A process in which city 2 has an import in progress. *)
Definition cityTwoBusy : World :=
  {| reports := [{| status := ComparingData; message := None; percentage := Some (fraction 1 2);
                    cityId := Some (CityNum 2); inProgress := Some true |}];
     reasonRecords := []; certified := [] |}.

(** * Properties *)

(** ** Basic facts about the JavaScript helpers *)

Lemma strictEq_refl (x : option string) : strictEq x x = true.
Proof. destruct x as [s|]; simpl; [apply String.eqb_refl | reflexivity]. Qed.

Lemma strictEq_eq (x y : option string) : strictEq x y = true <-> x = y.
Proof.
  destruct x as [a|], y as [b|]; simpl; split; intro H; try congruence; try discriminate.
  - apply String.eqb_eq in H. congruence.
  - injection H as ->. apply String.eqb_refl.
Qed.

Lemma cityEqb_eq (a b : CityId) : cityEqb a b = true <-> a = b.
Proof.
  destruct a as [x|x], b as [y|y]; simpl; split; intro H; try congruence; try discriminate.
  - apply Z.eqb_eq in H. congruence.
  - injection H as ->. apply Z.eqb_refl.
  - apply String.eqb_eq in H. congruence.
  - injection H as ->. apply String.eqb_refl.
Qed.

Lemma ofCity_true (c : CityId) (r : ImportReport) : ofCity c r = true <-> cityId r = Some c.
Proof.
  unfold ofCity. destruct (cityId r) as [c'|]; split; intro H; try congruence; try discriminate.
  - apply cityEqb_eq in H. congruence.
  - injection H as ->. apply cityEqb_eq. reflexivity.
Qed.

Lemma findEntry_none {A} (p : A -> bool) (l : list A) :
  findEntry p l = None <-> forall x, In x l -> p x = false.
Proof.
  induction l as [|a t IH]; simpl.
  - split; [intros _ x [] | reflexivity].
  - destruct (p a) eqn:Ha.
    + split; [discriminate | intro H; specialize (H a (or_introl eq_refl)); congruence].
    + destruct (findEntry p t) as [[i y]|] eqn:Ht.
      * split; [discriminate |].
        intro H. assert (Hn : Some (i, y) = None) by (apply IH; intros x Hx; apply H; now right).
        discriminate.
      * split; [| reflexivity].
        intros _ x [<- | Hx]; [assumption | now apply IH].
Qed.

Lemma findEntry_some {A} (p : A -> bool) (l : list A) (i : nat) (x : A) :
  findEntry p l = Some (i, x) ->
  nth_error l i = Some x /\ p x = true /\ forall j y, j < i -> nth_error l j = Some y -> p y = false.
Proof.
  revert i. induction l as [|a t IH]; simpl; intros i H; [discriminate |].
  destruct (p a) eqn:Ha.
  - injection H as <- <-. repeat split; [assumption | intros j y Hj; lia].
  - destruct (findEntry p t) as [[k y]|] eqn:Ht; [| discriminate].
    injection H as <- <-. destruct (IH k eq_refl) as (Hn & Hp & Hlt).
    repeat split; [assumption | assumption |].
    intros [|j] z Hj Hz; simpl in Hz; [congruence | apply (Hlt j); [lia | assumption]].
Qed.

Lemma findIndex_none {A} (p : A -> bool) (l : list A) :
  findIndex p l = None -> forall x, In x l -> p x = false.
Proof.
  induction l as [|a t IH]; simpl; intros H x Hx; [contradiction |].
  destruct (p a) eqn:Ha; [discriminate |].
  destruct (findIndex p t); [discriminate |].
  destruct Hx as [<- | Hx]; [assumption | now apply IH].
Qed.

(** ** The report registry *)

Lemma updateImportReport_app (r : ImportReport) (c : CityId) (l : list ImportReport) :
  updateImportReport r c l = withoutCity c l ++ [stored r c].
Proof. reflexivity. Qed.

Lemma splice_first_match {A} (p : A -> bool) (l : list A) (i : nat) :
  findIndex p l = Some i ->
  forall q : A -> bool,
    List.length (filter q l) =
    List.length (filter q (splice1 i l)) + (if existsb q (firstn 1 (skipn i l)) then 1 else 0).
Proof.
  revert i. induction l as [|a t IH]; simpl; intros i H q; [discriminate |].
  destruct (p a).
  - injection H as <-. simpl. destruct (q a); simpl; lia.
  - destruct (findIndex p t) as [k|]; [| discriminate].
    injection H as <-. specialize (IH k eq_refl q).
    simpl in IH. cbn [splice1 skipn filter]. destruct (q a); cbn [List.length]; lia.
Qed.

Lemma splice_first_match_self {A} (p : A -> bool) (l : list A) (i : nat) :
  findIndex p l = Some i ->
  List.length (filter p l) = S (List.length (filter p (splice1 i l))).
Proof.
  revert i. induction l as [|a t IH]; simpl; intros i H; [discriminate |].
  destruct (p a) eqn:Ha.
  - injection H as <-. simpl. reflexivity.
  - destruct (findIndex p t) as [k|]; [| discriminate].
    injection H as <-. simpl. rewrite Ha. now apply IH.
Qed.

Lemma filter_none_length {A} (p : A -> bool) (l : list A) :
  (forall x, In x l -> p x = false) -> filter p l = [].
Proof.
  induction l as [|a t IH]; simpl; intro H; [reflexivity |].
  rewrite (H a (or_introl eq_refl)). apply IH. intros x Hx. apply H. now right.
Qed.

Lemma withoutCity_clean (c : CityId) (l : list ImportReport) :
  onePerCity l -> filter (ofCity c) (withoutCity c l) = [].
Proof.
  intro H. unfold withoutCity. destruct (findIndex (ofCity c) l) as [i|] eqn:Hi.
  - pose proof (splice_first_match_self _ _ _ Hi) as Hlen. specialize (H c).
    destruct (filter (ofCity c) (splice1 i l)); [reflexivity | simpl in Hlen; lia].
  - apply filter_none_length. now apply findIndex_none.
Qed.

Lemma withoutCity_others (c c' : CityId) (l : list ImportReport) :
  List.length (filter (ofCity c') (withoutCity c l)) <= List.length (filter (ofCity c') l).
Proof.
  unfold withoutCity. destruct (findIndex (ofCity c) l) as [i|] eqn:Hi; [| lia].
  rewrite (splice_first_match _ _ _ Hi (ofCity c')). lia.
Qed.

Lemma find_app_none {A} (p : A -> bool) (l : list A) (x : A) :
  filter p l = [] -> p x = true -> find p (l ++ [x]) = Some x.
Proof.
  induction l as [|a t IH]; simpl; intros Hl Hx; [now rewrite Hx |].
  destruct (p a); [discriminate | now apply IH].
Qed.

Lemma updateImportReport_keeps (r : ImportReport) (c : CityId) (l : list ImportReport) :
  onePerCity l -> onePerCity (updateImportReport r c l).
Proof.
  intros H c'. rewrite updateImportReport_app, filter_app, length_app. simpl.
  destruct (ofCity c' (stored r c)) eqn:Hc'.
  - apply ofCity_true in Hc'. simpl in Hc'. injection Hc' as <-.
    rewrite withoutCity_clean by assumption. simpl. lia.
  - simpl. pose proof (withoutCity_others c c' l). specialize (H c'). lia.
Qed.

Lemma getImportReport_update (r : ImportReport) (c : CityId) (l : list ImportReport) :
  onePerCity l -> getImportReport (updateImportReport r c l) c = stored r c.
Proof.
  intro H. unfold getImportReport. rewrite updateImportReport_app.
  rewrite find_app_none; [reflexivity | now apply withoutCity_clean |].
  apply ofCity_true. reflexivity.
Qed.

Lemma onePerCity_nil : onePerCity [].
Proof. intro c. simpl. lia. Qed.

(** C8: an update replaces the stored report of the city wholesale: what is
    read back afterwards is made of the new report's fields, the city and the
    [inProgress] default only, whatever the registry held before (the registry
    keeps at most one report per city, as it does from the empty list on); and
    a city with no stored report reads as idle and not in progress. *)
Theorem report_replaced_wholesale :
  forall (l : list ImportReport) (r : ImportReport) (c : CityId),
    onePerCity l ->
    getImportReport (updateImportReport r c l) c = stored r c
    /\ onePerCity (updateImportReport r c l)
    /\ (forall c', (forall x, In x l -> cityId x <> Some c') ->
                   getImportReport l c' = idleReport c'
                   /\ status (getImportReport l c') = Idle
                   /\ inProgress (getImportReport l c') = Some false).
Proof.
  intros l r c H. split; [now apply getImportReport_update |].
  split; [now apply updateImportReport_keeps |].
  intros c' Hnone. unfold getImportReport.
  assert (Hfind : find (ofCity c') l = None).
  { destruct (find (ofCity c') l) as [x|] eqn:Hx; [| reflexivity].
    apply find_some in Hx. destruct Hx as [Hin Hc]. apply ofCity_true in Hc.
    exfalso. exact (Hnone x Hin Hc). }
  rewrite Hfind. repeat split.
Qed.

Lemma report_replaced_wholesale_witness :
  let l := updateImportReport
             {| status := ComparingData; message := Some "x"; percentage := Some (fraction 1 2);
                cityId := None; inProgress := None |} (CityNum 1) [] in
  onePerCity l
  /\ getImportReport (updateImportReport (report Saving) (CityNum 1) l) (CityNum 1)
     = {| status := Saving; message := None; percentage := None;
          cityId := Some (CityNum 1); inProgress := Some true |}
  /\ getImportReport l (CityStr "2") = idleReport (CityStr "2").
Proof.
  intro l.
  assert (Hl : onePerCity l) by (apply updateImportReport_keeps, onePerCity_nil).
  destruct (report_replaced_wholesale l (report Saving) (CityNum 1) Hl) as (Hget & _ & Hidle).
  split; [exact Hl |]. split; [exact Hget |].
  apply (Hidle (CityStr "2")).
  intros x [<- | []]. simpl. discriminate.
Defined.

(** ** Split dependents and the main pool *)

Lemma strictEq_sym (x y : option string) : strictEq x y = strictEq y x.
Proof.
  destruct (strictEq x y) eqn:Hxy, (strictEq y x) eqn:Hyx; try reflexivity.
  - apply strictEq_eq in Hxy. subst. rewrite strictEq_refl in Hyx. discriminate.
  - apply strictEq_eq in Hyx. subst. rewrite strictEq_refl in Hxy. discriminate.
Qed.

Lemma combine_seq_In {A} (l : list A) (start i : nat) (x : A) :
  In (i, x) (combine (seq start (List.length l)) l)
  <-> start <= i /\ nth_error l (i - start) = Some x.
Proof.
  revert start. induction l as [|a t IH]; intro start; simpl.
  - split; [intros [] | intros [_ H]; destruct (i - start); discriminate].
  - rewrite IH. split.
    + intros [H | [Hle Hn]].
      * injection H as <- <-. split; [lia |]. now rewrite Nat.sub_diag.
      * split; [lia |]. replace (i - start) with (S (i - S start)) by lia. exact Hn.
    + intros [Hle Hn]. destruct (i - start) as [|k] eqn:Hk.
      * left. simpl in Hn. injection Hn as ->. f_equal. lia.
      * right. split; [lia |]. replace (i - S start) with k by lia. exact Hn.
Qed.

Lemma indexed_In {A} (l : list A) (i : nat) (x : A) :
  In (i, x) (indexed l) <-> nth_error l i = Some x.
Proof.
  unfold indexed. rewrite combine_seq_In, Nat.sub_0_r. split; [now intros [_ H] | intro H].
  split; [lia | assumption].
Qed.

Lemma duplicatedDependentOf_In (familyData : list FamilyItem) (r : FamilyItem) :
  In r (duplicatedDependentOf familyData)
  <-> exists i j y, nth_error familyData i = Some r /\ nth_error familyData j = Some y
                    /\ i <> j /\ get "NISDEPENDEN" r = get "NISDEPENDEN" y.
Proof.
  unfold duplicatedDependentOf. rewrite in_map_iff. split.
  - intros ([i x] & Hx & Hin). simpl in Hx. subst x. apply filter_In in Hin.
    destruct Hin as [Hi Hex]. apply existsb_exists in Hex. destruct Hex as ([j y] & Hj & Hp).
    simpl in Hp. destruct (Nat.eqb i j) eqn:Hij; [discriminate |].
    exists i, j, y. apply indexed_In in Hi, Hj. apply Nat.eqb_neq in Hij.
    apply strictEq_eq in Hp. auto.
  - intros (i & j & y & Hi & Hj & Hij & Hnis). exists (i, r). split; [reflexivity |].
    apply filter_In. split; [now apply indexed_In |].
    apply existsb_exists. exists (j, y). split; [now apply indexed_In |].
    simpl. apply Nat.eqb_neq in Hij. rewrite Hij. now apply strictEq_eq.
Qed.

Lemma uniqByFrom_first {A K} (eqb : K -> K -> bool) (f : A -> K) (l : list A) :
  forall (k : nat) (x : A) (seen : list K),
    nth_error l k = Some x ->
    (forall j y, j < k -> nth_error l j = Some y -> eqb (f x) (f y) = false) ->
    existsb (eqb (f x)) seen = false ->
    In x (uniqByFrom eqb f seen l).
Proof.
  induction l as [|a t IH]; intros k x seen Hk Hbefore Hseen; [destruct k; discriminate |].
  destruct k as [|k]; simpl in Hk |- *.
  - injection Hk as ->. rewrite Hseen. now left.
  - assert (Htail : forall j y, j < k -> nth_error t j = Some y -> eqb (f x) (f y) = false)
      by (intros j y Hj Hy; apply (Hbefore (S j) y); [lia | exact Hy]).
    destruct (existsb (eqb (f a)) seen).
    + now apply (IH k).
    + right. apply (IH k); [assumption.. |]. simpl. rewrite Hseen.
      rewrite (Hbefore 0 a); [reflexivity | lia | reflexivity].
Qed.

(** X20: the defect behind C1, C2 and C3 in general: whenever a row is
    handed to the duplicate pass, a row of the same dependent (the first one
    in the data) is in the main pool and in the duplicate pass at once. *)
Lemma first_claimant_stays_in_pool (familyData : list FamilyItem) (r : FamilyItem) :
  In r (duplicatedDependentOf familyData) ->
  exists r', In r' (uniqueCandidates familyData)
             /\ In r' (duplicatedDependentOf familyData)
             /\ get "NISDEPENDEN" r' = get "NISDEPENDEN" r.
Proof.
  intro Hr. apply duplicatedDependentOf_In in Hr. destruct Hr as (i & j & y & Hi & Hj & Hij & Hnis).
  set (p := fun x : FamilyItem => strictEq (get "NISDEPENDEN" x) (get "NISDEPENDEN" r)).
  destruct (findEntry p familyData) as [[k r']|] eqn:Hfind.
  - apply findEntry_some in Hfind. destruct Hfind as (Hk & Hp & Hbefore).
    unfold p in Hp. apply strictEq_eq in Hp. exists r'. split; [| split; [| exact Hp]].
    + unfold uniqueCandidates, uniqBy. apply (uniqByFrom_first _ _ _ k); [assumption | | reflexivity].
      intros j' y' Hj' Hy'. specialize (Hbefore j' y' Hj' Hy'). unfold p in Hbefore.
      rewrite Hp, strictEq_sym. exact Hbefore.
    + apply duplicatedDependentOf_In. destruct (Nat.eq_dec k i) as [-> | Hki].
      * exists i, j, y. repeat split; [assumption.. | congruence].
      * exists k, i, r. repeat split; assumption.
  - exfalso. pose proof (proj1 (findEntry_none p familyData) Hfind r (nth_error_In _ _ Hi)) as H.
    unfold p in H. rewrite strictEq_refl in H. discriminate.
Qed.

(** ** One outcome per candidate when no dependent is split *)

Lemma uniqByFrom_all {A K} (eqb : K -> K -> bool) (f : A -> K) (l : list A) :
  forall seen,
    (forall i j x y, i < j -> nth_error l i = Some x -> nth_error l j = Some y ->
                     eqb (f y) (f x) = false) ->
    (forall x, In x l -> existsb (eqb (f x)) seen = false) ->
    uniqByFrom eqb f seen l = l.
Proof.
  induction l as [|a t IH]; intros seen Hdistinct Hseen; simpl; [reflexivity |].
  rewrite (Hseen a (or_introl eq_refl)). f_equal. apply IH.
  - intros i j x y Hij Hi Hj. apply (Hdistinct (S i) (S j)); [lia | assumption..].
  - intros x Hx. simpl. rewrite (Hseen x (or_intror Hx)).
    destruct (In_nth_error _ _ Hx) as [k Hk].
    rewrite (Hdistinct 0 (S k) a x); [reflexivity | lia | reflexivity | exact Hk].
Qed.

Lemma uniqueCandidates_without_splits (familyData : list FamilyItem) :
  duplicatedDependentOf familyData = [] -> uniqueCandidates familyData = familyData.
Proof.
  intro Hnone. unfold uniqueCandidates, uniqBy. apply uniqByFrom_all; [| reflexivity].
  intros i j x y Hij Hi Hj.
  destruct (strictEq (get "NISDEPENDEN" y) (get "NISDEPENDEN" x)) eqn:Heq; [| reflexivity].
  exfalso. apply strictEq_eq in Heq.
  assert (Hin : In y (duplicatedDependentOf familyData)).
  { apply duplicatedDependentOf_In. exists j, i, x. repeat split; [assumption.. | lia | assumption]. }
  rewrite Hnone in Hin. exact Hin.
Qed.

Lemma acceptedCount_app (l1 l2 : list Family) :
  acceptedCount (l1 ++ l2) = acceptedCount l1 + acceptedCount l2.
Proof.
  unfold acceptedCount. induction l1 as [|a t IH]; simpl; [reflexivity | rewrite IH; lia].
Qed.

Lemma replace_past (grant : Family -> Family) (i : nat) (l : list Family) :
  forall start, i < start ->
    map (fun ix : nat * Family => if Nat.eqb (fst ix) i then grant (snd ix) else snd ix)
      (combine (seq start (List.length l)) l) = l.
Proof.
  induction l as [|a t IH]; intros start Hlt; simpl; [reflexivity |].
  destruct (Nat.eqb start i) eqn:Hs; [apply Nat.eqb_eq in Hs; lia |].
  f_equal. apply IH. lia.
Qed.

Lemma replace_count (grant : Family -> Family) (i : nat) (l : list Family) :
  (forall family,
      List.length (dependentsOf (grant family)) = S (List.length (dependentsOf family))) ->
  forall start, start <= i -> i < start + List.length l ->
    acceptedCount
      (map (fun ix : nat * Family => if Nat.eqb (fst ix) i then grant (snd ix) else snd ix)
         (combine (seq start (List.length l)) l))
    = S (acceptedCount l).
Proof.
  intro Hgrant. unfold acceptedCount.
  induction l as [|a t IH]; intros start Hle Hlt; simpl in *; [lia |].
  destruct (Nat.eqb start i) eqn:Hs.
  - apply Nat.eqb_eq in Hs. subst start. rewrite replace_past by lia. rewrite Hgrant. reflexivity.
  - apply Nat.eqb_neq in Hs. rewrite IH by lia. lia.
Qed.

Lemma findIndex_lt {A} (p : A -> bool) (l : list A) (i : nat) :
  findIndex p l = Some i -> i < List.length l.
Proof.
  revert i. induction l as [|a t IH]; simpl; intros i H; [discriminate |].
  destruct (p a); [injection H as <-; lia |].
  destruct (findIndex p t) as [k|]; [| discriminate]. injection H as <-.
  specialize (IH k eq_refl). lia.
Qed.

Section PipelineProperties.

Context {E : Externals}.

(** ** Schema checks *)

Lemma checkRequired_missing (table : string) (requiredKeys : list string) (item : Row)
    (c : CityId) (w : World) :
  notFoundKeys requiredKeys (keys item) <> [] ->
  let message := missingMessage table (notFoundKeys requiredKeys (keys item)) (keys item) in
  checkRequired table requiredKeys (Some item) c w =
  ({| reports := updateImportReport (failedReport message) c (reports w);
      reasonRecords := reasonRecords w; certified := certified w |},
   Threw (Http 412 message)).
Proof.
  intro H. unfold checkRequired.
  destruct (notFoundKeys requiredKeys (keys item)) eqn:Hn; [congruence |]. reflexivity.
Qed.

Lemma checkRequired_complete (table : string) (requiredKeys : list string) (item : Row)
    (c : CityId) (w : World) :
  notFoundKeys requiredKeys (keys item) = [] ->
  checkRequired table requiredKeys (Some item) c w = (w, Returned tt).
Proof. intro H. unfold checkRequired. rewrite H. reflexivity. Qed.

(** C7, as the code has it: the enrollment check runs first and needs a first
    row.  When the first enrollment row lacks a required column, or it is
    complete and the first benefit row lacks one, the import throws status 412
    with the message listing the missing and the available columns, nothing
    has been written to the reason file or handed to the database, and the
    city's report reads failed, not in progress, with that message. *)
Theorem missing_column_aborts :
  forall (familyFile : list FamilyItem) (sislameFile : list SislameItem) (c : CityId)
         (w : World) (table : string) (requiredKeys : list string) (item : Row),
    onePerCity (reports w) ->
    (hd_error sislameFile = Some item /\ table = "Sislame"
     /\ requiredKeys = requiredSislameKeys)
    \/ (exists s0, hd_error sislameFile = Some s0
                   /\ notFoundKeys requiredSislameKeys (keys s0) = []
                   /\ hd_error familyFile = Some item /\ table = "Bolsa Família"
                   /\ requiredKeys = requiredFamilyKeys) ->
    notFoundKeys requiredKeys (keys item) <> [] ->
    let message := missingMessage table (notFoundKeys requiredKeys (keys item)) (keys item) in
    let result := importFamilyFromCadAndSislameCSV familyFile sislameFile c w in
    snd result = Threw (Http 412 message)
    /\ reasonRecords (fst result) = reasonRecords w
    /\ certified (fst result) = certified w
    /\ getImportReport (reports (fst result)) c =
       {| status := Failed; message := Some message; percentage := None;
          cityId := Some c; inProgress := Some false |}.
Proof.
  intros familyFile sislameFile c w table requiredKeys item Hw Hcase Hmiss message result.
  assert (Hw2 : onePerCity
                  (updateImportReport (report FilteringData) c
                     (updateImportReport (report ReadingFiles) c (reports w))))
    by (do 2 apply updateImportReport_keeps; assumption).
  subst result. unfold importFamilyFromCadAndSislameCSV, bind.
  cbn [updateImportReportM reports reasonRecords certified].
  destruct Hcase as [(Hs & -> & ->) | (s0 & Hs & Hs0 & Hf & -> & ->)].
  - rewrite Hs. unfold checkRequiredSislameData.
    rewrite checkRequired_missing by assumption. cbn [fst snd reports reasonRecords certified].
    repeat split. now rewrite getImportReport_update.
  - rewrite Hs, Hf. unfold checkRequiredSislameData, checkRequiredFamilyData.
    rewrite checkRequired_complete by assumption.
    rewrite checkRequired_missing by assumption. cbn [fst snd reports reasonRecords certified].
    repeat split. now rewrite getImportReport_update.
Qed.

(** ** The reason file only grows *)
















(** ** Eligibility filter *)

Lemma filterByAge_from (data valid invalid : list FamilyItem) :
  fold_left
    (fun acc item =>
       let '(valid, invalid) := acc in
       if negb (validAge (get "DTNASCDEP" item))
       then (valid, invalid ++ [withReason ofAgeReason item])
       else (valid ++ [item], invalid))
    data (valid, invalid)
  = (valid ++ filter validDependent data,
     invalid ++ map (withReason ofAgeReason) (filter (fun item => negb (validDependent item)) data)).
Proof.
  revert valid invalid. induction data as [|item t IH]; intros valid invalid; simpl.
  - now rewrite !app_nil_r.
  - rewrite (surjective_pairing
               (if negb (validAge (get "DTNASCDEP" item))
                then (valid, invalid ++ [withReason ofAgeReason item])
                else (valid ++ [item], invalid))).
    unfold validDependent in *. destruct (validAge (get "DTNASCDEP" item)); cbn [negb fst snd];
      rewrite IH, <- app_assoc; reflexivity.
Qed.

Lemma filterByAge_split (data : list FamilyItem) :
  filterByAge data =
  (filter validDependent data,
   map (withReason ofAgeReason) (filter (fun item => negb (validDependent item)) data)).
Proof. unfold filterByAge. now rewrite filterByAge_from. Qed.





(** ** Cross-reference loop *)

(** C4, as the code has it: a benefit row for which no enrollment row passes
    the full scan, while some enrollment row carries the dependent's name, is
    rejected with one fixed reason (a student of that name exists under a
    different guardian); the reason is the same whatever the enrollment row
    holds and names no guardian.  The granted list is left as it was. *)
Theorem name_only_match_rejected :
  forall (originalFamilyData : list FamilyItem) (originalSislameData sislameData : list SislameItem)
         (c : CityId) (total familyIndex : nat) (familyItem : FamilyItem)
         (grantedFamilies : list Family) (w : World),
    (forall s, In s sislameData -> sameChildAndResponsible familyItem s = false) ->
    (exists s, In s sislameData
               /\ compareNames (get "Aluno" s) (get "DEPENDENTE" familyItem) = true) ->
    let result := compareFamily originalFamilyData originalSislameData sislameData c total
                    familyIndex familyItem grantedFamilies w in
    snd result = Returned grantedFamilies
    /\ reasonRecords (fst result) =
       reasonRecords w
       ++ [set "reason"
             "Encontrado aluno com mesmo nome no Sislame, mas responsável diferente. Atualizar Sislame ou é um homônimo"
             familyItem]
    /\ certified (fst result) = certified w.
Proof.
  intros ofd osd sd c total i familyItem granted w Hfull (s & Hin & Hname) result.
  subst result. unfold compareFamily, bind. cbn [updateImportReportM]. cbn beta iota.
  apply findEntry_none in Hfull. rewrite Hfull.
  destruct (find (sameChild familyItem) sd) as [s'|] eqn:Hfind.
  - cbn. auto.
  - exfalso. pose proof (find_none _ _ Hfind s Hin) as Hs. unfold sameChild in Hs. congruence.
Qed.

(** ** Duplicate-resolution pass *)





(** ** Row conversion *)

Lemma get_set_other (k k' v : string) (r : Row) :
  k <> k' -> get k (set k' v r) = get k r.
Proof.
  intro Hk. induction r as [|[k0 v0] t IH]; simpl.
  - destruct (String.eqb k k') eqn:Hkk; [apply String.eqb_eq in Hkk; congruence | reflexivity].
  - destruct (String.eqb k' k0) eqn:Hk0; simpl.
    + destruct (String.eqb k k0) eqn:Hkk0; [| reflexivity].
      apply String.eqb_eq in Hk0, Hkk0. congruence.
    + now rewrite IH.
Qed.

(** C9, as the code has it, for the date that [parseFamilyItem] converts: when
    the guardian birth date (DTNASCTIT) does not parse, the conversion still
    yields the family record, with an invalid date as birthday and every other
    field as usual; and neither the deduplication key nor the eligibility
    verdict of a row depends on what DTNASCTIT holds. *)
Theorem unparseable_guardian_birthdate :
  forall (family : FamilyItem) (c : CityId),
    momentParse (get "DTNASCTIT" family) = None ->
    parseFamilyItem family c =
    {| responsibleNis := get "NISTITULAR" family;
       responsibleName := get "TITULAR" family;
       responsibleBirthday := InvalidDate;
       responsibleMotherName := "";
       code := "";
       groupName := defaultGroupKey;
       familyCityId := c;
       dependents := None |}
    /\ forall v,
         familyKey (set "DTNASCTIT" v family) = familyKey family
         /\ validAge (get "DTNASCDEP" (set "DTNASCTIT" v family))
            = validAge (get "DTNASCDEP" family).
Proof.
  intros family c Hparse. split.
  - unfold parseFamilyItem. rewrite Hparse. reflexivity.
  - intro v. unfold familyKey. rewrite !get_set_other by discriminate. split; reflexivity.
Qed.

(** ** Where the duplicate pass takes a winner's record from *)

Lemma find_first {A} (p : A -> bool) (l : list A) (x : A) :
  find p l = Some x ->
  exists i, nth_error l i = Some x /\ p x = true
            /\ forall j y, j < i -> nth_error l j = Some y -> p y = false.
Proof.
  induction l as [|a t IH]; simpl; intro H; [discriminate |].
  destruct (p a) eqn:Ha.
  - injection H as <-. exists 0. repeat split; [assumption | intros j y Hj; lia].
  - destruct (IH H) as (i & Hi & Hp & Hlt). exists (S i). repeat split; [assumption.. |].
    intros [|j] y Hj Hy; simpl in Hy; [congruence | apply (Hlt j); [lia | assumption]].
Qed.

Lemma addGranted_holds (granted : list Family) (familyItem o : FamilyItem) (os : SislameItem)
    (c : CityId) :
  exists family, In family (addGranted granted familyItem o os c)
                 /\ In (parseFamilyAndSislameItems o os) (dependentsOf family).
Proof.
  unfold addGranted.
  destruct (findIndex _ granted) as [i|] eqn:Hi.
  - assert (Hnth : exists g, nth_error granted i = Some g).
    { clear - Hi. revert i Hi. induction granted as [|a t IH]; simpl; intros i Hi; [discriminate |].
      destruct (strictEq _ _).
      - injection Hi as <-. now exists a.
      - destruct (findIndex _ t) as [k|]; [| discriminate]. injection Hi as <-.
        simpl. now apply IH. }
    destruct Hnth as [g Hg].
    exists (withDependents g (dependentsOf g ++ [parseFamilyAndSislameItems o os])). split.
    + unfold replaceAt. apply in_map_iff. exists (i, g). split.
      * simpl. now rewrite Nat.eqb_refl.
      * unfold indexed. clear - Hg.
        assert (Hgen : forall start, In (start + i, g) (combine (seq start (List.length granted)) granted)).
        { revert i Hg. induction granted as [|a t IH]; intros i Hg start; [destruct i; discriminate |].
          destruct i as [|i]; simpl in *.
          - injection Hg as ->. left. f_equal. lia.
          - right. replace (start + S i) with (S start + i) by lia. now apply IH. }
        exact (Hgen 0).
    + unfold dependentsOf at 1. simpl. apply in_or_app. right. now left.
  - exists (withDependents (parseFamilyItem o c) [parseFamilyAndSislameItems o os]). split.
    + apply in_or_app. right. now left.
    + now left.
Qed.

Lemma winner_recorded_from ofd osd c key si s f more granted o os :
  compareNames (get key s) (get "TITULAR" f) = true ->
  validAge (get "Data Nascimento" s) = true ->
  find (fun item => strictEq (get "NISTITULAR" item) (get "NISTITULAR" f)) ofd = Some o ->
  nth_error osd si = Some os ->
  resolveClaimants ofd osd c key si s (f :: more) granted =
  resolveClaimants ofd osd c key si s more (addGranted granted f o os c).
Proof.
  intros Hname Hage Hfind Hos. cbn [resolveClaimants]. rewrite Hname, Hage, Hfind, Hos.
  reflexivity.
Qed.

Lemma addGranted_count (granted : list Family) (familyItem o : FamilyItem) (os : SislameItem)
    (c : CityId) :
  acceptedCount (addGranted granted familyItem o os c) = S (acceptedCount granted).
Proof.
  unfold addGranted. destruct (findIndex _ granted) as [i|] eqn:Hi.
  - unfold replaceAt, indexed.
    apply (replace_count
             (fun family =>
                withDependents family (dependentsOf family ++ [parseFamilyAndSislameItems o os]))).
    + intro family. unfold dependentsOf at 1. simpl. rewrite length_app. simpl. lia.
    + lia.
    + apply findIndex_lt in Hi. lia.
  - rewrite acceptedCount_app. unfold acceptedCount at 2. simpl. lia.
Qed.

(** ** Duplicate pass: one group *)








Lemma compareFamily_one_outcome ofd osd sd c total i familyItem granted w :
  List.length osd = List.length sd ->
  i < List.length ofd ->
  exists granted' w',
    compareFamily ofd osd sd c total i familyItem granted w = (w', Returned granted')
    /\ certified w' = certified w
    /\ ((granted' = granted
         /\ exists reason, reasonRecords w' = reasonRecords w ++ [withReason reason familyItem])
        \/ (acceptedCount granted' = S (acceptedCount granted)
            /\ reasonRecords w' = reasonRecords w)).
Proof.
  intros Hlen Hi. unfold compareFamily, bind. cbn [updateImportReportM]. cbn beta iota.
  destruct (findEntry (sameChildAndResponsible familyItem) sd) as [[si s]|] eqn:Hfind.
  - destruct (validAge (get "Data Nascimento" s)); cbn [negb].
    + apply findEntry_some in Hfind. destruct Hfind as (Hsi & _).
      destruct (nth_error ofd i) as [o|] eqn:Ho; [| apply nth_error_None in Ho; lia].
      destruct (nth_error osd si) as [os|] eqn:Hos.
      * eexists _, _. split; [reflexivity |]. split; [reflexivity |]. right.
        split; [apply addGranted_count | reflexivity].
      * apply nth_error_None in Hos.
        assert (si < List.length sd) by (apply nth_error_Some; congruence). lia.
    + eexists _, _. split; [reflexivity |]. split; [reflexivity |]. left.
      split; [reflexivity | now exists sislameOfAgeReason].
  - destruct (find (sameChild familyItem) sd).
    + eexists _, _. split; [reflexivity |]. split; [reflexivity |]. left.
      split; [reflexivity | now exists otherResponsibleReason].
    + eexists _, _. split; [reflexivity |]. split; [reflexivity |]. left.
      split; [reflexivity | now exists notInSislameReason].
Qed.

Lemma compareLoop_counts ofd osd sd c total items :
  List.length osd = List.length sd ->
  (forall i x, In (i, x) items -> i < List.length ofd) ->
  forall granted w,
  exists granted' w',
    compareLoop ofd osd sd c total items granted w = (w', Returned granted')
    /\ acceptedCount granted' + List.length (reasonRecords w')
       = acceptedCount granted + List.length (reasonRecords w) + List.length items.
Proof.
  intros Hlen. induction items as [|[i x] more IH]; intros Hidx granted w.
  - exists granted, w. split; [reflexivity | simpl; lia].
  - destruct (compareFamily_one_outcome ofd osd sd c total i x granted w Hlen
                (Hidx i x (or_introl eq_refl))) as (g1 & w1 & Hstep & _ & Hcase).
    destruct (IH (fun j y Hy => Hidx j y (or_intror Hy)) g1 w1) as (g2 & w2 & Hrest & Hcount).
    exists g2, w2. split.
    + cbn [compareLoop]. unfold bind. rewrite Hstep. exact Hrest.
    + destruct Hcase as [(-> & reason & Hrec) | (Hacc & Hrec)]; rewrite Hrec in Hcount.
      * rewrite length_app in Hcount. simpl in *. lia.
      * simpl. lia.
Qed.

Lemma filter_partition_length {A} (p : A -> bool) (l : list A) :
  List.length (filter p l) + List.length (filter (fun x => negb (p x)) l) = List.length l.
Proof. induction l as [|a t IH]; simpl; [reflexivity | destruct (p a); simpl; lia]. Qed.

(** X21: where no dependent is claimed on two rows, the reconciliation
    returns and every candidate left by key deduplication ends in exactly one
    outcome: accepted dependents plus rejection records add up to the
    candidates. *)
Lemma one_outcome_without_split_dependents (familyFile : list FamilyItem)
    (sislameFile : list SislameItem) (c : CityId) (w : World) :
  duplicatedDependentOf (deburrData (originalFamilyDataOf familyFile)) = [] ->
  exists granted w',
    reconcile familyFile sislameFile c w = (w', Returned granted)
    /\ acceptedCount granted + List.length (reasonRecords w')
       = List.length (reasonRecords w)
         + List.length (uniqBy String.eqb familyKey familyFile).
Proof.
  intro Hnone. unfold reconcile. rewrite Hnone.
  rewrite (uniqueCandidates_without_splits _ Hnone).
  unfold bind at 1. cbn [writeRecords].
  unfold bind at 1.
  match goal with
  | |- context [compareLoop ?ofd ?osd ?sd ?c0 ?total ?items ?g0 ?w0] =>
      destruct (compareLoop_counts ofd osd sd c0 total items) with (granted := g0) (w := w0)
        as (g & w2 & Hloop & Hcount)
  end.
  - unfold deburrData. now rewrite length_map.
  - intros i x Hin. apply indexed_In in Hin.
    assert (i < List.length (deburrData (originalFamilyDataOf familyFile)))
      by (apply (proj1 (nth_error_Some (deburrData (originalFamilyDataOf familyFile)) i));
          intro Hnth; pose proof (eq_trans (eq_sym Hin) Hnth); discriminate).
    unfold deburrData in *. now rewrite length_map in *.
  - exists g, w2. split.
    + rewrite Hloop. now simp duplicatedLoop.
    + cbn [reasonRecords] in Hcount. rewrite length_app in Hcount.
      unfold indexed in Hcount. rewrite length_combine, length_seq, Nat.min_id in Hcount.
      unfold deburrData in Hcount. rewrite length_map in Hcount.
      unfold removedFamiliesOf, originalFamilyDataOf in Hcount.
      rewrite filterByAge_split in Hcount. cbn [fst snd] in Hcount. rewrite length_map in Hcount.
      pose proof (filter_partition_length validDependent
                    (uniqBy String.eqb familyKey familyFile)) as Hsplit.
      unfold acceptedCount at 2 in Hcount. simpl in Hcount.
      unfold FamilyItem in *. lia.
Qed.

End PipelineProperties.

(** ** Concrete runs *)

(** C1 at a failing input: both parents claim child 200 and the school lists
    both.  The father's row comes first, stays in the main pool and is granted
    there; the duplicate pass then grants the child to the mother as well, so
    the final list holds child 200 under two families. *)
Theorem split_dependent_granted_twice :
  match snd (sampleImport [joseRow; mariaRow] [joaoEnrollment]) with
  | Returned grantedFamilies =>
      map responsibleNis (grantsOfDependent (Some "200") grantedFamilies)
      = [Some "101"; Some "100"]
  | Threw _ => False
  end.
Proof. vm_compute. reflexivity. Qed.

(** C2 at a failing input: of the two rows that claim child 200, the first
    stays in the main pool handed to the cross-reference loop while both are
    also handed to the duplicate pass. *)
Theorem split_row_stays_in_main_pool :
  let familyData :=
    @deburrData sampleExternals (@originalFamilyDataOf sampleExternals [joseRow; mariaRow]) in
  duplicatedDependentOf familyData = [joseRow; mariaRow]
  /\ uniqueCandidates familyData = [joseRow]
  /\ get "NISTITULAR" joseRow <> get "NISTITULAR" mariaRow.
Proof. vm_compute. repeat split. discriminate. Qed.

(** C3 at a failing input: two candidates survive deduplication, yet the run
    ends with two accepted dependents and one rejection record; the father's
    row is both granted and rejected. *)
Theorem split_row_decided_twice :
  let result := sampleImport [joseRow; mariaRow] [joaoEnrollment] in
  List.length (uniqBy String.eqb (@familyKey) [joseRow; mariaRow]) = 2
  /\ match snd result with
     | Returned grantedFamilies =>
         acceptedCount grantedFamilies = 2
         /\ map responsibleNis (grantsOfDependent (Some "200") grantedFamilies)
            = [Some "101"; Some "100"]
     | Threw _ => False
     end
  /\ reasonRecords (fst result)
     = [set "reason" "Dependente está vinculado à outra pessoa (MARIA SILVA)" joseRow].
Proof. vm_compute. repeat split. Qed.

(** C4 as stated fails: the enrollment row found by name alone lists Ana Silva
    and Pedro Souza as guardians, and the reason written names neither. *)
Lemma wrong_guardian_reason_names_nobody :
  find (@sameChild sampleExternals mariaRow) (@deburrData sampleExternals [joaoOtherGuardians])
  = Some (@deburrRow sampleExternals joaoOtherGuardians)
  /\ exists reason,
       reasonRecords (fst (sampleImport [mariaRow] [joaoOtherGuardians]))
       = [set "reason" reason mariaRow]
       /\ contains "ANA SILVA" reason = false
       /\ contains "PEDRO SOUZA" reason = false.
Proof.
  split; [vm_compute; reflexivity |].
  exists (@otherResponsibleReason). vm_compute. repeat split.
Qed.

Lemma name_only_match_rejected_witness :
  reasonRecords
    (fst (@compareFamily sampleExternals [mariaRow] [joaoOtherGuardians]
            (@deburrData sampleExternals [joaoOtherGuardians]) (CityNum 1) 1 0 mariaRow []
            emptyWorld))
  = [set "reason" (@otherResponsibleReason) mariaRow].
Proof.
  assert (Hfull : forall s, In s (@deburrData sampleExternals [joaoOtherGuardians]) ->
                            @sameChildAndResponsible sampleExternals mariaRow s = false).
  { intros s [<- | []]. vm_compute. reflexivity. }
  assert (Hname : exists s, In s (@deburrData sampleExternals [joaoOtherGuardians])
                            /\ compareNamesSpec (get "Aluno" s) (get "DEPENDENTE" mariaRow) = true).
  { exists (@deburrRow sampleExternals joaoOtherGuardians).
    split; [now left | vm_compute; reflexivity]. }
  destruct (@name_only_match_rejected sampleExternals [mariaRow] [joaoOtherGuardians]
              (@deburrData sampleExternals [joaoOtherGuardians]) (CityNum 1) 1 0
              mariaRow [] emptyWorld Hfull Hname) as (_ & Hrecords & _).
  exact Hrecords.
Defined.




(** C7 as stated fails: the first benefit row lacks the column DEPENDENTE, but
    the enrollment file is empty; the import throws on the empty file and the
    city's report is left at filtering, still in progress. *)
Lemma empty_enrollment_leaves_report_in_progress :
  hd_error [noDependentColumnRow] = Some noDependentColumnRow
  /\ notFoundKeys requiredFamilyKeys (keys noDependentColumnRow) = ["DEPENDENTE"]
  /\ snd (sampleImport [noDependentColumnRow] [])
     = Threw (Http 412 "Nenhum dado na tabela do Sislame")
  /\ getImportReport (reports (fst (sampleImport [noDependentColumnRow] []))) (CityNum 1)
     = {| status := FilteringData; message := None; percentage := None;
          cityId := Some (CityNum 1); inProgress := Some true |}.
Proof. vm_compute. repeat split. Qed.

Lemma missing_column_aborts_witness :
  snd (sampleImport [mariaRow] [noAlunoRow])
  = Threw (Http 412 (missingMessage "Sislame" ["Aluno"] (keys noAlunoRow)))
  /\ status (getImportReport (reports (fst (sampleImport [mariaRow] [noAlunoRow]))) (CityNum 1))
     = Failed.
Proof.
  assert (Hmissing : notFoundKeys requiredSislameKeys (keys noAlunoRow) <> [])
    by (vm_compute; discriminate).
  destruct (@missing_column_aborts sampleExternals [mariaRow] [noAlunoRow] (CityNum 1)
              emptyWorld "Sislame" requiredSislameKeys noAlunoRow onePerCity_nil
              (or_introl (conj eq_refl (conj eq_refl eq_refl))) Hmissing)
    as (Hthrow & _ & _ & Hreport).
  split.
  - exact Hthrow.
  - unfold sampleImport. rewrite Hreport. reflexivity.
Defined.

(** C9 as stated fails: a row whose dependent birth date does not parse is
    rejected, as of age, because of that date; with a date in its place the
    same row is granted. *)
Lemma unparseable_dependent_birthdate_rejected :
  parseDayMonthYear (get "DTNASCDEP" mariaNoDateRow) = None
  /\ snd (sampleImport [mariaNoDateRow] [joaoEnrollment]) = Returned []
  /\ reasonRecords (fst (sampleImport [mariaNoDateRow] [joaoEnrollment]))
     = [set "reason" "Depedente maior de idade" mariaNoDateRow]
  /\ set "DTNASCDEP" "15/03/2010" mariaNoDateRow = mariaRow
  /\ map responsibleNis
       (match snd (sampleImport [mariaRow] [joaoEnrollment]) with
        | Returned grantedFamilies => grantedFamilies
        | Threw _ => []
        end) = [Some "100"].
Proof. vm_compute. repeat split. Qed.

Lemma unparseable_guardian_birthdate_witness :
  responsibleBirthday
    (@parseFamilyItem sampleExternals (set "DTNASCTIT" "abc" mariaRow) (CityNum 1))
  = InvalidDate.
Proof.
  assert (Hparse : parseDayMonthYear (get "DTNASCTIT" (set "DTNASCTIT" "abc" mariaRow)) = None)
    by (vm_compute; reflexivity).
  destruct (@unparseable_guardian_birthdate sampleExternals
              (set "DTNASCTIT" "abc" mariaRow) (CityNum 1) Hparse) as [-> _].
  reflexivity.
Defined.

(** C10 as stated fails: the mother's first row in the file read is that of an
    overage child, dropped by the eligibility filter; the record granted to
    her for the disputed child 200 is parsed from her row for that child. *)
Lemma winner_not_taken_from_raw_file :
  find (fun item => strictEq (get "NISTITULAR" item) (Some "100"))
    [mariaPedroRow; joseRow; mariaRow] = Some mariaPedroRow
  /\ match snd (sampleImport [mariaPedroRow; joseRow; mariaRow] [joaoMotherOnly]) with
     | Returned grantedFamilies =>
         map (fun family => (responsibleNis family, dependentsOf family)) grantedFamilies
         = [(Some "100", [parseFamilyAndSislameItems mariaRow joaoMotherOnly])]
     | Threw _ => False
     end
  /\ mariaRow <> mariaPedroRow.
Proof. vm_compute. repeat split. discriminate. Qed.

(** C10, as the code has it: for a winning claimant that passes the
    enrollment-side age check, the guardian and dependent records added to the
    granted list are parsed from the first row, among the benefit rows left by
    key deduplication and the eligibility filter (before accents are
    stripped), whose guardian national ID equals the winner's; and that row
    can belong to another dependent of the guardian, as in the sample run where
    the disputed child 200 is recorded from the row of child 300. *)
Theorem duplicate_winner_source :
  forall (E : Externals) (familyFile : list FamilyItem) (sislameFile : list SislameItem)
         (c : CityId) (key : string) (si : nat) (s : SislameItem) (f : FamilyItem)
         (more : list FamilyItem) (granted : list Family) (o : FamilyItem) (os : SislameItem),
    let rows := filter (fun item => validAge (get "DTNASCDEP" item))
                  (uniqBy String.eqb familyKey familyFile) in
    compareNames (get key s) (get "TITULAR" f) = true ->
    validAge (get "Data Nascimento" s) = true ->
    find (fun item => strictEq (get "NISTITULAR" item) (get "NISTITULAR" f)) rows = Some o ->
    nth_error (originalSislameDataOf sislameFile) si = Some os ->
    originalFamilyDataOf familyFile = rows
    /\ resolveClaimants (originalFamilyDataOf familyFile) (originalSislameDataOf sislameFile) c
         key si s (f :: more) granted
       = resolveClaimants (originalFamilyDataOf familyFile) (originalSislameDataOf sislameFile) c
           key si s more (addGranted granted f o os c)
    /\ (exists family, In family (addGranted granted f o os c)
                       /\ In (parseFamilyAndSislameItems o os) (dependentsOf family))
    /\ (findIndex (fun family => strictEq (responsibleNis family) (get "NISTITULAR" f)) granted
        = None ->
        addGranted granted f o os c
        = granted ++ [withDependents (parseFamilyItem o c) [parseFamilyAndSislameItems o os]])
    /\ (exists i, nth_error rows i = Some o
                  /\ get "NISTITULAR" o = get "NISTITULAR" f
                  /\ forall j y, j < i -> nth_error rows j = Some y ->
                                 get "NISTITULAR" y <> get "NISTITULAR" f)
    /\ match snd (sampleImport [mariaLuciaRow; joseRow; mariaRow]
                    [joaoMotherOnly; luciaEnrollment]) with
       | Returned grantedFamilies =>
           map (fun family => (responsibleNis family, dependentsOf family)) grantedFamilies
           = [(Some "100", [parseFamilyAndSislameItems mariaLuciaRow luciaEnrollment;
                            parseFamilyAndSislameItems mariaLuciaRow joaoMotherOnly])]
       | Threw _ => False
       end.
Proof.
  intros E familyFile sislameFile c key si s f more granted o os rows Hname Hage Hfind Hos.
  assert (Hrows : originalFamilyDataOf familyFile = rows).
  { unfold originalFamilyDataOf. rewrite filterByAge_split. reflexivity. }
  split; [exact Hrows |]. rewrite Hrows.
  split; [now apply winner_recorded_from |].
  split; [apply addGranted_holds |].
  split; [intro Hnew; unfold addGranted; rewrite Hnew; reflexivity |].
  split.
  - destruct (find_first _ _ _ Hfind) as (i & Hi & Hp & Hlt). exists i.
    split; [exact Hi |]. split; [now apply strictEq_eq |].
    intros j y Hj Hy Heq. specialize (Hlt j y Hj Hy). apply strictEq_eq in Heq. congruence.
  - vm_compute. reflexivity.
Qed.

Lemma duplicate_winner_source_witness :
  @resolveClaimants sampleExternals
    (@originalFamilyDataOf sampleExternals [mariaLuciaRow; joseRow; mariaRow])
    (originalSislameDataOf [joaoMotherOnly; luciaEnrollment]) (CityNum 1)
    "Mae" 0 (@deburrRow sampleExternals joaoMotherOnly) [mariaRow] [] emptyWorld
  = (emptyWorld,
     Returned [withDependents (@parseFamilyItem sampleExternals mariaLuciaRow (CityNum 1))
                 [parseFamilyAndSislameItems mariaLuciaRow joaoMotherOnly]]).
Proof.
  assert (Hname : compareNamesSpec (get "Mae" (@deburrRow sampleExternals joaoMotherOnly))
                    (get "TITULAR" mariaRow) = true) by (vm_compute; reflexivity).
  assert (Hage : @validAge sampleExternals
                   (get "Data Nascimento" (@deburrRow sampleExternals joaoMotherOnly)) = true)
    by (vm_compute; reflexivity).
  assert (Hfind : find (fun item => strictEq (get "NISTITULAR" item) (get "NISTITULAR" mariaRow))
                    (filter (fun item => @validAge sampleExternals (get "DTNASCDEP" item))
                       (uniqBy String.eqb (@familyKey) [mariaLuciaRow; joseRow; mariaRow]))
                  = Some mariaLuciaRow) by (vm_compute; reflexivity).
  assert (Hos : nth_error (originalSislameDataOf [joaoMotherOnly; luciaEnrollment]) 0
                = Some joaoMotherOnly) by (vm_compute; reflexivity).
  destruct (duplicate_winner_source sampleExternals [mariaLuciaRow; joseRow; mariaRow]
              [joaoMotherOnly; luciaEnrollment] (CityNum 1) "Mae" 0
              (@deburrRow sampleExternals joaoMotherOnly) mariaRow [] []
              mariaLuciaRow joaoMotherOnly Hname Hage Hfind Hos) as (_ & Hstep & _).
  rewrite Hstep. vm_compute. reflexivity.
Defined.

(** * Further properties of the code *)

(** ** The report registry across cities *)

Lemma find_splice_other {A} (p q : A -> bool) (l : list A) (i : nat) :
  findIndex p l = Some i ->
  (forall x, p x = true -> q x = false) ->
  find q (splice1 i l) = find q l.
Proof.
  revert i. induction l as [|a t IH]; simpl; intros i Hi Hpq; [discriminate |].
  destruct (p a) eqn:Ha.
  - injection Hi as <-. simpl. now rewrite (Hpq a Ha).
  - destruct (findIndex p t) as [k|]; [| discriminate]. injection Hi as <-.
    simpl. destruct (q a); [reflexivity | now apply IH].
Qed.

Lemma find_app_last_not {A} (q : A -> bool) (l : list A) (x : A) :
  q x = false -> find q (l ++ [x]) = find q l.
Proof.
  intro Hx. induction l as [|a t IH]; simpl; [now rewrite Hx |].
  destruct (q a); [reflexivity | exact IH].
Qed.

Lemma ofCity_other (c c' : CityId) (r : ImportReport) :
  c <> c' -> ofCity c r = true -> ofCity c' r = false.
Proof.
  intros Hc Hr. apply ofCity_true in Hr.
  destruct (ofCity c' r) eqn:Hr'; [| reflexivity].
  apply ofCity_true in Hr'. congruence.
Qed.

Lemma find_other_city (r : ImportReport) (c c' : CityId) (l : list ImportReport) :
  c <> c' ->
  find (ofCity c') (updateImportReport r c l) = find (ofCity c') l.
Proof.
  intro Hc. rewrite updateImportReport_app.
  rewrite find_app_last_not.
  - unfold withoutCity. destruct (findIndex (ofCity c) l) as [i|] eqn:Hi; [| reflexivity].
    apply (find_splice_other _ _ _ _ Hi). intros x Hx. now apply (ofCity_other c c').
  - apply (ofCity_other c c'); [assumption |]. apply ofCity_true. reflexivity.
Qed.

(** X1: an update for one city leaves what every other city reads unchanged,
    whatever the registry holds; in particular the number 1 and the string "1"
    are different cities to the registry, which compares with [===]. *)
Theorem report_update_leaves_other_cities :
  forall (l : list ImportReport) (r : ImportReport) (c c' : CityId),
    c <> c' ->
    getImportReport (updateImportReport r c l) c' = getImportReport l c'.
Proof.
  intros l r c c' Hc. unfold getImportReport. now rewrite find_other_city.
Qed.

Lemma report_update_leaves_other_cities_witness :
  getImportReport (updateImportReport (report Saving) (CityNum 1) []) (CityStr "1")
  = idleReport (CityStr "1").
Proof.
  assert (Hc : CityNum 1 <> CityStr "1") by discriminate.
  rewrite (report_update_leaves_other_cities [] (report Saving) (CityNum 1) (CityStr "1") Hc).
  reflexivity.
Defined.

Lemma splice1_length {A} (p : A -> bool) (l : list A) (i : nat) :
  findIndex p l = Some i -> S (List.length (splice1 i l)) = List.length l.
Proof.
  revert i. induction l as [|a t IH]; simpl; intros i Hi; [discriminate |].
  destruct (p a).
  - injection Hi as <-. reflexivity.
  - destruct (findIndex p t) as [k|]; [| discriminate]. injection Hi as <-.
    simpl. now rewrite (IH k).
Qed.

Lemma findIndex_existsb {A} (p : A -> bool) (l : list A) :
  existsb p l = match findIndex p l with Some _ => true | None => false end.
Proof.
  induction l as [|a t IH]; simpl; [reflexivity |].
  destruct (p a); simpl; [reflexivity |]. rewrite IH. now destruct (findIndex p t).
Qed.

(** X2: the registry does not pile reports up: an update for a city that has a
    report keeps the length of the list, an update for a new city adds one
    entry, and the stored entry is always the last one. *)
Theorem report_update_length :
  forall (l : list ImportReport) (r : ImportReport) (c : CityId),
    List.length (updateImportReport r c l)
    = (if existsb (ofCity c) l then List.length l else S (List.length l))
    /\ last (updateImportReport r c l) r = stored r c.
Proof.
  intros l r c. rewrite updateImportReport_app. split.
  - rewrite length_app, findIndex_existsb. unfold withoutCity. simpl.
    destruct (findIndex (ofCity c) l) as [i|] eqn:Hi.
    + rewrite <- (splice1_length _ _ _ Hi). lia.
    + lia.
  - apply last_last.
Qed.

(** ** Schema checks: which rows pass *)

Lemma notFoundKeys_nil (requiredKeys availableKeys : list string) :
  notFoundKeys requiredKeys availableKeys = []
  <-> forall k, In k requiredKeys -> In k availableKeys.
Proof.
  unfold notFoundKeys. induction requiredKeys as [|k t IH]; simpl.
  - split; [intros _ k [] | reflexivity].
  - destruct (existsb (String.eqb k) availableKeys) eqn:Hk; simpl.
    + rewrite IH. apply existsb_exists in Hk. destruct Hk as (k' & Hin & Heq).
      apply String.eqb_eq in Heq. subst k'. split.
      * intros H k0 [<- | Hk0]; [assumption | now apply H].
      * intros H k0 Hk0. apply H. now right.
    + split; [discriminate |]. intro H. exfalso.
      assert (Hin : In k availableKeys) by (apply H; now left).
      assert (Htrue : existsb (String.eqb k) availableKeys = true).
      { apply existsb_exists. exists k. split; [assumption | apply String.eqb_refl]. }
      congruence.
Qed.

Lemma checkRequired_passes (table : string) (requiredKeys : list string) (item : Row)
    (c : CityId) (w : World) :
  checkRequired table requiredKeys (Some item) c w = (w, Returned tt)
  <-> forall k, In k requiredKeys -> In k (keys item).
Proof.
  rewrite <- notFoundKeys_nil. unfold checkRequired.
  destruct (notFoundKeys requiredKeys (keys item)) eqn:Hn.
  - split; reflexivity.
  - split; [| discriminate]. unfold bind. cbn. intro H. inversion H.
Qed.

(** X3: a first row passes the enrollment check exactly when each of Aluno,
    Mãe, Pai, Nome Responsável and Data Nascimento is among its columns, and
    the benefit check exactly when each of DEPENDENTE, NISDEPENDEN, NISTITULAR,
    TITULAR, DTNASCTIT and DTNASCDEP is; column order and further columns do
    not matter, and a passing check changes nothing. *)
Theorem schema_check_passes_iff_columns_present :
  forall (item : Row) (c : CityId) (w : World),
    (checkRequiredSislameData (Some item) c w = (w, Returned tt)
     <-> forall k, In k ["Aluno"; "Mãe"; "Pai"; "Nome Responsável"; "Data Nascimento"] ->
                   In k (keys item))
    /\ (checkRequiredFamilyData (Some item) c w = (w, Returned tt)
        <-> forall k, In k ["DEPENDENTE"; "NISDEPENDEN"; "NISTITULAR"; "TITULAR";
                            "DTNASCTIT"; "DTNASCDEP"] ->
                      In k (keys item)).
Proof.
  intros item c w. split; apply checkRequired_passes.
Qed.

(** ** Deduplication *)

Section UniqByFacts.

Variables (A K : Type) (eqb : K -> K -> bool) (f : A -> K).
Hypothesis eqb_eq : forall a b, eqb a b = true <-> a = b.

Lemma existsb_seen (k : K) (seen : list K) : existsb (eqb k) seen = true <-> In k seen.
Proof.
  rewrite existsb_exists. split.
  - intros (k' & Hin & Heq). apply eqb_eq in Heq. now subst.
  - intro Hin. exists k. split; [assumption | now apply eqb_eq].
Qed.

Lemma uniqByFrom_In (l : list A) :
  forall seen x, In x (uniqByFrom eqb f seen l) -> In x l /\ ~ In (f x) seen.
Proof.
  induction l as [|a t IH]; simpl; intros seen x Hx; [contradiction |].
  destruct (existsb (eqb (f a)) seen) eqn:Ha.
  - destruct (IH _ _ Hx). auto.
  - destruct Hx as [<- | Hx].
    + split; [now left |]. intro Hin. apply existsb_seen in Hin. congruence.
    + destruct (IH _ _ Hx) as [Hin Hseen]. split; [now right |].
      intro H. apply Hseen. now right.
Qed.

Lemma uniqByFrom_NoDup (l : list A) :
  forall seen, NoDup (map f (uniqByFrom eqb f seen l)).
Proof.
  induction l as [|a t IH]; simpl; intro seen; [constructor |].
  destruct (existsb (eqb (f a)) seen); [apply IH |].
  simpl. constructor; [| apply IH].
  intro Hin. apply in_map_iff in Hin. destruct Hin as (x & Hfx & Hx).
  apply uniqByFrom_In in Hx. destruct Hx as [_ Hseen]. apply Hseen. left. congruence.
Qed.

Lemma uniqByFrom_complete (l : list A) :
  forall seen x, In x l -> In (f x) seen \/ In (f x) (map f (uniqByFrom eqb f seen l)).
Proof.
  induction l as [|a t IH]; simpl; intros seen x Hx; [contradiction |].
  destruct (existsb (eqb (f a)) seen) eqn:Ha.
  - destruct Hx as [<- | Hx]; [left; now apply existsb_seen | now apply IH].
  - destruct Hx as [<- | Hx]; [right; now left |].
    destruct (IH (f a :: seen) x Hx) as [[Heq | Hseen] | Hin].
    + right. left. exact Heq.
    + now left.
    + right. now right.
Qed.

Lemma uniqByFrom_fixed (l : list A) :
  forall seen,
    NoDup (map f l) -> (forall x, In x l -> ~ In (f x) seen) ->
    uniqByFrom eqb f seen l = l.
Proof.
  induction l as [|a t IH]; simpl; intros seen Hnd Hseen; [reflexivity |].
  inversion Hnd as [|k ks Hnotin Hnd']; subst.
  destruct (existsb (eqb (f a)) seen) eqn:Ha.
  - apply existsb_seen in Ha. exfalso. apply (Hseen a); [now left | assumption].
  - f_equal. apply IH; [assumption |].
    intros x Hx [Heq | Hin].
    + apply Hnotin. rewrite Heq. now apply in_map.
    + apply (Hseen x); [now right | assumption].
Qed.

Lemma uniqBy_facts (l : list A) :
  NoDup (map f (uniqBy eqb f l))
  /\ uniqBy eqb f (uniqBy eqb f l) = uniqBy eqb f l
  /\ (forall y, In y (uniqBy eqb f l) -> In y l)
  /\ (forall x, In x l -> exists y, In y (uniqBy eqb f l) /\ f y = f x).
Proof.
  unfold uniqBy. split; [apply uniqByFrom_NoDup |]. split; [| split].
  - apply uniqByFrom_fixed; [apply uniqByFrom_NoDup | intros x _ []].
  - intros y Hy. now apply uniqByFrom_In in Hy.
  - intros x Hx. destruct (uniqByFrom_complete l [] x Hx) as [[] | Hin].
    apply in_map_iff in Hin. destruct Hin as (y & Hy & Hin). now exists y.
Qed.

End UniqByFacts.

(** X4: each of the three deduplications of the import (benefit rows by
    NISTITULAR-NISDEPENDEN, enrollment rows by Aluno-Matricula, benefit rows by
    NISDEPENDEN) leaves rows of the input only, with pairwise different keys
    and with every key of the input still present, and running it again
    changes nothing. *)
Theorem deduplications_sound :
  forall (familyFile : list FamilyItem) (sislameFile : list SislameItem),
    let byKeys := uniqBy String.eqb familyKey familyFile in
    let enrollment := originalSislameDataOf sislameFile in
    let pool := uniqueCandidates familyFile in
    (NoDup (map familyKey byKeys)
     /\ uniqBy String.eqb familyKey byKeys = byKeys
     /\ (forall y, In y byKeys -> In y familyFile)
     /\ (forall x, In x familyFile -> exists y, In y byKeys /\ familyKey y = familyKey x))
    /\ (NoDup (map sislameKey enrollment)
        /\ originalSislameDataOf enrollment = enrollment
        /\ (forall y, In y enrollment -> In y sislameFile)
        /\ (forall x, In x sislameFile ->
                      exists y, In y enrollment /\ sislameKey y = sislameKey x))
    /\ (NoDup (map (get "NISDEPENDEN") pool)
        /\ uniqueCandidates pool = pool
        /\ (forall y, In y pool -> In y familyFile)
        /\ (forall x, In x familyFile ->
                      exists y, In y pool /\ get "NISDEPENDEN" y = get "NISDEPENDEN" x)).
Proof.
  intros familyFile sislameFile byKeys enrollment pool. split; [| split].
  - apply uniqBy_facts. apply String.eqb_eq.
  - apply (uniqBy_facts _ _ String.eqb sislameKey String.eqb_eq).
  - apply (uniqBy_facts _ _ strictEq (get "NISDEPENDEN") strictEq_eq).
Qed.

(** ** What every run of the import keeps *)

Lemma get_set_same (k v : string) (r : Row) : get k (set k v r) = Some v.
Proof.
  induction r as [|[k0 v0] t IH]; simpl.
  - now rewrite String.eqb_refl.
  - destruct (String.eqb k k0) eqn:Hk; simpl; rewrite Hk; [reflexivity | exact IH].
Qed.

Lemma bind_returned {A B} (m : M A) (k : A -> M B) (w w' : World) (b : B) :
  bind m k w = (w', Returned b) ->
  exists w1 a, m w = (w1, Returned a) /\ k a w1 = (w', Returned b).
Proof.
  unfold bind. destruct (m w) as [w1 [a|e]]; intro H; [| discriminate].
  now exists w1, a.
Qed.

Section PipelineInduction.

Context {E : Externals}.
Variables (c : CityId) (ofd : list FamilyItem) (osd : list SislameItem).
Variables (R : World -> World -> Prop) (Q : list Family -> Prop).
Hypothesis R_refl : forall w, R w w.
Hypothesis R_trans : forall a b d, R a b -> R b d -> R a d.
Hypothesis R_report : forall r w, R w (fst (updateImportReportM r c w)).
Hypothesis R_write :
  forall records w, Forall knownReason records -> R w (fst (writeRecords records w)).
Hypothesis R_certify :
  forall family w,
    R w {| reports := reports w; reasonRecords := reasonRecords w;
           certified := certified w ++ [family] |}.
Hypothesis Q_add :
  forall granted f o os,
    In o ofd -> In os osd -> Q granted -> Q (addGranted granted f o os c).

Lemma stepsBy_ret {A} (a : A) : stepsBy R (ret a).
Proof. intro w. apply R_refl. Qed.

Lemma stepsBy_throw {A} (e : Thrown) : stepsBy R (@throw A e).
Proof. intro w. apply R_refl. Qed.

Lemma stepsBy_bind {A B} (m : M A) (k : A -> M B) :
  stepsBy R m -> (forall a, stepsBy R (k a)) -> stepsBy R (bind m k).
Proof.
  intros Hm Hk w. unfold bind. specialize (Hm w).
  destruct (m w) as [w1 [a|e]]; simpl in *; [| exact Hm].
  eapply R_trans; [exact Hm | apply Hk].
Qed.

Lemma keeps_ret (granted : list Family) : Q granted -> keeps R Q (ret granted).
Proof. intros HQ w. split; [apply R_refl |]. simpl. intros g Hg. now injection Hg as <-. Qed.

Lemma keeps_throw (e : Thrown) : keeps R Q (throw e).
Proof. intro w. split; [apply R_refl | discriminate]. Qed.

Lemma keeps_after {A} (m : M A) (k : A -> M (list Family)) :
  stepsBy R m -> (forall a, keeps R Q (k a)) -> keeps R Q (bind m k).
Proof.
  intros Hm Hk w. unfold bind. specialize (Hm w).
  destruct (m w) as [w1 [a|e]]; simpl in *.
  - destruct (Hk a w1) as [HR HQ]. split; [eapply R_trans; eassumption | exact HQ].
  - split; [exact Hm | discriminate].
Qed.

Lemma keeps_bind (m : M (list Family)) (k : list Family -> M (list Family)) :
  keeps R Q m -> (forall granted, Q granted -> keeps R Q (k granted)) -> keeps R Q (bind m k).
Proof.
  intros Hm Hk w. unfold bind. destruct (Hm w) as [HR HQ].
  destruct (m w) as [w1 [a|e]]; simpl in *.
  - destruct (Hk a (HQ a eq_refl) w1) as [HR2 HQ2].
    split; [eapply R_trans; eassumption | exact HQ2].
  - split; [exact HR | discriminate].
Qed.

Lemma knownReason_withReason (reason : string) (item : Row) :
  In reason [ofAgeReason; sislameOfAgeReason; otherResponsibleReason; notInSislameReason]
  \/ (exists name, reason = linkedToOtherReason name) ->
  knownReason (withReason reason item).
Proof. intro H. exists reason. split; [apply get_set_same | exact H]. Qed.

Lemma stepsBy_reject (reason : string) (item : Row) :
  In reason [ofAgeReason; sislameOfAgeReason; otherResponsibleReason; notInSislameReason]
  \/ (exists name, reason = linkedToOtherReason name) ->
  stepsBy R (writeRecords [withReason reason item]).
Proof.
  intros H w. apply R_write. constructor; [now apply knownReason_withReason | constructor].
Qed.

Lemma keeps_compareFamily sd total i familyItem granted :
  Q granted -> keeps R Q (compareFamily ofd osd sd c total i familyItem granted).
Proof.
  intro HQ. unfold compareFamily.
  apply keeps_after; [intro w; apply R_report | intros _].
  destruct (findEntry _ sd) as [[si s]|].
  - destruct (negb _).
    + apply keeps_after; [| intros _; now apply keeps_ret].
      apply stepsBy_reject. left. simpl. auto.
    + destruct (nth_error ofd i) as [o|] eqn:Ho; [| apply keeps_throw].
      destruct (nth_error osd si) as [os|] eqn:Hos; [| apply keeps_throw].
      apply keeps_ret. apply Q_add; [eapply nth_error_In; eassumption.. | assumption].
  - destruct (find _ sd).
    + apply keeps_after; [| intros _; now apply keeps_ret].
      apply stepsBy_reject. left. simpl. auto.
    + apply keeps_after; [| intros _; now apply keeps_ret].
      apply stepsBy_reject. left. simpl. auto.
Qed.

Lemma keeps_compareLoop sd total items :
  forall granted, Q granted -> keeps R Q (compareLoop ofd osd sd c total items granted).
Proof.
  induction items as [|[i familyItem] more IH]; intros granted HQ; simpl.
  - now apply keeps_ret.
  - apply keeps_bind; [now apply keeps_compareFamily | exact IH].
Qed.

Lemma keeps_resolveClaimants key si s claimants :
  forall granted, Q granted -> keeps R Q (resolveClaimants ofd osd c key si s claimants granted).
Proof.
  induction claimants as [|f more IH]; intros granted HQ; simpl.
  - now apply keeps_ret.
  - destruct (compareNames _ _).
    + destruct (negb _).
      * apply keeps_after; [| intros _; now apply IH].
        apply stepsBy_reject. left. simpl. auto.
      * match goal with |- context [find ?p ofd] => destruct (find p ofd) as [o|] eqn:Ho end;
          [| apply keeps_throw].
        destruct (nth_error osd si) as [os|] eqn:Hos; [| apply keeps_throw].
        apply IH. apply Q_add; [| eapply nth_error_In; eassumption | assumption].
        apply find_some in Ho. apply Ho.
    + apply keeps_after; [| intros _; now apply IH].
      apply stepsBy_reject. right. eexists. reflexivity.
Qed.

Lemma keeps_resolveGroup sd items granted :
  Q granted -> keeps R Q (resolveGroup ofd osd sd c items granted).
Proof.
  intro HQ. unfold resolveGroup. destruct (findSislameKey _ _ _) as [[key [si s]]|].
  - now apply keeps_resolveClaimants.
  - apply keeps_after; [| intros _; now apply keeps_ret].
    intro w. apply R_write. apply Forall_forall. intros r Hr.
    apply in_map_iff in Hr. destruct Hr as (item & <- & _).
    apply knownReason_withReason. left. simpl. auto.
Qed.

Lemma keeps_duplicatedLoop sd dup granted :
  Q granted -> keeps R Q (duplicatedLoop ofd osd sd c dup granted).
Proof.
  funelim (duplicatedLoop ofd osd sd c dup granted); intro HQ.
  - now apply keeps_ret.
  - apply keeps_bind; [now apply keeps_resolveGroup |].
    intros g Hg w. exact (H g w Hg w).
Qed.

Lemma stepsBy_checkRequired table requiredKeys item :
  stepsBy R (checkRequired table requiredKeys item c).
Proof.
  unfold checkRequired. destruct item as [item|]; [| apply stepsBy_throw].
  destruct (notFoundKeys requiredKeys (keys item)); [apply stepsBy_ret |].
  apply stepsBy_bind; [intro w; apply R_report | intros _; apply stepsBy_throw].
Qed.

Lemma stepsBy_saveLoop total items :
  forall dbFamilies, stepsBy R (saveLoop c total items dbFamilies).
Proof.
  induction items as [|[i family] more IH]; intro dbFamilies; simpl.
  - apply stepsBy_ret.
  - apply stepsBy_bind; [intro w; apply R_report | intros _ w].
    destruct (dbCertify family).
    + simpl. apply R_certify.
    + eapply R_trans; [apply R_certify | apply IH].
Qed.

Lemma stepsBy_saveFamilies granted : stepsBy R (saveFamilies c granted).
Proof.
  intro w. unfold saveFamilies.
  pose proof (stepsBy_saveLoop (List.length granted) (indexed granted) [] w) as Hloop.
  destruct (saveLoop _ _ _ _ w) as [w1 [dbFamilies|e]]; simpl in Hloop.
  - eapply R_trans; [exact Hloop | apply R_report].
  - eapply R_trans; [exact Hloop |]. unfold bind. cbn. apply R_report.
Qed.

Lemma keeps_reconcile familyFile sislameFile :
  ofd = originalFamilyDataOf familyFile ->
  osd = originalSislameDataOf sislameFile ->
  Q [] ->
  keeps R Q (reconcile familyFile sislameFile c).
Proof.
  intros Hofd Hosd HQ. unfold reconcile. rewrite <- Hofd, <- Hosd.
  apply keeps_after.
  - intro w. apply R_write. unfold removedFamiliesOf. rewrite filterByAge_split. cbn [snd].
    apply Forall_forall. intros r Hr. apply in_map_iff in Hr. destruct Hr as (item & <- & _).
    apply knownReason_withReason. left. simpl. auto.
  - intros _. apply keeps_bind; [now apply keeps_compareLoop |].
    intros g Hg. now apply keeps_duplicatedLoop.
Qed.

Lemma keeps_import familyFile sislameFile :
  ofd = originalFamilyDataOf familyFile ->
  osd = originalSislameDataOf sislameFile ->
  Q [] ->
  keeps R Q (importFamilyFromCadAndSislameCSV familyFile sislameFile c).
Proof.
  intros Hofd Hosd HQ. unfold importFamilyFromCadAndSislameCSV.
  apply keeps_after; [intro w; apply R_report | intros _].
  apply keeps_after; [intro w; apply R_report | intros _].
  apply keeps_after; [apply stepsBy_checkRequired | intros _].
  apply keeps_after; [apply stepsBy_checkRequired | intros _].
  apply keeps_bind; [now apply keeps_reconcile |].
  intros g Hg. apply keeps_after; [apply stepsBy_saveFamilies | intros _; now apply keeps_ret].
Qed.

End PipelineInduction.

Section PipelineInvariants.

Context {E : Externals}.

(** X5: whatever the two files hold, and whether the import returns or
    throws, every record it hands to the reason-file writer, in whatever
    [writeRecords] call, has a reason field holding one of the four fixed
    reasons or the rejection that cites the other guardian; the records
    handed over before the import are as they were.  (What the file on disk
    holds is another matter: a writer made by [getCSVWriter] starts the file
    anew.) *)
Theorem handed_records_carry_known_reasons :
  forall (familyFile : list FamilyItem) (sislameFile : list SislameItem) (c : CityId) (w : World),
  exists rest,
    reasonRecords (fst (importFamilyFromCadAndSislameCSV familyFile sislameFile c w))
    = reasonRecords w ++ rest
    /\ Forall
         (fun record =>
            exists reason,
              get "reason" record = Some reason
              /\ (In reason ["Depedente maior de idade";
                             "Dependente não é menor de idade no Sislame";
                             "Encontrado aluno com mesmo nome no Sislame, mas responsável diferente. Atualizar Sislame ou é um homônimo";
                             "Dependente não está no Sislame"]
                  \/ exists name,
                       reason = ("Dependente está vinculado à outra pessoa ("
                                   ++ tpl name ++ ")")%string))
         rest.
Proof.
  intros familyFile sislameFile c w.
  set (R := fun w1 w2 : World =>
              exists rest, reasonRecords w2 = reasonRecords w1 ++ rest
                           /\ Forall knownReason rest).
  assert (Hkeeps : keeps R (fun _ => True)
                     (importFamilyFromCadAndSislameCSV familyFile sislameFile c)).
  { apply (keeps_import c (originalFamilyDataOf familyFile) (originalSislameDataOf sislameFile));
      try reflexivity; try exact I; unfold R.
    - intro w0. exists []. split; [now rewrite app_nil_r | constructor].
    - intros a b d (r1 & H1 & F1) (r2 & H2 & F2). exists (r1 ++ r2). split.
      + rewrite H2, H1. now rewrite app_assoc.
      + apply Forall_app. now split.
    - intros r w0. exists []. simpl. split; [now rewrite app_nil_r | constructor].
    - intros records w0 Hrec. exists records. simpl. now split.
    - intros family w0. exists []. simpl. split; [now rewrite app_nil_r | constructor]. }
  destruct (Hkeeps w) as [(rest & Hrest & Hknown) _]. exists rest. split; [exact Hrest |].
  exact Hknown.
Qed.

Lemma updateImportReportM_registry (r : ImportReport) (c : CityId) (w : World) :
  (forall c', c <> c' ->
     getImportReport (reports (fst (updateImportReportM r c w))) c'
     = getImportReport (reports w) c')
  /\ (onePerCity (reports w) -> onePerCity (reports (fst (updateImportReportM r c w)))).
Proof.
  simpl. split.
  - intros c' Hc. unfold getImportReport. now rewrite find_other_city.
  - apply updateImportReport_keeps.
Qed.

(** The registry relation between two worlds: other cities read the same and
    the one-report-per-city shape is kept. *)
Lemma registry_relation_import (familyFile : list FamilyItem) (sislameFile : list SislameItem)
    (c : CityId) (w : World) :
  (forall c', c <> c' ->
     getImportReport
       (reports (fst (importFamilyFromCadAndSislameCSV familyFile sislameFile c w))) c'
     = getImportReport (reports w) c')
  /\ (onePerCity (reports w) ->
      onePerCity (reports (fst (importFamilyFromCadAndSislameCSV familyFile sislameFile c w)))).
Proof.
  set (R := fun w1 w2 : World =>
              (forall c', c <> c' ->
                          getImportReport (reports w2) c' = getImportReport (reports w1) c')
              /\ (onePerCity (reports w1) -> onePerCity (reports w2))).
  assert (Hkeeps : keeps R (fun _ => True)
                     (importFamilyFromCadAndSislameCSV familyFile sislameFile c)).
  { apply (keeps_import c (originalFamilyDataOf familyFile) (originalSislameDataOf sislameFile));
      try reflexivity; try exact I; unfold R.
    - intro w0. split; auto.
    - intros a b d [H1 K1] [H2 K2]. split; [| auto].
      intros c' Hc. rewrite (H2 c' Hc). now apply H1.
    - intros r w0. apply updateImportReportM_registry.
    - intros records w0 _. simpl. split; auto.
    - intros family w0. simpl. split; auto. }
  exact (proj1 (Hkeeps w)).
Qed.

(** X6: an import for one city, whatever it does and however it ends, leaves
    the report that every other city reads as it was, and keeps the registry
    at one report per city at most. *)
Theorem import_leaves_other_cities_reports :
  forall (familyFile : list FamilyItem) (sislameFile : list SislameItem)
         (c c' : CityId) (w : World),
    c <> c' ->
    onePerCity (reports w) ->
    getImportReport
      (reports (fst (importFamilyFromCadAndSislameCSV familyFile sislameFile c w))) c'
    = getImportReport (reports w) c'
    /\ onePerCity (reports (fst (importFamilyFromCadAndSislameCSV familyFile sislameFile c w))).
Proof.
  intros familyFile sislameFile c c' w Hc Hw.
  destruct (registry_relation_import familyFile sislameFile c w) as [Hother Hone].
  split; [now apply Hother | now apply Hone].
Qed.

(** ** The granted list *)

Lemma dependentsOf_withDependents (family : Family) (ds : list Dependent) :
  dependentsOf (withDependents family ds) = ds.
Proof. reflexivity. Qed.

Lemma withDependents_again (family : Family) (ds ds' : list Dependent) :
  withDependents (withDependents family ds) ds' = withDependents family ds'.
Proof. reflexivity. Qed.

Lemma replaceAt_Forall {A} (P : A -> Prop) (grant : A -> A) (i : nat) (l : list A) :
  Forall P l -> (forall x, P x -> P (grant x)) -> Forall P (replaceAt i grant l).
Proof.
  intros Hl Hgrant. unfold replaceAt. apply Forall_forall. intros y Hy.
  apply in_map_iff in Hy. destruct Hy as ([j x] & <- & Hin). simpl.
  apply indexed_In in Hin. apply nth_error_In in Hin.
  rewrite Forall_forall in Hl. destruct (Nat.eqb j i); auto.
Qed.

Lemma addGranted_wellGranted (c : CityId) (ofd : list FamilyItem) (osd : list SislameItem)
    (granted : list Family) (f o : FamilyItem) (os : SislameItem) :
  In o ofd -> In os osd ->
  Forall (wellGranted c ofd osd) granted ->
  Forall (wellGranted c ofd osd) (addGranted granted f o os c).
Proof.
  intros Ho Hos Hg. unfold addGranted.
  destruct (findIndex _ granted) as [i|].
  - apply replaceAt_Forall; [assumption |].
    intros family ((o0 & Ho0 & Hbase) & _ & Hdeps). unfold wellGranted.
    rewrite dependentsOf_withDependents. split; [| split].
    + exists o0. split; [assumption |]. rewrite Hbase at 1. apply withDependents_again.
    + intro Hnil. apply app_eq_nil in Hnil. destruct Hnil as [_ Hnil]. discriminate.
    + apply Forall_app. split; [assumption |]. constructor; [| constructor]. simpl. auto.
  - apply Forall_app. split; [assumption |]. constructor; [| constructor].
    unfold wellGranted. rewrite dependentsOf_withDependents. split; [| split].
    + exists o. split; [assumption | reflexivity].
    + discriminate.
    + constructor; [| constructor]. simpl. auto.
Qed.

Lemma import_wellGranted (familyFile : list FamilyItem) (sislameFile : list SislameItem)
    (c : CityId) (w : World) (granted : list Family) :
  snd (importFamilyFromCadAndSislameCSV familyFile sislameFile c w) = Returned granted ->
  Forall (wellGranted c (originalFamilyDataOf familyFile) (originalSislameDataOf sislameFile))
    granted.
Proof.
  assert (Hkeeps : keeps (fun _ _ => True)
                     (Forall (wellGranted c (originalFamilyDataOf familyFile)
                                (originalSislameDataOf sislameFile)))
                     (importFamilyFromCadAndSislameCSV familyFile sislameFile c)).
  { apply (keeps_import c (originalFamilyDataOf familyFile) (originalSislameDataOf sislameFile));
      try reflexivity; try (intros; exact I).
    - intros. now apply addGranted_wellGranted.
    - constructor. }
  apply (proj2 (Hkeeps w)).
Qed.

(** X7: in the granted list of an import that returns (the list it has
    handed to the database), every family belongs to the import's
    city, is parsed from a benefit row of the file that passed the eligibility
    filter, and holds at least one dependent; and every dependent is built
    from a benefit row of the file that passed the eligibility filter and from
    an enrollment row of the file. *)
Theorem granted_families_well_formed :
  forall (familyFile : list FamilyItem) (sislameFile : list SislameItem) (c : CityId)
         (w : World) (granted : list Family) (family : Family),
    snd (importFamilyFromCadAndSislameCSV familyFile sislameFile c w) = Returned granted ->
    In family granted ->
    familyCityId family = c
    /\ (exists o, In o familyFile /\ validAge (get "DTNASCDEP" o) = true
                  /\ responsibleNis family = get "NISTITULAR" o
                  /\ responsibleName family = get "TITULAR" o)
    /\ dependentsOf family <> []
    /\ forall d, In d (dependentsOf family) ->
                 In (fromFamilyItem d) familyFile
                 /\ validAge (get "DTNASCDEP" (fromFamilyItem d)) = true
                 /\ In (fromSislameItem d) sislameFile.
Proof.
  intros familyFile sislameFile c w granted family Hret Hin.
  pose proof (import_wellGranted _ _ _ _ _ Hret) as Hall.
  rewrite Forall_forall in Hall. destruct (Hall family Hin) as ((o & Ho & Hbase) & Hne & Hdeps).
  assert (Heligible : forall x, In x (originalFamilyDataOf familyFile) ->
                                In x familyFile /\ validAge (get "DTNASCDEP" x) = true).
  { intros x Hx. unfold originalFamilyDataOf in Hx. rewrite filterByAge_split in Hx.
    cbn [fst] in Hx. apply filter_In in Hx. destruct Hx as [Hx Hvalid]. split; [| exact Hvalid].
    unfold uniqBy in Hx. now apply uniqByFrom_In with (seen := []) in Hx; [| apply String.eqb_eq]. }
  split; [rewrite Hbase; reflexivity |]. split; [| split; [exact Hne |]].
  - exists o. destruct (Heligible o Ho) as [Hfile Hvalid].
    repeat split; try assumption; rewrite Hbase; reflexivity.
  - intros d Hd. rewrite Forall_forall in Hdeps. destruct (Hdeps d Hd) as [Hf Hs].
    destruct (Heligible _ Hf) as [Hfile Hvalid]. repeat split; try assumption.
    unfold originalSislameDataOf, uniqBy in Hs.
    now apply uniqByFrom_In with (seen := []) in Hs; [| apply String.eqb_eq].
Qed.

End PipelineInvariants.

(** ** Saving *)

Lemma indexed_values {A} (l : list A) : map snd (indexed l) = l.
Proof.
  unfold indexed. generalize 0 as start.
  induction l as [|a t IH]; intro start; simpl; [reflexivity | now rewrite IH].
Qed.

Section Saving.

Context {E : Externals}.

Lemma saveLoop_returned (c : CityId) (total : nat) (items : list (nat * Family)) :
  forall dbFamilies w w' out,
    saveLoop c total items dbFamilies w = (w', Returned out) ->
    certified w' = certified w ++ map snd items
    /\ Forall stores (map snd items).
Proof.
  induction items as [|[i family] more IH]; intros dbFamilies w w' out Hrun; simpl in *.
  - injection Hrun as <- _. split; [now rewrite app_nil_r | constructor].
  - unfold bind in Hrun. cbn [updateImportReportM] in Hrun. cbn beta iota in Hrun.
    destruct (dbCertify family) as [m|dbFamily] eqn:Hdb; [discriminate |].
    apply IH in Hrun. cbn [certified] in Hrun. destruct Hrun as [Hcert Hall]. split.
    + rewrite Hcert. now rewrite <- app_assoc.
    + constructor; [now exists dbFamily | assumption].
Qed.

Lemma saveLoop_failure (c : CityId) (total : nat) (items : list (nat * Family)) :
  forall dbFamilies w pre family post m,
    map snd items = pre ++ family :: post ->
    Forall stores pre ->
    dbCertify family = inl m ->
    exists w',
      saveLoop c total items dbFamilies w = (w', Threw (JsError m))
      /\ certified w' = certified w ++ pre ++ [family]
      /\ reasonRecords w' = reasonRecords w.
Proof.
  induction items as [|[i x] more IH]; intros dbFamilies w pre family post m Hitems Hpre Hfail;
    simpl in Hitems.
  - destruct pre; discriminate.
  - cbn [saveLoop]. unfold bind. cbn [updateImportReportM]. cbn beta iota.
    destruct pre as [|p pre]; simpl in Hitems; injection Hitems as -> Hmore.
    + rewrite Hfail. eexists. split; [reflexivity |]. simpl. auto.
    + inversion Hpre as [|? ? [dbFamily Hp] Hpre']; subst. rewrite Hp.
      match goal with |- context [saveLoop c total more ?dbs ?w1] =>
        destruct (IH dbs w1 pre family post m Hmore Hpre' Hfail) as (w' & Hrun & Hcert & Hrec)
      end.
      exists w'. split; [exact Hrun |]. cbn [certified reasonRecords] in Hcert, Hrec.
      split; [| exact Hrec]. rewrite Hcert. now rewrite <- !app_assoc.
Qed.

Lemma saveLoop_onePerCity (c : CityId) (total : nat) (items : list (nat * Family))
    (dbFamilies : list Family) (w : World) :
  onePerCity (reports w) ->
  onePerCity (reports (fst (saveLoop c total items dbFamilies w))).
Proof.
  apply (stepsBy_saveLoop c (fun w1 w2 => onePerCity (reports w1) -> onePerCity (reports w2))).
  - auto.
  - auto.
  - intros r w0. simpl. apply updateImportReport_keeps.
  - intros family w0. simpl. auto.
Qed.

(** X8: when the database rejects one of the granted families, the families
    before it have been handed over and stay stored, the rejected one is the
    last one handed over and no later family is tried; the thrown error
    carries the database's message, the city's report reads failed with that
    message and not in progress, and the reason file is untouched. *)
Theorem persistence_failure_stops_saving :
  forall (c : CityId) (pre post : list Family) (family : Family) (m : string) (w : World),
    onePerCity (reports w) ->
    Forall stores pre ->
    dbCertify family = inl m ->
    let result := saveFamilies c (pre ++ family :: post) w in
    snd result = Threw (JsError m)
    /\ certified (fst result) = certified w ++ pre ++ [family]
    /\ reasonRecords (fst result) = reasonRecords w
    /\ getImportReport (reports (fst result)) c
       = {| status := Failed; message := Some m; percentage := None;
            cityId := Some c; inProgress := Some false |}.
Proof.
  intros c pre post family m w Hw Hpre Hfail result. subst result. unfold saveFamilies.
  set (granted := pre ++ family :: post).
  pose proof (saveLoop_onePerCity c (List.length granted) (indexed granted) [] w Hw) as Hone.
  destruct (saveLoop_failure c (List.length granted) (indexed granted) [] w pre family post m
              (indexed_values granted) Hpre Hfail) as (w' & Hrun & Hcert & Hrec).
  rewrite Hrun in Hone |- *. cbn [fst] in Hone. unfold bind. cbn.
  repeat split; try assumption. now rewrite getImportReport_update.
Qed.

Lemma import_returned_parts (familyFile : list FamilyItem) (sislameFile : list SislameItem)
    (c : CityId) (w w' : World) (granted : list Family) :
  importFamilyFromCadAndSislameCSV familyFile sislameFile c w = (w', Returned granted) ->
  exists w1 w2,
    certified w1 = certified w
    /\ (onePerCity (reports w) -> onePerCity (reports w1))
    /\ reconcile familyFile sislameFile c w1 = (w2, Returned granted)
    /\ saveFamilies c granted w2 = (w', Returned tt).
Proof.
  unfold importFamilyFromCadAndSislameCSV. intro Hrun.
  apply bind_returned in Hrun. destruct Hrun as (wa & [] & Ha & Hrun).
  apply bind_returned in Hrun. destruct Hrun as (wb & [] & Hb & Hrun).
  apply bind_returned in Hrun. destruct Hrun as (wc & [] & Hc & Hrun).
  apply bind_returned in Hrun. destruct Hrun as (wd & [] & Hd & Hrun).
  apply bind_returned in Hrun. destruct Hrun as (we & g & He & Hrun).
  apply bind_returned in Hrun. destruct Hrun as (wf & [] & Hf & Hrun).
  injection Hrun as <- <-. exists wd, we.
  set (R := fun w1 w2 : World =>
              certified w2 = certified w1
              /\ (onePerCity (reports w1) -> onePerCity (reports w2))).
  assert (Hreport : forall r w0, R w0 (fst (updateImportReportM r c w0)))
    by (intros r w0; split; [reflexivity | apply updateImportReport_keeps]).
  assert (Hrefl : forall w0, R w0 w0) by (intro w0; split; auto).
  assert (Htrans : forall a b d, R a b -> R b d -> R a d).
  { intros a b d [H1 K1] [H2 K2]. split; [congruence | auto]. }
  assert (Hcheck : forall table keys item w0, R w0 (fst (checkRequired table keys item c w0)))
    by (intros; apply (stepsBy_checkRequired c R Hrefl Htrans Hreport)).
  pose proof (Hreport (report ReadingFiles) w) as R1. rewrite Ha in R1.
  pose proof (Hreport (report FilteringData) wa) as R2. rewrite Hb in R2.
  pose proof (Hcheck "Sislame" requiredSislameKeys (hd_error sislameFile) wb) as R3.
  unfold checkRequiredSislameData in Hc. rewrite Hc in R3.
  pose proof (Hcheck "Bolsa Família" requiredFamilyKeys (hd_error familyFile) wc) as R4.
  unfold checkRequiredFamilyData in Hd. rewrite Hd in R4.
  destruct (Htrans _ _ _ (Htrans _ _ _ (Htrans _ _ _ R1 R2) R3) R4) as [Hcert Hone].
  repeat split; assumption.
Qed.

Lemma reconcile_certified (familyFile : list FamilyItem) (sislameFile : list SislameItem)
    (c : CityId) (w : World) :
  certified (fst (reconcile familyFile sislameFile c w)) = certified w
  /\ (onePerCity (reports w) ->
      onePerCity (reports (fst (reconcile familyFile sislameFile c w)))).
Proof.
  set (R := fun w1 w2 : World =>
              certified w2 = certified w1
              /\ (onePerCity (reports w1) -> onePerCity (reports w2))).
  assert (Hkeeps : keeps R (fun _ => True) (reconcile familyFile sislameFile c)).
  { apply (keeps_reconcile c (originalFamilyDataOf familyFile)
             (originalSislameDataOf sislameFile));
      try reflexivity; try exact I; unfold R.
    - intro w0. split; auto.
    - intros a b d [H1 K1] [H2 K2]. split; [congruence | auto].
    - intros r w0. split; [reflexivity | apply updateImportReport_keeps].
    - intros records w0 _. split; [reflexivity | auto]. }
  exact (proj1 (Hkeeps w)).
Qed.

(** X9: when the import returns, each granted family has been handed to the
    database exactly once, in the order of the returned list and after
    whatever was handed over before; the database stored every one of them;
    and the city's report reads completed, not in progress. *)
Theorem import_success_saves_every_family :
  forall (familyFile : list FamilyItem) (sislameFile : list SislameItem) (c : CityId)
         (w w' : World) (granted : list Family),
    onePerCity (reports w) ->
    importFamilyFromCadAndSislameCSV familyFile sislameFile c w = (w', Returned granted) ->
    certified w' = certified w ++ granted
    /\ Forall stores granted
    /\ getImportReport (reports w') c
       = {| status := Completed; message := None; percentage := None;
            cityId := Some c; inProgress := Some false |}.
Proof.
  intros familyFile sislameFile c w w' granted Hw Hrun.
  apply import_returned_parts in Hrun.
  destruct Hrun as (w1 & w2 & Hcert1 & Hone1 & Hrec & Hsave).
  destruct (reconcile_certified familyFile sislameFile c w1) as [Hcert2 Hone2].
  rewrite Hrec in Hcert2, Hone2. cbn [fst] in Hcert2, Hone2.
  unfold saveFamilies in Hsave.
  pose proof (saveLoop_onePerCity c (List.length granted) (indexed granted) [] w2
                (Hone2 (Hone1 Hw))) as Hone3.
  destruct (saveLoop c (List.length granted) (indexed granted) [] w2) as [w3 [dbs|e]] eqn:Hloop.
  - apply saveLoop_returned in Hloop. rewrite indexed_values in Hloop.
    destruct Hloop as [Hcert3 Hall]. cbn [fst] in Hone3.
    cbn [updateImportReportM] in Hsave. injection Hsave as <-. cbn [certified reports].
    split; [congruence |]. split; [exact Hall |]. now rewrite getImportReport_update.
  - unfold bind in Hsave. cbn in Hsave. discriminate.
Qed.

End Saving.

(** ** The duplicate pass decides every pending row once *)

Section DuplicatePass.

Context {E : Externals}.

Lemma resolveClaimants_counts ofd osd c key si s os claimants :
  nth_error osd si = Some os ->
  (forall f, In f claimants -> knownGuardian ofd f) ->
  forall granted w,
  exists granted' w',
    resolveClaimants ofd osd c key si s claimants granted w = (w', Returned granted')
    /\ acceptedCount granted' + List.length (reasonRecords w')
       = acceptedCount granted + List.length (reasonRecords w) + List.length claimants.
Proof.
  intros Hos. induction claimants as [|f more IH]; intros Hknown granted w.
  - exists granted, w. split; [reflexivity | simpl; lia].
  - assert (Hmore : forall f', In f' more -> knownGuardian ofd f')
      by (intros f' Hf'; apply Hknown; now right).
    specialize (IH Hmore). cbn [resolveClaimants].
    destruct (compareNames (get key s) (get "TITULAR" f)).
    + destruct (validAge (get "Data Nascimento" s)); cbn [negb].
      * pose proof (Hknown f (or_introl eq_refl)) as Hf. unfold knownGuardian in Hf.
        match type of Hf with find ?p ofd <> None => destruct (find p ofd) as [o|] end;
          [| congruence]. rewrite Hos.
        destruct (IH (addGranted granted f o os c) w) as (g & w' & Hrun & Hcount).
        exists g, w'. split; [exact Hrun |]. rewrite addGranted_count in Hcount. simpl. lia.
      * unfold bind. cbn [writeRecords].
        match goal with |- context [resolveClaimants _ _ _ _ _ _ more granted ?w1] =>
          destruct (IH granted w1) as (g & w' & Hrun & Hcount) end.
        exists g, w'. split; [exact Hrun |]. cbn [reasonRecords] in Hcount.
        rewrite length_app in Hcount. simpl in *. lia.
    + unfold bind. cbn [writeRecords].
      match goal with |- context [resolveClaimants _ _ _ _ _ _ more granted ?w1] =>
        destruct (IH granted w1) as (g & w' & Hrun & Hcount) end.
      exists g, w'. split; [exact Hrun |]. cbn [reasonRecords] in Hcount.
      rewrite length_app in Hcount. simpl in *. lia.
Qed.

Lemma findSislameKey_index possibleKeys items sd key si s :
  findSislameKey possibleKeys items sd = Some (key, (si, s)) -> nth_error sd si = Some s.
Proof.
  induction possibleKeys as [|k more IH]; simpl; [discriminate |].
  destruct (findEntry (sameChildAndParent k items) sd) as [[i x]|] eqn:Hfind.
  - intro H. injection H as _ <- <-. now apply findEntry_some in Hfind.
  - exact IH.
Qed.

Lemma resolveGroup_counts ofd osd sd c items :
  List.length osd = List.length sd ->
  (forall f, In f items -> knownGuardian ofd f) ->
  forall granted w,
  exists granted' w',
    resolveGroup ofd osd sd c items granted w = (w', Returned granted')
    /\ acceptedCount granted' + List.length (reasonRecords w')
       = acceptedCount granted + List.length (reasonRecords w) + List.length items.
Proof.
  intros Hlen Hknown granted w. unfold resolveGroup.
  destruct (findSislameKey sislamePossibleKeys items sd) as [[key [si s]]|] eqn:Hkey.
  - apply findSislameKey_index in Hkey.
    destruct (nth_error osd si) as [os|] eqn:Hos.
    + now apply (resolveClaimants_counts ofd osd c key si s os).
    + apply nth_error_None in Hos.
      assert (si < List.length sd) by (apply nth_error_Some; rewrite Hkey; discriminate).
      unfold SislameItem in *. lia.
  - eexists _, _. split; [reflexivity |]. cbn. rewrite length_app, length_map.
    unfold FamilyItem in *. lia.
Qed.

Lemma duplicatedLoop_counts ofd osd sd c dup granted :
  List.length osd = List.length sd ->
  (forall f, In f dup -> knownGuardian ofd f) ->
  forall w,
  exists granted' w',
    duplicatedLoop ofd osd sd c dup granted w = (w', Returned granted')
    /\ acceptedCount granted' + List.length (reasonRecords w')
       = acceptedCount granted + List.length (reasonRecords w) + List.length dup.
Proof.
  funelim (duplicatedLoop ofd osd sd c dup granted); intros Hlen Hknown w.
  - exists grantedFamilies, w. split; [reflexivity | simpl; lia].
  - destruct (resolveGroup_counts originalFamilyData originalSislameData sislameData c
                (filter (sameDependent first) (first :: rest)) Hlen) with
      (granted := grantedFamilies) (w := w) as (g1 & w1 & Hgroup & Hcount1).
    { intros f Hf. apply Hknown. apply filter_In in Hf. apply Hf. }
    destruct (H g1 w1 Hlen) with (w := w1) as (g2 & w2 & Hrest & Hcount2).
    { intros f Hf. apply Hknown. apply filter_In in Hf. apply Hf. }
    exists g2, w2. split.
    + unfold bind. rewrite Hgroup. exact Hrest.
    + pose proof (filter_partition_length (sameDependent first) (first :: rest)) as Hsplit.
      unfold FamilyItem in *. lia.
Qed.

(** X10: when the guardian ID of every pending row is found among the
    original benefit rows, the duplicate pass returns and has decided each
    pending row exactly once: the dependents it has added to the granted list
    and the records it has appended to the reason file add up to the number of
    pending rows. *)
Theorem duplicate_pass_decides_each_row_once :
  forall (originalFamilyData : list FamilyItem) (originalSislameData : list SislameItem)
         (c : CityId) (duplicatedDependent : list FamilyItem) (grantedFamilies : list Family)
         (w : World),
    (forall f, In f duplicatedDependent -> knownGuardian originalFamilyData f) ->
    exists granted' w',
      duplicatedLoop originalFamilyData originalSislameData (deburrData originalSislameData) c
        duplicatedDependent grantedFamilies w = (w', Returned granted')
      /\ acceptedCount granted' + List.length (reasonRecords w')
         = acceptedCount grantedFamilies + List.length (reasonRecords w)
           + List.length duplicatedDependent.
Proof.
  intros ofd osd c dup granted w Hknown.
  apply duplicatedLoop_counts; [| assumption]. unfold deburrData. now rewrite length_map.
Qed.

End DuplicatePass.

(** ** Public-route token check *)

Lemma hours_ahead_rule (t clock : Z) :
  greaterThan (momentDiff 3600000 (Some t) clock) 6 = true <-> (25200000 <= t - clock)%Z.
Proof.
  unfold greaterThan, momentDiff. rewrite Z.ltb_lt.
  destruct (Z.le_gt_cases 0 (t - clock)) as [Hpos | Hneg].
  - rewrite Z.quot_div_nonneg by lia. split; intro H.
    + destruct (Z.lt_ge_cases (t - clock) 25200000) as [Hlt | Hge]; [| exact Hge].
      assert (Hq : ((t - clock) / 3600000 < 7)%Z) by (apply Z.div_lt_upper_bound; lia). lia.
    + assert (Hq : (7 <= (t - clock) / 3600000)%Z) by (apply Z.div_le_lower_bound; lia). lia.
  - assert (Hq : (Z.quot (t - clock) 3600000 <= 0)%Z) by (apply Z.quot_le_upper_bound; lia).
    split; intro H; lia.
Qed.

Lemma string_eqb_empty (s : string) : String.eqb s "" = false <-> s <> "".
Proof.
  split.
  - intros H ->. discriminate.
  - intro H. destruct (String.eqb s "") eqn:Hs; [| reflexivity].
    apply String.eqb_eq in Hs. contradiction.
Qed.

Section PublicAuth.

Context {X : AuthExternals}.

(** X11: a request is let through exactly when its authorization header is
    non-empty and decrypts to a truthy [now] and to the non-empty string that
    AUTH_TOKEN holds, and [now] is either no valid instant or lies less than
    seven hours ahead of the server clock.  A missing AUTH_TOKEN therefore
    lets nothing through, and nothing bounds how far in the past [now] may
    lie. *)
Theorem public_auth_passes_iff :
  forall (authorization : option string) (env : AuthEnv),
    requirePublicAuth authorization env = Next
    <-> exists code now token,
          authorization = Some code /\ code <> ""
          /\ decryptAndParse code (secretOf env) = inr (Some now, Some (JString token))
          /\ truthy (Some now) = true
          /\ token <> "" /\ AUTH_TOKEN env = Some token
          /\ forall t, momentOf now = Some t -> (t - serverNow env < 25200000)%Z.
Proof.
  intros authorization env. unfold requirePublicAuth. split.
  - destruct authorization as [code|]; [| discriminate].
    destruct (String.eqb code "") eqn:Hcode; [discriminate |].
    destruct (decryptAndParse code (secretOf env)) as [m | [now token]] eqn:Hdec; [discriminate |].
    destruct (truthy now) eqn:Hnow; [| discriminate].
    destruct (truthy token) eqn:Htoken; [| discriminate]. cbn [negb orb].
    destruct now as [now|]; [| discriminate].
    destruct (greaterThan (momentDiff 3600000 (momentOf now) (serverNow env)) 6) eqn:Hage;
      [discriminate |].
    destruct (sameToken token (AUTH_TOKEN env)) eqn:Hsame; [| discriminate]. intros _.
    unfold sameToken in Hsame.
    destruct token as [[| | |s|]|]; try discriminate.
    destruct (AUTH_TOKEN env) as [expected|]; [| discriminate].
    apply String.eqb_eq in Hsame. subst expected.
    exists code, now, s. repeat split; try assumption; try reflexivity.
    + now apply string_eqb_empty.
    + simpl in Htoken. apply negb_true_iff in Htoken. now apply string_eqb_empty.
    + intros t Ht. rewrite Ht in Hage.
      destruct (Z.lt_ge_cases (t - serverNow env) 25200000) as [Hlt | Hge]; [exact Hlt |].
      apply hours_ahead_rule in Hge. congruence.
  - intros (code & now & token & -> & Hcode & Hdec & Hnow & Htoken & Henv & Hage).
    apply string_eqb_empty in Hcode. rewrite Hcode, Hdec, Hnow.
    assert (Htruthy : truthy (Some (JString token)) = true).
    { simpl. apply negb_true_iff. now apply string_eqb_empty. }
    rewrite Htruthy. cbn [negb orb].
    assert (Hnot : greaterThan (momentDiff 3600000 (momentOf now) (serverNow env)) 6 = false).
    { destruct (momentOf now) as [t|] eqn:Ht; [| reflexivity].
      destruct (greaterThan (momentDiff 3600000 (Some t) (serverNow env)) 6) eqn:Hg;
        [| reflexivity].
      apply hours_ahead_rule in Hg. specialize (Hage t eq_refl). lia. }
    rewrite Hnot, Henv. simpl. now rewrite String.eqb_refl.
Qed.

(** X12: a request whose [now] is a valid instant not later than the server
    clock passes the age check however old it is: with a header that decrypts
    and the right token it is let through. *)
Theorem old_request_is_let_through :
  forall (code token : string) (now : Json) (t : Z) (env : AuthEnv),
    code <> "" ->
    decryptAndParse code (secretOf env) = inr (Some now, Some (JString token)) ->
    truthy (Some now) = true ->
    momentOf now = Some t ->
    (t <= serverNow env)%Z ->
    token <> "" ->
    AUTH_TOKEN env = Some token ->
    requirePublicAuth (Some code) env = Next.
Proof.
  intros code token now t env Hcode Hdec Hnow Ht Hold Htoken Henv.
  unfold requirePublicAuth. apply string_eqb_empty in Hcode. rewrite Hcode, Hdec, Hnow.
  assert (Htruthy : truthy (Some (JString token)) = true).
  { simpl. apply negb_true_iff. now apply string_eqb_empty. }
  rewrite Htruthy, Ht. cbn [negb orb].
  assert (Hnot : greaterThan (momentDiff 3600000 (Some t) (serverNow env)) 6 = false).
  { destruct (greaterThan (momentDiff 3600000 (Some t) (serverNow env)) 6) eqn:Hg;
      [| reflexivity]. apply hours_ahead_rule in Hg. lia. }
  rewrite Hnot, Henv. simpl. now rewrite String.eqb_refl.
Qed.

End PublicAuth.

Lemma old_request_is_let_through_witness :
  @requirePublicAuth sampleAuthExternals (Some "ok:5") sampleAuthEnv = Next.
Proof.
  assert (Hcode : "ok:5" <> "") by discriminate.
  assert (Htoken : "secret-token" <> "") by discriminate.
  assert (Hold : (5 <= serverNow sampleAuthEnv)%Z) by (vm_compute; discriminate).
  exact (@old_request_is_let_through sampleAuthExternals "ok:5" "secret-token" (JNumber 5) 5
           sampleAuthEnv Hcode eq_refl eq_refl eq_refl Hold Htoken eq_refl).
Defined.

(** ** Objects with string keys *)

Lemma getKey_putKey_same {V} (k : string) (v : V) (o : list (string * V)) :
  getKey k (putKey k v o) = Some v.
Proof.
  induction o as [|[k0 v0] t IH]; simpl.
  - now rewrite String.eqb_refl.
  - destruct (String.eqb k k0) eqn:Hk; simpl; rewrite Hk; [reflexivity | exact IH].
Qed.

Lemma getKey_putKey_other {V} (k k' : string) (v : V) (o : list (string * V)) :
  k <> k' -> getKey k (putKey k' v o) = getKey k o.
Proof.
  intro Hk. induction o as [|[k0 v0] t IH]; simpl.
  - destruct (String.eqb k k') eqn:Hkk; [apply String.eqb_eq in Hkk; congruence | reflexivity].
  - destruct (String.eqb k' k0) eqn:Hk0; simpl.
    + destruct (String.eqb k k0) eqn:Hkk0; [| reflexivity].
      apply String.eqb_eq in Hk0, Hkk0. congruence.
    + now rewrite IH.
Qed.

Lemma getKey_dropKey_same {V} (k : string) (o : list (string * V)) :
  getKey k (dropKey k o) = None.
Proof.
  induction o as [|[k0 v0] t IH]; simpl; [reflexivity |].
  destruct (String.eqb k k0) eqn:Hk; [exact IH | simpl; now rewrite Hk].
Qed.

(** ** Dashboard *)

Lemma addGroupCount_other {T} (dashboard : list (string * DashValue T)) (item : string * Z)
    (g : string) :
  g <> "total" ->
  getKey g (addGroupCount dashboard item)
  = if String.eqb g (fst item) then Some (DashNumber (snd item)) else getKey g dashboard.
Proof.
  intro Hg. unfold addGroupCount.
  assert (Hput : getKey g (putKey (fst item) (DashNumber (snd item)) dashboard)
                 = if String.eqb g (fst item) then Some (DashNumber (snd item))
                   else getKey g dashboard).
  { destruct (String.eqb g (fst item)) eqn:Heq.
    - apply String.eqb_eq in Heq. subst g. apply getKey_putKey_same.
    - apply getKey_putKey_other. intros ->. rewrite String.eqb_refl in Heq. discriminate. }
  destruct (getKey "total" _) as [[total | date]|]; try exact Hput.
  now rewrite getKey_putKey_other.
Qed.

Lemma addGroupCount_total {T} (dashboard : list (string * DashValue T)) (item : string * Z)
    (total : Z) :
  fst item <> "total" ->
  getKey "total" dashboard = Some (DashNumber total) ->
  getKey "total" (addGroupCount dashboard item) = Some (DashNumber (total + snd item)).
Proof.
  intros Hitem Htotal. unfold addGroupCount.
  rewrite getKey_putKey_other by congruence. rewrite Htotal. apply getKey_putKey_same.
Qed.

Lemma dashboard_total_from {T} (data : list (string * Z)) :
  forall (dashboard : list (string * DashValue T)) (total : Z),
    ~ In "total" (map fst data) ->
    getKey "total" dashboard = Some (DashNumber total) ->
    getKey "total" (fold_left addGroupCount data dashboard)
    = Some (DashNumber (total + fold_right Z.add 0%Z (map snd data))).
Proof.
  induction data as [|item t IH]; intros dashboard total Hnot Htotal; simpl.
  - now rewrite Z.add_0_r.
  - simpl in Hnot. rewrite (IH _ (total + snd item)%Z).
    + f_equal. f_equal. lia.
    + tauto.
    + apply addGroupCount_total; [intro H; apply Hnot; now left | assumption].
Qed.

Lemma dashboard_untouched_group {T} (data : list (string * Z)) (g : string) :
  forall dashboard : list (string * DashValue T),
    g <> "total" -> ~ In g (map fst data) ->
    getKey g (fold_left addGroupCount data dashboard) = getKey g dashboard.
Proof.
  induction data as [|item t IH]; intros dashboard Hg Hnot; simpl; [reflexivity |].
  simpl in Hnot. rewrite IH by tauto. rewrite addGroupCount_other by assumption.
  destruct (String.eqb g (fst item)) eqn:Heq; [| reflexivity].
  apply String.eqb_eq in Heq. exfalso. apply Hnot. now left.
Qed.

Lemma dashboard_group_from {T} (data : list (string * Z)) (g : string) (n : Z) :
  forall dashboard : list (string * DashValue T),
    g <> "total" -> NoDup (map fst data) -> In (g, n) data ->
    getKey g (fold_left addGroupCount data dashboard) = Some (DashNumber n).
Proof.
  induction data as [|item t IH]; intros dashboard Hg Hnd Hin; simpl; [contradiction |].
  simpl in Hnd. inversion Hnd as [|k ks Hnotin Hnd']; subst.
  destruct Hin as [-> | Hin].
  - simpl in Hnotin. rewrite dashboard_untouched_group by assumption.
    rewrite addGroupCount_other by assumption. simpl. now rewrite String.eqb_refl.
  - now apply IH.
Qed.

(** X13: provided no group is named total, the dashboard's total is the sum
    of the group counts; with group names pairwise different, every group
    other than the one a creation date overwrites reads its own count; and the
    latest creation date, when there is one, is under lastCreatedDate. *)
Theorem dashboard_total_is_sum_of_groups :
  forall (T : Type) (data : list (string * Z)) (last : option T),
    ~ In "total" (map fst data) ->
    NoDup (map fst data) ->
    getKey "total" (getDashboardInfo data last)
    = Some (DashNumber (fold_right Z.add 0%Z (map snd data)))
    /\ (forall g n, In (g, n) data -> (last = None \/ g <> "lastCreatedDate") ->
                    getKey g (getDashboardInfo data last) = Some (DashNumber n))
    /\ (forall d, last = Some d ->
                  getKey "lastCreatedDate" (getDashboardInfo data last) = Some (DashDate d)).
Proof.
  intros T data last Hnot Hnd. unfold getDashboardInfo.
  assert (Htotal : getKey "total" (fold_left addGroupCount data [("total", @DashNumber T 0)])
                   = Some (DashNumber (fold_right Z.add 0%Z (map snd data)))).
  { rewrite (dashboard_total_from data _ 0%Z); [reflexivity | assumption | reflexivity]. }
  split; [| split].
  - destruct last as [d|]; [| exact Htotal].
    rewrite getKey_putKey_other by discriminate. exact Htotal.
  - intros g n Hin Hlast.
    assert (Hg : g <> "total").
    { intros ->. apply Hnot. apply in_map_iff. now exists ("total", n). }
    destruct last as [d|].
    + destruct Hlast as [Hlast | Hlast]; [discriminate |].
      rewrite getKey_putKey_other by assumption. now apply dashboard_group_from.
    + now apply dashboard_group_from.
  - intros d ->. apply getKey_putKey_same.
Qed.

Lemma dashboard_total_is_sum_of_groups_witness :
  getKey "total"
    (getDashboardInfo [("cad", 3%Z); ("poverty-line", 4%Z)] (Some (ValidDate
       {| year := 2020; month := 6; day := 1 |})))
  = Some (DashNumber 7).
Proof.
  assert (Hnot : ~ In "total" (map fst [("cad", 3%Z); ("poverty-line", 4%Z)])).
  { simpl. intros [H | [H | []]]; discriminate. }
  assert (Hnd : NoDup (map fst [("cad", 3%Z); ("poverty-line", 4%Z)])).
  { simpl. constructor; [| constructor; [| constructor]].
    - simpl. intros [H | []]. discriminate.
    - simpl. tauto. }
  destruct (dashboard_total_is_sum_of_groups JsDate [("cad", 3%Z); ("poverty-line", 4%Z)]
              (Some (ValidDate {| year := 2020; month := 6; day := 1 |})) Hnot Hnd)
    as (Htotal & _).
  exact Htotal.
Defined.

(** ** Reason-file writers *)

(** X14: once a city has a writer, asking again gives that same writer and
    creates no file, also when the city is asked for as a number and as the
    decimal string of that number (which the report registry keeps apart);
    after the writer is removed, the next request makes a new writer and
    creates the city's file anew. *)
Theorem writer_kept_until_removed :
  forall (baseDir : string) (c : CityId) (ws : Writers),
    let first := getCSVWriter baseDir c ws in
    getCSVWriter baseDir c (fst first) = first
    /\ (forall n, c = CityNum n -> (Z.abs n < 10 ^ 21)%Z ->
                  getCSVWriter baseDir (CityStr (NilZero.string_of_int (Z.to_int n))) (fst first)
                  = first)
    /\ (let again := getCSVWriter baseDir c (removeCSVWriter c (fst first)) in
        createdFiles (fst again) = createdFiles (fst first) ++ [reasonFilePath baseDir c]
        /\ writersMade (fst again) = S (writersMade (fst first))
        /\ snd again
           = {| writerId := writersMade (fst first); writerPath := reasonFilePath baseDir c |}).
Proof.
  intros baseDir c ws first.
  assert (Hkept : getKey (cityKey c) (csvWriterList (fst first)) = Some (snd first)).
  { subst first. unfold getCSVWriter.
    destruct (getKey (cityKey c) (csvWriterList ws)) as [writer|] eqn:Hget; simpl.
    - exact Hget.
    - apply getKey_putKey_same. }
  split; [| split].
  - unfold getCSVWriter at 1. rewrite Hkept. now destruct first.
  - intros n -> _. unfold getCSVWriter at 1. simpl cityKey in *. rewrite Hkept.
    now destruct first.
  - set (ws1 := fst first).
    assert (Hagain : getCSVWriter baseDir c (removeCSVWriter c ws1)
                     = ({| csvWriterList :=
                             putKey (cityKey c)
                               {| writerId := writersMade ws1;
                                  writerPath := reasonFilePath baseDir c |}
                               (dropKey (cityKey c) (csvWriterList ws1));
                           createdFiles := createdFiles ws1 ++ [reasonFilePath baseDir c];
                           writersMade := S (writersMade ws1) |},
                        {| writerId := writersMade ws1;
                           writerPath := reasonFilePath baseDir c |})).
    { unfold getCSVWriter. cbn [removeCSVWriter csvWriterList createdFiles writersMade].
      now rewrite getKey_dropKey_same. }
    cbv zeta. rewrite Hagain. cbn. repeat split.
Qed.

Section SessionProperties.

Context {E : Externals}.

Lemma import_by_parts (familyFile : list FamilyItem) (sislameFile : list SislameItem)
    (c : CityId) (w : World) :
  importFamilyFromCadAndSislameCSV familyFile sislameFile c w
  = match importUntilSaving familyFile sislameFile c w with
    | (w1, Threw e) => (w1, Threw e)
    | (w1, Returned granted) =>
        match saveFamilies c granted w1 with
        | (w2, Returned _) => (w2, Returned granted)
        | (w2, Threw e) => (w2, Threw e)
        end
    end.
Proof.
  unfold importFamilyFromCadAndSislameCSV, importUntilSaving, bind.
  cbn [updateImportReportM]. cbn beta iota.
  destruct (checkRequiredSislameData _ _ _) as [w1 [[]|e]]; [| reflexivity].
  destruct (checkRequiredFamilyData _ _ _) as [w2 [[]|e]]; [| reflexivity].
  destruct (reconcile _ _ _ _) as [w3 [g|e]]; [| reflexivity].
  destruct (saveFamilies c g w3) as [w4 [[]|e]]; reflexivity.
Qed.

(** X15: the import with its writer does to the world and returns what the
    import does; when it throws before the saving starts (a failed check, or
    an undefined row met while reconciling) the city's writer stays
    registered, so the next request for it gets the same writer and creates no
    file; once the saving has started the writer is removed, whether the
    saving succeeds or the database rejects a family. *)
Theorem session_writer_fate :
  forall (baseDir : string) (familyFile : list FamilyItem) (sislameFile : list SislameItem)
         (c : CityId) (p : Process),
    let result := importSession baseDir familyFile sislameFile c p in
    let given := getCSVWriter baseDir c (writers p) in
    world (fst result) = fst (importFamilyFromCadAndSislameCSV familyFile sislameFile c (world p))
    /\ snd result = snd (importFamilyFromCadAndSislameCSV familyFile sislameFile c (world p))
    /\ match snd (importUntilSaving familyFile sislameFile c (world p)) with
       | Threw _ =>
           getCSVWriter baseDir c (writers (fst result)) = (writers (fst result), snd given)
           /\ createdFiles (writers (fst result)) = createdFiles (fst given)
       | Returned _ =>
           getKey (cityKey c) (csvWriterList (writers (fst result))) = None
       end.
Proof.
  intros baseDir familyFile sislameFile c p result given. subst result.
  unfold importSession. rewrite import_by_parts. fold given.
  assert (Hkept : getKey (cityKey c) (csvWriterList (fst given)) = Some (snd given)).
  { subst given. unfold getCSVWriter.
    destruct (getKey (cityKey c) (csvWriterList (writers p))) as [writer|] eqn:Hget; simpl.
    - exact Hget.
    - apply getKey_putKey_same. }
  destruct given as [ws writer]. cbn [fst snd] in *.
  destruct (importUntilSaving familyFile sislameFile c (world p)) as [w1 [granted|e]].
  - destruct (saveFamilies c granted w1) as [w2 [[]|e]]; cbn;
      (repeat split; apply getKey_dropKey_same).
  - cbn. repeat split. unfold getCSVWriter. now rewrite Hkept.
Qed.

End SessionProperties.

(** ** Institutions *)

(** X16: reading an institution by id checks the city: what [getById]
    returns is the stored row and belongs to the city asked for.  Updating and
    deleting by id do not: the check is started but not awaited, so a row is
    updated or destroyed whatever city is passed, also when [getById] refuses
    that city. *)
Theorem institution_city_checked_on_reads_only :
  forall (S : InstitutionStore) (id : InstitutionId) (values : InstitutionValues)
         (c : CityId) (db : Db),
    (forall item, getById id c db = Some item ->
                  findByPk id db = Some item /\ institutionCity item = Some c)
    /\ (forall item, findByPk id db = Some item -> institutionCity item <> Some c ->
                     getById id c db = None)
    /\ fst (updateById id values c db) = fst (dbUpdate values id db)
    /\ snd (updateById id values c db) = hd_error (snd (dbUpdate values id db))
    /\ deleteById id c db = dbDestroy id db.
Proof.
  intros S id values c db. unfold getById, updateById, deleteById, inCity, pendingIsTruthy.
  split; [| split; [| split; [| split]]].
  - intros item. destruct (findByPk id db) as [found|]; [| discriminate].
    destruct (institutionCity found) as [c'|] eqn:Hcity; [| discriminate].
    destruct (cityEqb c' c) eqn:Hc; [| discriminate].
    intro H. injection H as <-. apply cityEqb_eq in Hc. subst c'. auto.
  - intros item Hfind Hcity. rewrite Hfind.
    destruct (institutionCity item) as [c'|]; [| reflexivity].
    destruct (cityEqb c' c) eqn:Hc; [| reflexivity].
    apply cityEqb_eq in Hc. congruence.
  - now destruct (dbUpdate values id db).
  - now destruct (dbUpdate values id db).
  - reflexivity.
Qed.

(** ** Import of the registry file *)

Lemma firstRejection_app (batch more : list (string + unit)) (m : string) :
  firstRejection batch = Some m -> firstRejection (batch ++ more) = Some m.
Proof.
  induction batch as [|[m'|u] t IH]; simpl; intro H; [discriminate | exact H | now apply IH].
Qed.

Lemma firstRejection_fulfilled (batch : list (string + unit)) :
  Forall (fun answer => exists u, answer = inr u) batch -> firstRejection batch = None.
Proof.
  induction 1 as [|answer t [u ->] _ IH]; simpl; [reflexivity | exact IH].
Qed.

Section FileImportProperties.

Context {E : Externals} {C : CadExternals}.

Lemma lineHandler_step (c : CityId) (st : FileImport) (json : CadLine) (lineNumber : nat) :
  let st' := lineHandler c st json lineNumber in
  let sent := if reachesDatabase json then 1 else 0 in
  created (reportResult st') = created (reportResult st)
  /\ deleted (reportResult st') = deleted (reportResult st)
  /\ finished (reportResult st') = finished (reportResult st)
  /\ updated (reportResult st') = updated (reportResult st) + sent
  /\ List.length (requested st') = List.length (requested st) + sent
  /\ List.length (reportLines (reportResult st')) + wrong (reportResult st)
     = List.length (reportLines (reportResult st)) + wrong (reportResult st')
  /\ wrong (reportResult st) + updated (reportResult st) + 1
     <= wrong (reportResult st') + updated (reportResult st')
  /\ wrong (reportResult st) <= wrong (reportResult st')
  /\ (Forall (fun family => cadCityId family = c) (requested st) ->
      Forall (fun family => cadCityId family = c) (requested st')).
Proof.
  unfold lineHandler, reachesDatabase.
  destruct (strictEq (get "cod_parentesco_rf_pessoa" (columns json)) (Some "1")); cbn [negb andb].
  2: { cbn. rewrite length_app. cbn. repeat split; try lia. auto. }
  assert (Hgroup :
            forall nested,
              let st' :=
                match getFamilyGroupByCode (nestedGet "fx_rfpc" nested) with
                | None =>
                    {| reportResult :=
                         countWrong
                           ("[linha: " ++ lineNumberText lineNumber ++ "] Família "
                            ++ tpl (get "cod_familiar_fam" (columns json))
                            ++ " está com um valor inválido de fx_rfpc")%string
                           (reportResult st);
                       promises := promises st; requested := requested st |}
                | Some groupKey =>
                    let family :=
                      {| cadCode := nestedGet "cod_familiar_fam" nested;
                         cadGroupName := groupKey;
                         cadResponsibleName := get "nom_pessoa" (columns json);
                         cadResponsibleBirthday :=
                           toDate (momentParse (get "dta_nasc_pessoa" (columns json)));
                         cadResponsibleNis := get "num_nis_pessoa_atual" (columns json);
                         cadResponsibleMotherName :=
                           get "nom_completo_mae_pessoa" (columns json);
                         cadCityId := c |} in
                    let batch := promises st ++ [certifyFamilyByCode family] in
                    let counted := countUpdated (reportResult st) in
                    let handed := requested st ++ [family] in
                    if (100 <=? List.length batch)%nat then
                      match firstRejection batch with
                      | Some m =>
                          {| reportResult := countWrong (unexpected lineNumber m) counted;
                             promises := batch; requested := handed |}
                      | None =>
                          {| reportResult := counted; promises := []; requested := handed |}
                      end
                    else {| reportResult := counted; promises := batch; requested := handed |}
                end in
              let sent :=
                if match getFamilyGroupByCode (nestedGet "fx_rfpc" nested) with
                   | Some _ => true
                   | None => false
                   end then 1 else 0 in
              created (reportResult st') = created (reportResult st)
              /\ deleted (reportResult st') = deleted (reportResult st)
              /\ finished (reportResult st') = finished (reportResult st)
              /\ updated (reportResult st') = updated (reportResult st) + sent
              /\ List.length (requested st') = List.length (requested st) + sent
              /\ List.length (reportLines (reportResult st')) + wrong (reportResult st)
                 = List.length (reportLines (reportResult st)) + wrong (reportResult st')
              /\ wrong (reportResult st) + updated (reportResult st) + 1
                 <= wrong (reportResult st') + updated (reportResult st')
              /\ wrong (reportResult st) <= wrong (reportResult st')
              /\ (Forall (fun family => cadCityId family = c) (requested st) ->
                  Forall (fun family => cadCityId family = c) (requested st'))).
  { intro nested. destruct (getFamilyGroupByCode (nestedGet "fx_rfpc" nested)) as [groupKey|].
    - cbv zeta. destruct (100 <=? _)%nat.
      + destruct (firstRejection _); cbn; rewrite ?length_app; cbn;
          (repeat split; try lia; intro H; apply Forall_app; split;
           [assumption | constructor; [reflexivity | constructor]]).
      + cbn. rewrite length_app. cbn.
        repeat split; try lia. intro H. apply Forall_app. split;
          [assumption | constructor; [reflexivity | constructor]].
    - cbn. rewrite length_app. cbn. repeat split; try lia. auto. }
  destruct (d json) as [|s|o].
  - cbn. rewrite length_app. cbn. repeat split; try lia. auto.
  - apply (Hgroup (NestedString s)).
  - apply (Hgroup (NestedObject o)).
Qed.

Lemma handleLines_counts (c : CityId) (lines : list CadLine) :
  forall (st : FileImport) (lineNumber : nat),
    let st' := handleLines c st lines lineNumber in
    let sent := List.length (filter reachesDatabase lines) in
    created (reportResult st') = created (reportResult st)
    /\ deleted (reportResult st') = deleted (reportResult st)
    /\ finished (reportResult st') = finished (reportResult st)
    /\ updated (reportResult st') = updated (reportResult st) + sent
    /\ List.length (requested st') = List.length (requested st) + sent
    /\ List.length (reportLines (reportResult st')) + wrong (reportResult st)
       = List.length (reportLines (reportResult st)) + wrong (reportResult st')
    /\ wrong (reportResult st) + updated (reportResult st) + List.length lines
       <= wrong (reportResult st') + updated (reportResult st')
    /\ (Forall (fun family => cadCityId family = c) (requested st) ->
        Forall (fun family => cadCityId family = c) (requested st')).
Proof.
  induction lines as [|json more IH]; intros st lineNumber.
  - cbn. repeat split; try lia. auto.
  - cbn [handleLines filter List.length].
    destruct (lineHandler_step c st json lineNumber)
      as (H1 & H2 & H3 & H4 & H5 & H6 & H7 & _ & H8).
    destruct (IH (lineHandler c st json lineNumber) (S lineNumber))
      as (K1 & K2 & K3 & K4 & K5 & K6 & K7 & K8).
    cbv zeta in *. destruct (reachesDatabase json); cbn [List.length] in *;
      (repeat split; [congruence | congruence | congruence | lia | lia | lia | lia | auto]).
Qed.

(** X17: after any lines of the registry file, starting from a fresh report:
    the report holds one text per line counted wrong; created and deleted are
    still zero (a family made by the import is counted as updated); the lines
    counted updated are exactly the responsible-person lines with a nested d
    object and a known group, and these are the lines handed to the database,
    each for the import's city; and every line is counted at least once. *)
Theorem file_import_counters :
  forall (c : CityId) (lines : list CadLine),
    let st := handleLines c newFileImport lines 0 in
    created (reportResult st) = 0
    /\ deleted (reportResult st) = 0
    /\ List.length (reportLines (reportResult st)) = wrong (reportResult st)
    /\ updated (reportResult st) = List.length (filter reachesDatabase lines)
    /\ List.length (requested st) = List.length (filter reachesDatabase lines)
    /\ Forall (fun family => cadCityId family = c) (requested st)
    /\ List.length lines <= wrong (reportResult st) + updated (reportResult st).
Proof.
  intros c lines st. subst st.
  destruct (handleLines_counts c lines newFileImport 0)
    as (H1 & H2 & _ & H4 & H5 & H6 & H7 & H8).
  cbn in *. repeat split; try lia. apply H8. constructor.
Qed.

Lemma handleLines_stuck (c : CityId) (lines : list CadLine) :
  forall (st : FileImport) (lineNumber : nat) (m : string),
    100 <= List.length (promises st) ->
    firstRejection (promises st) = Some m ->
    let st' := handleLines c st lines lineNumber in
    wrong (reportResult st') = wrong (reportResult st) + List.length lines
    /\ 100 <= List.length (promises st')
    /\ firstRejection (promises st') = Some m.
Proof.
  induction lines as [|json more IH]; intros st lineNumber m Hfull Hrej.
  - cbn. repeat split; [lia | assumption | assumption].
  - cbn [handleLines List.length].
    assert (Hstep : wrong (reportResult (lineHandler c st json lineNumber))
                    = S (wrong (reportResult st))
                    /\ 100 <= List.length (promises (lineHandler c st json lineNumber))
                    /\ firstRejection (promises (lineHandler c st json lineNumber)) = Some m).
    { unfold lineHandler.
      destruct (negb _); [cbn; auto |].
      assert (Hgroup :
                forall family : CadFamily,
                  let batch := promises st ++ [certifyFamilyByCode family] in
                  (100 <=? List.length batch)%nat = true
                  /\ firstRejection batch = Some m).
      { intro family. cbv zeta. split.
        - apply Nat.leb_le. rewrite length_app. simpl. lia.
        - now apply firstRejection_app. }
      destruct (d json) as [|s|o]; [cbn; auto | |].
      - destruct (getFamilyGroupByCode _) as [groupKey|]; [| cbn; auto].
        cbv zeta.
        match goal with |- context [certifyFamilyByCode ?family] =>
          destruct (Hgroup family) as [Hlen Hfirst] end.
        cbv zeta in Hlen, Hfirst. rewrite Hlen, Hfirst. cbn.
        repeat split; [| assumption]. rewrite length_app. simpl. lia.
      - destruct (getFamilyGroupByCode _) as [groupKey|]; [| cbn; auto].
        cbv zeta.
        match goal with |- context [certifyFamilyByCode ?family] =>
          destruct (Hgroup family) as [Hlen Hfirst] end.
        cbv zeta in Hlen, Hfirst. rewrite Hlen, Hfirst. cbn.
        repeat split; [| assumption]. rewrite length_app. simpl. lia. }
    destruct Hstep as (Hwrong & Hfull' & Hrej').
    destruct (IH _ (S lineNumber) m Hfull' Hrej') as (K1 & K2 & K3).
    cbv zeta in *. repeat split; [lia | assumption | assumption].
Qed.

(** X18: once a batch of a hundred or more pending answers holds a rejection
    (the batch is not emptied when waiting for it fails), every later line is
    counted wrong, the lines handed to the database included, which are
    counted updated as well; the batch stays as it is, rejection included. *)
Theorem failed_batch_counts_every_later_line_wrong :
  forall (c : CityId) (st : FileImport) (lines : list CadLine) (lineNumber : nat) (m : string),
    100 <= List.length (promises st) ->
    firstRejection (promises st) = Some m ->
    let st' := handleLines c st lines lineNumber in
    wrong (reportResult st') = wrong (reportResult st) + List.length lines
    /\ updated (reportResult st')
       = updated (reportResult st) + List.length (filter reachesDatabase lines)
    /\ 100 <= List.length (promises st')
    /\ firstRejection (promises st') = Some m.
Proof.
  intros c st lines lineNumber m Hfull Hrej st'. subst st'.
  destruct (handleLines_stuck c lines st lineNumber m Hfull Hrej) as (H1 & H2 & H3).
  destruct (handleLines_counts c lines st lineNumber) as (_ & _ & _ & H4 & _).
  cbv zeta in *. repeat split; assumption.
Qed.

Lemma handleLines_fulfilled (c : CityId) (lines : list CadLine) :
  (forall family, exists u, certifyFamilyByCode family = inr u) ->
  forall (st : FileImport) (lineNumber : nat),
    Forall (fun answer => exists u, answer = inr u) (promises st) ->
    List.length (promises st) < 100 ->
    let st' := handleLines c st lines lineNumber in
    wrong (reportResult st') + List.length (filter reachesDatabase lines)
    = wrong (reportResult st) + List.length lines
    /\ Forall (fun answer => exists u, answer = inr u) (promises st')
    /\ List.length (promises st') < 100.
Proof.
  intro Hdb. induction lines as [|json more IH]; intros st lineNumber Hok Hlen.
  - cbn. split; [lia | split; assumption].
  - cbn [handleLines List.length filter].
    assert (Hstep :
              let st1 := lineHandler c st json lineNumber in
              wrong (reportResult st1) + (if reachesDatabase json then 1 else 0)
              = S (wrong (reportResult st))
              /\ Forall (fun answer => exists u, answer = inr u) (promises st1)
              /\ List.length (promises st1) < 100).
    { unfold lineHandler, reachesDatabase.
      destruct (strictEq _ _); cbn [negb andb]; [| cbn; repeat split; [lia | assumption..]].
      assert (Hgroup :
                forall family : CadFamily,
                  let batch := promises st ++ [certifyFamilyByCode family] in
                  firstRejection batch = None
                  /\ Forall (fun answer => exists u, answer = inr u) batch
                  /\ List.length batch <= 100).
      { intro family. cbv zeta.
        assert (Hall : Forall (fun answer : string + unit => exists u, answer = inr u)
                         (promises st ++ [certifyFamilyByCode family])).
        { apply Forall_app. split; [assumption |]. constructor; [apply Hdb | constructor]. }
        split; [now apply firstRejection_fulfilled |]. split; [exact Hall |].
        rewrite length_app. simpl. lia. }
      destruct (d json) as [|s|o]; [cbn; repeat split; [lia | assumption..] | |].
      - destruct (getFamilyGroupByCode _) as [groupKey|];
          [| cbn; repeat split; [lia | assumption..]].
        cbv zeta.
        match goal with |- context [certifyFamilyByCode ?family] =>
          destruct (Hgroup family) as (Hfirst & Hall & Hmax) end.
        cbv zeta in Hfirst, Hall, Hmax. rewrite Hfirst.
        destruct (100 <=? _)%nat eqn:Hfull; cbn.
        + repeat split; [lia | constructor | lia].
        + apply Nat.leb_gt in Hfull. repeat split; [lia | assumption | assumption].
      - destruct (getFamilyGroupByCode _) as [groupKey|];
          [| cbn; repeat split; [lia | assumption..]].
        cbv zeta.
        match goal with |- context [certifyFamilyByCode ?family] =>
          destruct (Hgroup family) as (Hfirst & Hall & Hmax) end.
        cbv zeta in Hfirst, Hall, Hmax. rewrite Hfirst.
        destruct (100 <=? _)%nat eqn:Hfull; cbn.
        + repeat split; [lia | constructor | lia].
        + apply Nat.leb_gt in Hfull. repeat split; [lia | assumption | assumption]. }
    cbv zeta in Hstep. destruct Hstep as (Hwrong & Hok' & Hlen').
    destruct (IH _ (S lineNumber) Hok' Hlen') as (K1 & K2 & K3).
    cbv zeta in *. repeat split; [| assumption | assumption].
    destruct (reachesDatabase json); cbn [List.length]; lia.
Qed.

(** X19: while the database stores every family it is handed, every line is
    counted exactly once, as updated when it reaches the database and as
    wrong otherwise, and fewer than a hundred answers are ever left pending. *)
Theorem file_import_counts_each_line_once :
  forall (c : CityId) (lines : list CadLine),
    (forall family, exists u, certifyFamilyByCode family = inr u) ->
    let st := handleLines c newFileImport lines 0 in
    wrong (reportResult st) + updated (reportResult st) = List.length lines
    /\ updated (reportResult st) = List.length (filter reachesDatabase lines)
    /\ List.length (promises st) < 100.
Proof.
  intros c lines Hdb st. subst st.
  destruct (handleLines_fulfilled c lines Hdb newFileImport 0) as (H1 & _ & H3);
    [constructor | cbn; lia |].
  destruct (handleLines_counts c lines newFileImport 0) as (_ & _ & _ & H4 & _).
  cbn in *. repeat split; [lia | lia | assumption].
Qed.

End FileImportProperties.

(** ** The properties above on the sample runs *)

Lemma import_leaves_other_cities_reports_witness :
  getImportReport
    (reports (fst (@importFamilyFromCadAndSislameCSV sampleExternals [mariaRow] [joaoEnrollment]
                     (CityNum 1) cityTwoBusy)))
    (CityNum 2)
  = getImportReport (reports cityTwoBusy) (CityNum 2).
Proof.
  assert (Hcities : CityNum 1 <> CityNum 2) by discriminate.
  assert (Hone : onePerCity (reports cityTwoBusy)).
  { intro c. simpl. destruct (ofCity c _); simpl; lia. }
  destruct (@import_leaves_other_cities_reports sampleExternals [mariaRow] [joaoEnrollment]
              (CityNum 1) (CityNum 2) cityTwoBusy Hcities Hone) as [Hsame _].
  exact Hsame.
Defined.

Lemma granted_families_well_formed_witness :
  exists family rest,
    snd (sampleImport [mariaRow; mariaLuciaRow] [joaoEnrollment; luciaEnrollment])
    = Returned (family :: rest)
    /\ familyCityId family = CityNum 1
    /\ dependentsOf family <> [].
Proof.
  assert (Hrun : exists family rest,
             snd (sampleImport [mariaRow; mariaLuciaRow] [joaoEnrollment; luciaEnrollment])
             = Returned (family :: rest)).
  { vm_compute. eexists. eexists. reflexivity. }
  destruct Hrun as (family & rest & Hret).
  destruct (@granted_families_well_formed sampleExternals [mariaRow; mariaLuciaRow]
              [joaoEnrollment; luciaEnrollment] (CityNum 1) emptyWorld (family :: rest) family
              Hret (or_introl eq_refl)) as (Hcity & _ & Hne & _).
  exists family, rest. split; [exact Hret | split; [exact Hcity | exact Hne]].
Defined.

Lemma import_success_saves_every_family_witness :
  exists w' granted,
    sampleImport [mariaRow; mariaLuciaRow] [joaoEnrollment; luciaEnrollment]
    = (w', Returned granted)
    /\ certified w' = granted
    /\ status (getImportReport (reports w') (CityNum 1)) = Completed.
Proof.
  assert (Hrun : exists w' granted,
             sampleImport [mariaRow; mariaLuciaRow] [joaoEnrollment; luciaEnrollment]
             = (w', Returned granted)).
  { vm_compute. eexists. eexists. reflexivity. }
  destruct Hrun as (w' & granted & Hrun).
  destruct (@import_success_saves_every_family sampleExternals [mariaRow; mariaLuciaRow]
              [joaoEnrollment; luciaEnrollment] (CityNum 1) emptyWorld w' granted
              onePerCity_nil Hrun) as (Hcert & _ & Hreport).
  exists w', granted. split; [exact Hrun | split; [exact Hcert |]].
  rewrite Hreport. reflexivity.
Defined.

Lemma persistence_failure_stops_saving_witness :
  snd (@saveFamilies rejectingExternals (CityNum 1)
         [@parseFamilyItem rejectingExternals mariaRow (CityNum 1);
          @parseFamilyItem rejectingExternals joseRow (CityNum 1);
          @parseFamilyItem rejectingExternals mariaLuciaRow (CityNum 1)]
         emptyWorld)
  = Threw (JsError "Validation error")
  /\ certified
       (fst (@saveFamilies rejectingExternals (CityNum 1)
               [@parseFamilyItem rejectingExternals mariaRow (CityNum 1);
                @parseFamilyItem rejectingExternals joseRow (CityNum 1);
                @parseFamilyItem rejectingExternals mariaLuciaRow (CityNum 1)]
               emptyWorld))
     = [@parseFamilyItem rejectingExternals mariaRow (CityNum 1);
        @parseFamilyItem rejectingExternals joseRow (CityNum 1)].
Proof.
  assert (Hpre : Forall (@stores rejectingExternals)
                   [@parseFamilyItem rejectingExternals mariaRow (CityNum 1)]).
  { constructor; [| constructor]. eexists. vm_compute. reflexivity. }
  assert (Hfail : @dbCertify rejectingExternals
                    (@parseFamilyItem rejectingExternals joseRow (CityNum 1))
                  = inl "Validation error") by (vm_compute; reflexivity).
  pose proof (@persistence_failure_stops_saving rejectingExternals (CityNum 1)
                [@parseFamilyItem rejectingExternals mariaRow (CityNum 1)]
                [@parseFamilyItem rejectingExternals mariaLuciaRow (CityNum 1)]
                (@parseFamilyItem rejectingExternals joseRow (CityNum 1))
                "Validation error" emptyWorld onePerCity_nil Hpre Hfail) as Hstop.
  cbv zeta in Hstop. destruct Hstop as (Hthrow & Hcert & _).
  split; [exact Hthrow | exact Hcert].
Defined.

Lemma duplicate_pass_decides_each_row_once_witness :
  exists granted' w',
    @duplicatedLoop sampleExternals [joseRow; mariaRow] [joaoEnrollment]
      (@deburrData sampleExternals [joaoEnrollment]) (CityNum 1) [joseRow; mariaRow] []
      emptyWorld
    = (w', Returned granted')
    /\ acceptedCount granted' + List.length (reasonRecords w') = 2.
Proof.
  assert (Hknown : forall f, In f [joseRow; mariaRow] ->
                             @knownGuardian [joseRow; mariaRow] f).
  { intros f [<- | [<- | []]]; vm_compute; discriminate. }
  destruct (@duplicate_pass_decides_each_row_once sampleExternals [joseRow; mariaRow]
              [joaoEnrollment] (CityNum 1) [joseRow; mariaRow] [] emptyWorld Hknown)
    as (granted' & w' & Hrun & Hcount).
  exists granted', w'. split; [exact Hrun | exact Hcount].
Defined.

Lemma failed_batch_counts_every_later_line_wrong_witness :
  wrong (reportResult
           (@handleLines sampleExternals rejectingCadExternals (CityNum 1) failedBatch
              [childLine; rfLine] 100))
  = wrong (reportResult failedBatch) + 2
  /\ updated (reportResult
                (@handleLines sampleExternals rejectingCadExternals (CityNum 1) failedBatch
                   [childLine; rfLine] 100))
     = updated (reportResult failedBatch) + 1.
Proof.
  assert (Hfull : 100 <= List.length (promises failedBatch)).
  { apply Nat.leb_le. vm_compute. reflexivity. }
  assert (Hrejected : firstRejection (promises failedBatch) = Some "Connection lost")
    by (vm_compute; reflexivity).
  pose proof (@failed_batch_counts_every_later_line_wrong sampleExternals rejectingCadExternals
                (CityNum 1) failedBatch [childLine; rfLine] 100 "Connection lost"
                Hfull Hrejected) as Hlater.
  cbv zeta in Hlater. destruct Hlater as (Hwrong & Hupdated & _).
  split; [exact Hwrong | exact Hupdated].
Defined.

Lemma file_import_counts_each_line_once_witness :
  wrong (reportResult
           (@handleLines sampleExternals sampleCadExternals (CityNum 1) newFileImport
              [rfLine; childLine; rfLine] 0))
  + updated (reportResult
               (@handleLines sampleExternals sampleCadExternals (CityNum 1) newFileImport
                  [rfLine; childLine; rfLine] 0))
  = 3.
Proof.
  assert (Hstores : forall family, exists u, @certifyFamilyByCode sampleCadExternals family = inr u).
  { intro family. exists tt. reflexivity. }
  pose proof (@file_import_counts_each_line_once sampleExternals sampleCadExternals (CityNum 1)
                [rfLine; childLine; rfLine] Hstores) as Honce.
  cbv zeta in Honce. destruct Honce as (Hsum & _).
  exact Hsum.
Defined.

Lemma first_claimant_stays_in_pool_witness :
  exists r', In r' (uniqueCandidates [joseRow; mariaRow; mariaLuciaRow])
             /\ In r' (duplicatedDependentOf [joseRow; mariaRow; mariaLuciaRow])
             /\ get "NISDEPENDEN" r' = Some "200".
Proof.
  assert (Hsplit : In mariaRow (duplicatedDependentOf [joseRow; mariaRow; mariaLuciaRow])).
  { vm_compute. right. left. reflexivity. }
  exact (first_claimant_stays_in_pool [joseRow; mariaRow; mariaLuciaRow] mariaRow Hsplit).
Defined.

Lemma one_outcome_without_split_dependents_witness :
  exists granted w',
    @reconcile sampleExternals [mariaRow; mariaLuciaRow; mariaPedroRow]
      [joaoEnrollment] (CityNum 1) emptyWorld
    = (w', Returned granted)
    /\ acceptedCount granted + List.length (reasonRecords w') = 3.
Proof.
  assert (Hnone : duplicatedDependentOf
                    (@deburrData sampleExternals
                       (@originalFamilyDataOf sampleExternals
                          [mariaRow; mariaLuciaRow; mariaPedroRow])) = [])
    by (vm_compute; reflexivity).
  destruct (@one_outcome_without_split_dependents sampleExternals
              [mariaRow; mariaLuciaRow; mariaPedroRow] [joaoEnrollment] (CityNum 1) emptyWorld
              Hnone) as (granted & w' & Hrun & Hcount).
  exists granted, w'. split; [exact Hrun |].
  rewrite Hcount. vm_compute. reflexivity.
Defined.

(** ** Who is granted when no dependent is split *)

Section Alignment.

Context {E : Externals}.

Lemma addGranted_dependents (P : Dependent -> Prop) (c : CityId) (granted : list Family)
    (f o : FamilyItem) (os : SislameItem) :
  P (parseFamilyAndSislameItems o os) ->
  Forall (fun family => Forall P (dependentsOf family)) granted ->
  Forall (fun family => Forall P (dependentsOf family)) (addGranted granted f o os c).
Proof.
  intros Hd Hg. unfold addGranted. destruct (findIndex _ granted) as [i|].
  - apply replaceAt_Forall; [assumption |].
    intros family Hfamily. rewrite dependentsOf_withDependents.
    apply Forall_app. split; [assumption | constructor; [assumption | constructor]].
  - apply Forall_app. split; [assumption |]. constructor; [| constructor].
    rewrite dependentsOf_withDependents. constructor; [assumption | constructor].
Qed.

Lemma compareLoop_pairs_matching_rows (ofd : list FamilyItem) (osd : list SislameItem)
    (c : CityId) (total : nat) (items : list (nat * FamilyItem)) :
  (forall i f o, In (i, f) items -> nth_error ofd i = Some o -> f = deburrRow o) ->
  forall (granted : list Family) (w : World) (granted' : list Family),
    Forall (fun family =>
              Forall (fun d =>
                        sameChildAndResponsible (deburrRow (fromFamilyItem d))
                          (deburrRow (fromSislameItem d)) = true
                        /\ validAge (get "Data Nascimento" (deburrRow (fromSislameItem d)))
                           = true)
                (dependentsOf family)) granted ->
    snd (compareLoop ofd osd (deburrData osd) c total items granted w) = Returned granted' ->
    Forall (fun family =>
              Forall (fun d =>
                        sameChildAndResponsible (deburrRow (fromFamilyItem d))
                          (deburrRow (fromSislameItem d)) = true
                        /\ validAge (get "Data Nascimento" (deburrRow (fromSislameItem d)))
                           = true)
                (dependentsOf family)) granted'.
Proof.
  induction items as [|[i f] more IH]; intros Hitems granted w granted' Hg Hrun.
  - simpl in Hrun. now injection Hrun as <-.
  - cbn [compareLoop] in Hrun. unfold bind at 1 in Hrun.
    destruct (compareFamily ofd osd (deburrData osd) c total i f granted w)
      as [w1 [g1|e]] eqn:Hstep; [| discriminate].
    apply (IH (fun j x o Hin => Hitems j x o (or_intror Hin)) g1 w1 granted'); [| exact Hrun].
    unfold compareFamily in Hstep. apply bind_returned in Hstep.
    destruct Hstep as (w0 & [] & _ & Hstep).
    destruct (findEntry (sameChildAndResponsible f) (deburrData osd)) as [[si s]|] eqn:Hfind.
    + apply findEntry_some in Hfind. destruct Hfind as (Hs & Hmatch & _).
      destruct (negb (validAge (get "Data Nascimento" s))) eqn:Hage.
      * apply bind_returned in Hstep. destruct Hstep as (w2 & [] & _ & Hstep).
        now injection Hstep as _ <-.
      * destruct (nth_error ofd i) as [o|] eqn:Ho; [| discriminate].
        destruct (nth_error osd si) as [os|] eqn:Hos; [| discriminate].
        injection Hstep as _ <-.
        unfold deburrData in Hs. rewrite nth_error_map in Hs.
        unfold SislameItem in *. rewrite Hos in Hs. injection Hs as <-.
        apply addGranted_dependents; [| exact Hg].
        cbn [parseFamilyAndSislameItems fromFamilyItem fromSislameItem].
        rewrite <- (Hitems i f o (or_introl eq_refl) Ho).
        split; [exact Hmatch | now apply negb_false_iff in Hage].
    + destruct (find _ _);
        apply bind_returned in Hstep; destruct Hstep as (w2 & [] & _ & Hstep);
        now injection Hstep as _ <-.
Qed.

(** X22: where no dependent is claimed on two rows, every dependent on the
    granted list of an import that returns pairs a benefit row with an
    enrollment row that, with diacritics removed, names the same child and
    names the row's guardian as mother, father or responsible, and whose
    birth date puts the child under eighteen; the benefit row itself passed
    the eligibility filter. *)
Theorem granted_dependents_match_their_enrollment :
  forall (familyFile : list FamilyItem) (sislameFile : list SislameItem) (c : CityId)
         (w : World) (granted : list Family) (family : Family) (d : Dependent),
    duplicatedDependentOf (deburrData (originalFamilyDataOf familyFile)) = [] ->
    snd (importFamilyFromCadAndSislameCSV familyFile sislameFile c w) = Returned granted ->
    In family granted ->
    In d (dependentsOf family) ->
    sameChildAndResponsible (deburrRow (fromFamilyItem d)) (deburrRow (fromSislameItem d)) = true
    /\ validAge (get "Data Nascimento" (deburrRow (fromSislameItem d))) = true
    /\ validAge (get "DTNASCDEP" (fromFamilyItem d)) = true.
Proof.
  intros familyFile sislameFile c w granted family d Hnone Hret Hfamily Hd.
  destruct (importFamilyFromCadAndSislameCSV familyFile sislameFile c w) as [w' out] eqn:Hrun.
  cbn [snd] in Hret. subst out.
  assert (Hwell : Forall (wellGranted c (originalFamilyDataOf familyFile)
                            (originalSislameDataOf sislameFile)) granted)
    by (apply (import_wellGranted familyFile sislameFile c w); now rewrite Hrun).
  apply import_returned_parts in Hrun. destruct Hrun as (w1 & w2 & _ & _ & Hrec & _).
  unfold reconcile in Hrec. rewrite Hnone in Hrec.
  rewrite (uniqueCandidates_without_splits _ Hnone) in Hrec.
  apply bind_returned in Hrec. destruct Hrec as (w3 & [] & _ & Hrec).
  apply bind_returned in Hrec. destruct Hrec as (w4 & g & Hloop & Hrec).
  simp duplicatedLoop in Hrec. injection Hrec as _ <-.
  assert (Hpairs :
            Forall (fun family =>
                      Forall (fun d =>
                                sameChildAndResponsible (deburrRow (fromFamilyItem d))
                                  (deburrRow (fromSislameItem d)) = true
                                /\ validAge (get "Data Nascimento"
                                               (deburrRow (fromSislameItem d))) = true)
                        (dependentsOf family)) g).
  { apply (compareLoop_pairs_matching_rows (originalFamilyDataOf familyFile)
             (originalSislameDataOf sislameFile) c
             (List.length (deburrData (originalFamilyDataOf familyFile)))
             (indexed (deburrData (originalFamilyDataOf familyFile))))
      with (granted := []) (w := w3).
    - intros i f o Hin Ho. apply indexed_In in Hin. unfold deburrData in Hin.
      rewrite nth_error_map in Hin. unfold FamilyItem in *. rewrite Ho in Hin.
      now injection Hin as <-.
    - constructor.
    - exact (f_equal snd Hloop). }
  rewrite Forall_forall in Hpairs. specialize (Hpairs family Hfamily).
  rewrite Forall_forall in Hpairs. destruct (Hpairs d Hd) as [Hmatch Hage].
  split; [exact Hmatch | split; [exact Hage |]].
  rewrite Forall_forall in Hwell. destruct (Hwell family Hfamily) as (_ & _ & Hdeps).
  rewrite Forall_forall in Hdeps. destruct (Hdeps d Hd) as [Hin _].
  unfold originalFamilyDataOf in Hin. rewrite filterByAge_split in Hin. cbn [fst] in Hin.
  apply filter_In in Hin. apply Hin.
Qed.

End Alignment.

Lemma granted_dependents_match_their_enrollment_witness :
  exists family d rest,
    snd (sampleImport [mariaRow; mariaLuciaRow] [joaoEnrollment; luciaEnrollment])
    = Returned (family :: rest)
    /\ hd_error (dependentsOf family) = Some d
    /\ @sameChildAndResponsible sampleExternals (@deburrRow sampleExternals (fromFamilyItem d))
         (@deburrRow sampleExternals (fromSislameItem d)) = true.
Proof.
  assert (Hnone : duplicatedDependentOf
                    (@deburrData sampleExternals
                       (@originalFamilyDataOf sampleExternals [mariaRow; mariaLuciaRow])) = [])
    by (vm_compute; reflexivity).
  assert (Hrun : exists family d ds rest,
             snd (sampleImport [mariaRow; mariaLuciaRow] [joaoEnrollment; luciaEnrollment])
             = Returned (family :: rest)
             /\ dependentsOf family = d :: ds).
  { vm_compute. eexists. eexists. eexists. eexists. split; reflexivity. }
  destruct Hrun as (family & d & ds & rest & Hret & Hdeps).
  assert (Hd : In d (dependentsOf family)) by (rewrite Hdeps; left; reflexivity).
  destruct (@granted_dependents_match_their_enrollment sampleExternals
              [mariaRow; mariaLuciaRow] [joaoEnrollment; luciaEnrollment] (CityNum 1)
              emptyWorld (family :: rest) family d Hnone Hret (or_introl eq_refl) Hd)
    as (Hmatch & _ & _).
  exists family, d, rest. split; [exact Hret |]. split; [| exact Hmatch].
  rewrite Hdeps. reflexivity.
Defined.
